(** * Sports_android: rep classifiers, feedback queue and camera manager

    A shallow embedding of the server-side analyzers
    ([server/src/analyzers/squat_analyzer.py],
    [server/src/analyzers/jump_analyzer.py]) and of the camera manager
    ([server/src/utils/camera_manager.py]).

    Numbers.  Python floats are modelled by exact rationals ([Q]); every
    comparison, sum, mean, minimum and maximum of the source is kept, rounding
    is not.  Counters are Python ints that only grow from zero: [nat].

    Trigonometry.  The two angle helpers of the source ([_calculate_angle],
    built on [arctan2], and the local [angle] of [detect_squat_cheat], built
    on [acos]) are not rational functions; the classifiers take them as
    parameters.  Image drawing ([cv2.putText], overlays) has no effect on the
    classifier state and is left out. *)

From Stdlib Require Import String.
From Stdlib Require Import DecimalString.
From Stdlib Require Import ZArith QArith Qminmax Qabs List Bool Arith Lia Lqa.
Import ListNotations.

Open Scope Q_scope.

(** ** Python numerics over [Q] *)

(** [x < y] as a boolean test. *)
Definition Qltb (x y : Q) : bool := negb (Qle_bool y x).

(** [sum(xs)]: left fold from the integer [0]. *)
Definition py_sum (xs : list Q) : Q := fold_left Qplus xs 0.

(** [len(xs)] as a number. *)
Definition py_len (xs : list Q) : Q := inject_Z (Z.of_nat (length xs)).

(** [sum(xs) / len(xs)]. *)
Definition mean (xs : list Q) : Q := py_sum xs / py_len xs.

(** [deque(maxlen=n).append(v)]: append on the right; an element falls off
    the left once the bound is exceeded. *)
Definition deque_append (maxlen : nat) (d : list Q) (v : Q) : list Q :=
  let d' := d ++ [v] in
  if (maxlen <? length d')%nat then tl d' else d'.

(** Python slice [l[-n:]]. *)
Definition last_n {A : Type} (n : nat) (l : list A) : list A :=
  skipn (length l - n) l.

(** [l[-1]] when [l] is not empty. *)
Definition last_opt {A : Type} (l : list A) : option A :=
  match rev l with
  | [] => None
  | x :: _ => Some x
  end.

(** ** Pose estimator output *)

Inductive PoseLandmark : Type :=
| NOSE | LEFT_SHOULDER
| LEFT_HIP | RIGHT_HIP
| LEFT_KNEE | RIGHT_KNEE
| LEFT_ANKLE | RIGHT_ANKLE
| LEFT_INDEX | RIGHT_INDEX.

Record Landmark : Type := mkLandmark {
  lm_x : Q;
  lm_y : Q;
  lm_visibility : Q
}.

(** [results.pose_landmarks.landmark], indexed by landmark name. *)
Definition Landmarks : Type := PoseLandmark -> Landmark.

Definition Point : Type := (Q * Q)%type.

(** ** Squat stages *)

Inductive Stage : Type := S1 | S2 | S3.

Definition Stage_eqb (a b : Stage) : bool :=
  match a, b with
  | S1, S1 | S2, S2 | S3, S3 => true
  | _, _ => false
  end.

Definition opt_Stage_eqb (a b : option Stage) : bool :=
  match a, b with
  | None, None => true
  | Some x, Some y => Stage_eqb x y
  | _, _ => false
  end.

Fixpoint seq_eqb (l1 l2 : list Stage) : bool :=
  match l1, l2 with
  | [], [] => true
  | a :: l1', b :: l2' => Stage_eqb a b && seq_eqb l1' l2'
  | _, _ => false
  end.

(** ["S3" in sequence]. *)
Definition seq_mem (st : Stage) (l : list Stage) : bool :=
  existsb (Stage_eqb st) l.

(** Feedback texts of the squat analyzers. *)
Definition MSG_CORRECT : string := "Correct Squat".
Definition MSG_INCOMPLETE_MOBILE : string := "Incomplete Squat - Go deeper".
Definition MSG_INCOMPLETE_CAMERA : string := "Incomplete - Go deeper".
Definition MSG_HOLD : string := "Hold at bottom longer".
Definition MSG_BEND_FORWARD : string := "Bend forward".
Definition MSG_BEND_BACKWARDS : string := "Bend backwards".
Definition MSG_LOWER_HIPS : string := "Lower your hips".
Definition MSG_TOO_DEEP : string := "Squat too deep".
Definition MSG_RAISE_DEEPER : string := "Raise deeper".
Definition MSG_KNEES_OVER_TOES : string := "Knees over toes".
Definition MSG_NOT_VISIBLE : string := "Please make your full body visible".

Definition opt_string_eqb (a b : option string) : bool :=
  match a, b with
  | None, None => true
  | Some x, Some y => String.eqb x y
  | _, _ => false
  end.

(** Class constants shared by [SquatAnalyzer] and [SquatAnalyzerMobile]. *)
Definition STAGE_S1_THRESHOLD : Q := 160.
Definition STAGE_S2_THRESHOLD : Q := 95.
Definition VISIBILITY_THRESHOLD : Q := 8 # 10.
Definition DEPTH_HOLD_REQUIREMENT : nat := 3.

(** [_get_landmark]: the list [[lm.x, lm.y, lm.visibility]]. *)
Definition get_landmark (landmarks : Landmarks) (name : PoseLandmark)
  : Q * Q * Q :=
  let lm := landmarks name in (lm_x lm, lm_y lm, lm_visibility lm).

Definition xy (l : Q * Q * Q) : Point := fst l.
Definition vis (l : Q * Q * Q) : Q := snd l.

(** The stage chosen from the smoothed knee angle; [prev] is kept when no
    branch of the [if/elif/elif] chain applies. *)
Definition classify_stage (prev : option Stage) (knee_angle : Q)
  : option Stage :=
  if Qltb STAGE_S1_THRESHOLD knee_angle then Some S1
  else if Qle_bool knee_angle STAGE_S1_THRESHOLD
          && Qltb STAGE_S2_THRESHOLD knee_angle then Some S2
  else if Qle_bool knee_angle STAGE_S2_THRESHOLD then Some S3
  else prev.

(** [if self.stage and prev_stage != self.stage: self.sequence.append(...)]. *)
Definition record_stage (prev cur : option Stage) (sequence : list Stage)
  : list Stage :=
  match cur with
  | Some st => if negb (opt_Stage_eqb prev cur) then sequence ++ [st]
               else sequence
  | None => sequence
  end.

(** The form-feedback chain that runs after rep resolution; the last
    assignment wins. *)
Definition form_feedback (feedback : option string) (stage : option Stage)
    (knee_angle back_angle min_knee_angle : Q) (ankle knee : Q * Q * Q)
  : option string :=
  let feedback :=
    if Qltb back_angle 25 then Some MSG_BEND_FORWARD
    else if Qltb 50 back_angle then Some MSG_BEND_BACKWARDS
    else if opt_Stage_eqb stage (Some S2) && Qltb 80 knee_angle
         then Some MSG_LOWER_HIPS
    else if opt_Stage_eqb stage (Some S3) && Qltb knee_angle 50
         then Some MSG_TOO_DEEP
    else if opt_Stage_eqb stage (Some S3) && Qltb 60 min_knee_angle
         then Some MSG_RAISE_DEEPER
    else feedback in
  if Qltb (fst (xy knee)) (fst (xy ankle)) then Some MSG_KNEES_OVER_TOES
  else feedback.

(** ** SquatAnalyzerMobile *)

Module SquatAnalyzerMobile.

Record State : Type := mkState {
  correct_counter : nat;
  incorrect_counter : nat;
  stage : option Stage;
  sequence : list Stage;
  feedback : option string;
  knee_history : list Q;
  back_history : list Q;
  depth_hold : nat;
  min_knee_angle : Q
}.

(** [__init__]. *)
Definition init : State :=
  {| correct_counter := 0; incorrect_counter := 0; stage := None;
     sequence := []; feedback := None; knee_history := [];
     back_history := []; depth_hold := 0; min_knee_angle := 180 |}.

Definition set_correct_counter (v : nat) (s : State) : State :=
  {| correct_counter := v; incorrect_counter := incorrect_counter s;
     stage := stage s; sequence := sequence s; feedback := feedback s;
     knee_history := knee_history s; back_history := back_history s;
     depth_hold := depth_hold s; min_knee_angle := min_knee_angle s |}.

Definition set_incorrect_counter (v : nat) (s : State) : State :=
  {| correct_counter := correct_counter s; incorrect_counter := v;
     stage := stage s; sequence := sequence s; feedback := feedback s;
     knee_history := knee_history s; back_history := back_history s;
     depth_hold := depth_hold s; min_knee_angle := min_knee_angle s |}.

Definition set_stage (v : option Stage) (s : State) : State :=
  {| correct_counter := correct_counter s;
     incorrect_counter := incorrect_counter s;
     stage := v; sequence := sequence s; feedback := feedback s;
     knee_history := knee_history s; back_history := back_history s;
     depth_hold := depth_hold s; min_knee_angle := min_knee_angle s |}.

Definition set_sequence (v : list Stage) (s : State) : State :=
  {| correct_counter := correct_counter s;
     incorrect_counter := incorrect_counter s;
     stage := stage s; sequence := v; feedback := feedback s;
     knee_history := knee_history s; back_history := back_history s;
     depth_hold := depth_hold s; min_knee_angle := min_knee_angle s |}.

Definition set_feedback (v : option string) (s : State) : State :=
  {| correct_counter := correct_counter s;
     incorrect_counter := incorrect_counter s;
     stage := stage s; sequence := sequence s; feedback := v;
     knee_history := knee_history s; back_history := back_history s;
     depth_hold := depth_hold s; min_knee_angle := min_knee_angle s |}.

Definition set_knee_history (v : list Q) (s : State) : State :=
  {| correct_counter := correct_counter s;
     incorrect_counter := incorrect_counter s;
     stage := stage s; sequence := sequence s; feedback := feedback s;
     knee_history := v; back_history := back_history s;
     depth_hold := depth_hold s; min_knee_angle := min_knee_angle s |}.

Definition set_back_history (v : list Q) (s : State) : State :=
  {| correct_counter := correct_counter s;
     incorrect_counter := incorrect_counter s;
     stage := stage s; sequence := sequence s; feedback := feedback s;
     knee_history := knee_history s; back_history := v;
     depth_hold := depth_hold s; min_knee_angle := min_knee_angle s |}.

Definition set_depth_hold (v : nat) (s : State) : State :=
  {| correct_counter := correct_counter s;
     incorrect_counter := incorrect_counter s;
     stage := stage s; sequence := sequence s; feedback := feedback s;
     knee_history := knee_history s; back_history := back_history s;
     depth_hold := v; min_knee_angle := min_knee_angle s |}.

Definition set_min_knee_angle (v : Q) (s : State) : State :=
  {| correct_counter := correct_counter s;
     incorrect_counter := incorrect_counter s;
     stage := stage s; sequence := sequence s; feedback := feedback s;
     knee_history := knee_history s; back_history := back_history s;
     depth_hold := depth_hold s; min_knee_angle := v |}.

(** The rep-resolution [if/elif/elif] of [process_frame]; it returns the
    state together with the local variable [feedback]. *)
Definition resolve_rep (knee_angle : Q) (s : State) : State * option string :=
  if (3 <=? length (sequence s))%nat
     && seq_eqb (last_n 3 (sequence s)) [S1; S2; S3]
     && (3 <=? depth_hold s)%nat
  then
    if Qltb 100 knee_angle then
      (set_depth_hold 0
         (set_min_knee_angle 180
            (set_sequence []
               (set_correct_counter (correct_counter s + 1) s))),
       Some MSG_CORRECT)
    else (s, None)
  else if (3 <=? length (sequence s))%nat
          && seq_eqb (last_n 3 (sequence s)) [S2; S3; S2]
          && (3 <=? depth_hold s)%nat
  then
    (set_depth_hold 0
       (set_min_knee_angle 180
          (set_sequence []
             (set_correct_counter (correct_counter s + 1) s))),
     Some MSG_CORRECT)
  else if (3 <=? length (sequence s))%nat
          && opt_Stage_eqb (last_opt (sequence s)) (Some S1)
  then
    let '(s, feedback) :=
      if negb (seq_eqb (sequence s) [S1]) && negb (seq_mem S3 (sequence s))
      then (set_incorrect_counter (incorrect_counter s + 1) s,
            Some MSG_INCOMPLETE_MOBILE)
      else if negb (seq_eqb (sequence s) [S1]) && (depth_hold s <? 3)%nat
      then (set_incorrect_counter (incorrect_counter s + 1) s,
            Some MSG_HOLD)
      else (s, None) in
    (set_depth_hold 0 (set_sequence [] s), feedback)
  else (s, None).

Section WithAngle.

(** [_calculate_angle(a, b, c)]: the angle at [b], in degrees. *)
Variable calculate_angle : Point -> Point -> Point -> Q.

(** [process_frame]; the argument is [results.pose_landmarks]. *)
Definition process_frame (s : State) (pose_landmarks : option Landmarks)
  : State :=
  match pose_landmarks with
  | Some landmarks =>
    let shoulder := get_landmark landmarks LEFT_SHOULDER in
    let hip := get_landmark landmarks LEFT_HIP in
    let knee := get_landmark landmarks LEFT_KNEE in
    let ankle := get_landmark landmarks LEFT_ANKLE in
    if forallb (fun lm => Qltb VISIBILITY_THRESHOLD (vis lm))
               [shoulder; hip; knee; ankle]
    then
      let knee_angle := calculate_angle (xy hip) (xy knee) (xy ankle) in
      let back_angle := calculate_angle (xy shoulder) (xy hip) (xy knee) in
      let s := set_knee_history (deque_append 5 (knee_history s) knee_angle) s in
      let s := set_back_history (deque_append 5 (back_history s) back_angle) s in
      let knee_angle := mean (knee_history s) in
      let back_angle := mean (back_history s) in
      let s := set_min_knee_angle (Qmin (min_knee_angle s) knee_angle) s in
      let prev_stage := stage s in
      let s := set_stage (classify_stage prev_stage knee_angle) s in
      let s := set_sequence (record_stage prev_stage (stage s) (sequence s)) s in
      let s :=
        if opt_Stage_eqb (stage s) (Some S3)
        then set_depth_hold (depth_hold s + 1) s
        else s in
      let '(s, feedback) := resolve_rep knee_angle s in
      let feedback :=
        form_feedback feedback (stage s) knee_angle back_angle
                      (min_knee_angle s) ankle knee in
      set_feedback feedback s
    else set_feedback (Some MSG_NOT_VISIBLE) s
  | None => set_feedback (Some MSG_NOT_VISIBLE) s
  end.

(** Frames processed in order, oldest first. *)
Definition run (s : State) (frames : list (option Landmarks)) : State :=
  fold_left process_frame frames s.

End WithAngle.

(** [reset]. *)
Definition reset (s : State) : State :=
  let s := set_correct_counter 0 s in
  let s := set_incorrect_counter 0 s in
  let s := set_sequence [] s in
  let s := set_stage None s in
  let s := set_depth_hold 0 s in
  let s := set_min_knee_angle 180 s in
  let s := set_feedback None s in
  let s := set_knee_history [] s in
  set_back_history [] s.

End SquatAnalyzerMobile.

(** ** SquatAnalyzer (camera) *)

Module SquatAnalyzer.

(** [speech_queue] lists the texts put on the queue so far, oldest first;
    the worker thread that takes them off is not modelled. *)
Record State : Type := mkState {
  correct_counter : nat;
  incorrect_counter : nat;
  stage : option Stage;
  sequence : list Stage;
  last_feedback : option string;
  feedback : option string;
  knee_history : list Q;
  back_history : list Q;
  depth_hold : nat;
  min_knee_angle : Q;
  speech_queue : list string
}.

(** [_init_counters] and [_init_speech]. *)
Definition init : State :=
  {| correct_counter := 0; incorrect_counter := 0; stage := None;
     sequence := []; last_feedback := None; feedback := None;
     knee_history := []; back_history := []; depth_hold := 0;
     min_knee_angle := 180; speech_queue := [] |}.

Definition set_correct_counter (v : nat) (s : State) : State :=
  {| correct_counter := v; incorrect_counter := incorrect_counter s; stage :=
     stage s; sequence := sequence s; last_feedback := last_feedback s;
     feedback := feedback s; knee_history := knee_history s; back_history :=
     back_history s; depth_hold := depth_hold s; min_knee_angle :=
     min_knee_angle s; speech_queue := speech_queue s |}.

Definition set_incorrect_counter (v : nat) (s : State) : State :=
  {| correct_counter := correct_counter s; incorrect_counter := v; stage :=
     stage s; sequence := sequence s; last_feedback := last_feedback s;
     feedback := feedback s; knee_history := knee_history s; back_history :=
     back_history s; depth_hold := depth_hold s; min_knee_angle :=
     min_knee_angle s; speech_queue := speech_queue s |}.

Definition set_stage (v : option Stage) (s : State) : State :=
  {| correct_counter := correct_counter s; incorrect_counter :=
     incorrect_counter s; stage := v; sequence := sequence s; last_feedback
     := last_feedback s; feedback := feedback s; knee_history := knee_history
     s; back_history := back_history s; depth_hold := depth_hold s;
     min_knee_angle := min_knee_angle s; speech_queue := speech_queue s |}.

Definition set_sequence (v : list Stage) (s : State) : State :=
  {| correct_counter := correct_counter s; incorrect_counter :=
     incorrect_counter s; stage := stage s; sequence := v; last_feedback :=
     last_feedback s; feedback := feedback s; knee_history := knee_history s;
     back_history := back_history s; depth_hold := depth_hold s;
     min_knee_angle := min_knee_angle s; speech_queue := speech_queue s |}.

Definition set_last_feedback (v : option string) (s : State) : State :=
  {| correct_counter := correct_counter s; incorrect_counter :=
     incorrect_counter s; stage := stage s; sequence := sequence s;
     last_feedback := v; feedback := feedback s; knee_history := knee_history
     s; back_history := back_history s; depth_hold := depth_hold s;
     min_knee_angle := min_knee_angle s; speech_queue := speech_queue s |}.

Definition set_feedback (v : option string) (s : State) : State :=
  {| correct_counter := correct_counter s; incorrect_counter :=
     incorrect_counter s; stage := stage s; sequence := sequence s;
     last_feedback := last_feedback s; feedback := v; knee_history :=
     knee_history s; back_history := back_history s; depth_hold := depth_hold
     s; min_knee_angle := min_knee_angle s; speech_queue := speech_queue s |}.

Definition set_knee_history (v : list Q) (s : State) : State :=
  {| correct_counter := correct_counter s; incorrect_counter :=
     incorrect_counter s; stage := stage s; sequence := sequence s;
     last_feedback := last_feedback s; feedback := feedback s; knee_history
     := v; back_history := back_history s; depth_hold := depth_hold s;
     min_knee_angle := min_knee_angle s; speech_queue := speech_queue s |}.

Definition set_back_history (v : list Q) (s : State) : State :=
  {| correct_counter := correct_counter s; incorrect_counter :=
     incorrect_counter s; stage := stage s; sequence := sequence s;
     last_feedback := last_feedback s; feedback := feedback s; knee_history
     := knee_history s; back_history := v; depth_hold := depth_hold s;
     min_knee_angle := min_knee_angle s; speech_queue := speech_queue s |}.

Definition set_depth_hold (v : nat) (s : State) : State :=
  {| correct_counter := correct_counter s; incorrect_counter :=
     incorrect_counter s; stage := stage s; sequence := sequence s;
     last_feedback := last_feedback s; feedback := feedback s; knee_history
     := knee_history s; back_history := back_history s; depth_hold := v;
     min_knee_angle := min_knee_angle s; speech_queue := speech_queue s |}.

Definition set_min_knee_angle (v : Q) (s : State) : State :=
  {| correct_counter := correct_counter s; incorrect_counter :=
     incorrect_counter s; stage := stage s; sequence := sequence s;
     last_feedback := last_feedback s; feedback := feedback s; knee_history
     := knee_history s; back_history := back_history s; depth_hold :=
     depth_hold s; min_knee_angle := v; speech_queue := speech_queue s |}.

Definition set_speech_queue (v : list string) (s : State) : State :=
  {| correct_counter := correct_counter s; incorrect_counter :=
     incorrect_counter s; stage := stage s; sequence := sequence s;
     last_feedback := last_feedback s; feedback := feedback s; knee_history
     := knee_history s; back_history := back_history s; depth_hold :=
     depth_hold s; min_knee_angle := min_knee_angle s; speech_queue := v |}.

(** Truth value of [text] in [if text and ...]: [None] and the empty string
    are false. *)
Definition truthy (text : option string) : bool :=
  match text with
  | Some t => negb (String.eqb t EmptyString)
  | None => false
  end.

(** [_speak]. *)
Definition speak (text : option string) (s : State) : State :=
  match text with
  | Some t =>
    if truthy text && negb (opt_string_eqb text (last_feedback s)) then
      let s := set_last_feedback text s in
      set_speech_queue (speech_queue s ++ [t]) s
    else s
  | None => s
  end.

(** [_speak] called on each text in turn. *)
Definition speak_all (texts : list (option string)) (s : State) : State :=
  fold_left (fun s t => speak t s) texts s.

(** The squat-completion [if/elif/elif] of [read_frame], with the local
    variable [feedback] (which is [None] when the chain is entered). *)
Definition resolve_rep (s : State) : State * option string :=
  if (3 <=? length (sequence s))%nat
     && seq_eqb (last_n 3 (sequence s)) [S2; S3; S2]
     && (DEPTH_HOLD_REQUIREMENT <=? depth_hold s)%nat
  then
    (set_depth_hold 0
       (set_min_knee_angle 180
          (set_sequence []
             (set_correct_counter (correct_counter s + 1) s))),
     Some MSG_CORRECT)
  else if (4 <=? length (sequence s))%nat
          && seq_mem S3 (sequence s)
          && opt_Stage_eqb (last_opt (sequence s)) (Some S1)
          && (DEPTH_HOLD_REQUIREMENT <=? depth_hold s)%nat
  then
    (set_depth_hold 0
       (set_min_knee_angle 180
          (set_sequence []
             (set_correct_counter (correct_counter s + 1) s))),
     Some MSG_CORRECT)
  else if (3 <=? length (sequence s))%nat
          && opt_Stage_eqb (last_opt (sequence s)) (Some S1)
  then
    let '(s, feedback) :=
      if negb (seq_eqb (sequence s) [S1]) && negb (seq_mem S3 (sequence s))
      then (set_incorrect_counter (incorrect_counter s + 1) s,
            Some MSG_INCOMPLETE_CAMERA)
      else if negb (seq_eqb (sequence s) [S1])
              && (depth_hold s <? DEPTH_HOLD_REQUIREMENT)%nat
      then (set_incorrect_counter (incorrect_counter s + 1) s,
            Some MSG_HOLD)
      else (s, None) in
    (set_depth_hold 0 (set_sequence [] s), feedback)
  else (s, None).

Section WithAngle.

Variable calculate_angle : Point -> Point -> Point -> Q.

(** [read_frame].  The argument is the outcome of [self.cap.read()]
    followed by the pose estimator: [None] when the capture failed ([ret]
    false), otherwise [results.pose_landmarks]. *)
Definition read_frame (s : State) (capture : option (option Landmarks))
  : State :=
  match capture with
  | None => s
  | Some (Some landmarks) =>
    let shoulder := get_landmark landmarks LEFT_SHOULDER in
    let hip := get_landmark landmarks LEFT_HIP in
    let knee := get_landmark landmarks LEFT_KNEE in
    let ankle := get_landmark landmarks LEFT_ANKLE in
    if forallb (fun lm => Qltb VISIBILITY_THRESHOLD (vis lm))
               [shoulder; hip; knee; ankle]
    then
      let knee_angle := calculate_angle (xy hip) (xy knee) (xy ankle) in
      let back_angle := calculate_angle (xy shoulder) (xy hip) (xy knee) in
      let s := set_knee_history (deque_append 5 (knee_history s) knee_angle) s in
      let s := set_back_history (deque_append 5 (back_history s) back_angle) s in
      let knee_angle := mean (knee_history s) in
      let back_angle := mean (back_history s) in
      let s := set_min_knee_angle (Qmin (min_knee_angle s) knee_angle) s in
      let prev_stage := stage s in
      let s := set_stage (classify_stage prev_stage knee_angle) s in
      let s := set_sequence (record_stage prev_stage (stage s) (sequence s)) s in
      let s :=
        if opt_Stage_eqb (stage s) (Some S3)
        then set_depth_hold (depth_hold s + 1) s
        else s in
      let '(s, feedback) := resolve_rep s in
      let feedback :=
        form_feedback feedback (stage s) knee_angle back_angle
                      (min_knee_angle s) ankle knee in
      speak feedback (set_feedback feedback s)
    else
      speak (Some MSG_NOT_VISIBLE) (set_feedback (Some MSG_NOT_VISIBLE) s)
  | Some None =>
    speak (Some MSG_NOT_VISIBLE) (set_feedback (Some MSG_NOT_VISIBLE) s)
  end.

End WithAngle.

End SquatAnalyzer.

(** ** Jump measurement: module-level configuration and helpers *)

(** The values read from the environment when [jump_analyzer.py] is loaded. *)
Record Config : Type := mkConfig {
  CALIBRATION_INCHES : Q;
  CALIBRATION_PIXELS : Q;
  MIN_JUMP_INCHES : Q;
  SMOOTHING_WINDOW : Z;
  MIN_AIRBORNE_FRAMES : Z;
  VEL_UP_PCT_OF_H : Q;
  VEL_DOWN_PCT_OF_H : Q
}.

(** The defaults of the [os.getenv] calls. *)
Definition default_config : Config :=
  {| CALIBRATION_INCHES := 12; CALIBRATION_PIXELS := 100;
     MIN_JUMP_INCHES := 2; SMOOTHING_WINDOW := 5; MIN_AIRBORNE_FRAMES := 6;
     VEL_UP_PCT_OF_H := 25 # 100; VEL_DOWN_PCT_OF_H := 25 # 100 |}.

Record JumpResult : Type := mkJumpResult {
  inches : Q;
  valid : bool;
  reason : string
}.

Definition REASON_TOO_SMALL : string := "too-small".
Definition REASON_CHEAT : string := "cheat".
Definition REASON_OK : string := "ok".

Definition inches_per_pixel (cfg : Config) : Q :=
  if Qltb 0 (CALIBRATION_PIXELS cfg)
  then CALIBRATION_INCHES cfg / CALIBRATION_PIXELS cfg
  else 12 # 100.

(** [distance(p1, p2) < thresh].  [math.hypot] is not a rational function;
    on exact numbers the comparison is the one between the squares. *)
Definition distance_lt (p1 p2 : Point) (thresh : Q) : bool :=
  let dx := fst p1 - fst p2 in
  let dy := snd p1 - snd p2 in
  Qltb 0 thresh && Qltb (dx * dx + dy * dy) (thresh * thresh).

(** [landmark_xy]: pixel coordinates, or [None] when visibility is below
    0.4. *)
Definition landmark_xy (landmarks : Landmarks) (idx : PoseLandmark) (w h : Z)
  : option Point :=
  let lm := landmarks idx in
  if Qltb (lm_visibility lm) (4 # 10) then None
  else Some (lm_x lm * inject_Z w, lm_y lm * inject_Z h).

Definition is_hand_to_nose (landmarks : Landmarks) (w h : Z)
    (hand_idx nose_idx : PoseLandmark) (thresh : Q) : bool :=
  match landmark_xy landmarks hand_idx w h,
        landmark_xy landmarks nose_idx w h with
  | Some p_hand, Some p_nose => distance_lt p_hand p_nose thresh
  | _, _ => false
  end.

(** [list.append] followed by [pop(0)] when the list is longer than [cap]. *)
Definition history_push (cap : Z) (l : list Q) (v : Q) : list Q :=
  let l' := l ++ [v] in
  if (cap <? Z.of_nat (length l'))%Z then tl l' else l'.

Inductive Phase : Type := idle | armed | airborne | landed.

Definition Phase_eqb (a b : Phase) : bool :=
  match a, b with
  | idle, idle | armed, armed | airborne, airborne | landed, landed => true
  | _, _ => false
  end.

Section WithKneeAngle.

(** The local function [angle(a, b, c)] of [detect_squat_cheat]. *)
Variable angle : Point -> Point -> Point -> Q.

Definition detect_squat_cheat (landmarks : Landmarks) (w h : Z) : bool :=
  match landmark_xy landmarks LEFT_HIP w h,
        landmark_xy landmarks RIGHT_HIP w h,
        landmark_xy landmarks LEFT_KNEE w h,
        landmark_xy landmarks RIGHT_KNEE w h,
        landmark_xy landmarks LEFT_ANKLE w h,
        landmark_xy landmarks RIGHT_ANKLE w h with
  | Some left_hip, Some right_hip, Some left_knee, Some right_knee,
    Some left_ankle, Some right_ankle =>
    let hip_y := (snd left_hip + snd right_hip) / 2 in
    let knee_y := (snd left_knee + snd right_knee) / 2 in
    let knee_angle_left := angle left_hip left_knee left_ankle in
    let knee_angle_right := angle right_hip right_knee right_ankle in
    let knee_angle := (knee_angle_left + knee_angle_right) / 2 in
    let is_knee_bent := Qltb knee_angle 150 in
    let is_hip_low := Qltb (knee_y - 20) hip_y in
    let is_ankle_under :=
      Qltb (Qabs ((fst left_ankle + fst right_ankle) / 2
                  - (fst left_hip + fst right_hip) / 2)) 60 in
    is_knee_bent && (is_hip_low || is_ankle_under)
  | _, _, _, _, _, _ => false
  end.

End WithKneeAngle.

(** ** JumpAnalyzer (camera) *)

Module JumpAnalyzer.

Record State : Type := mkState {
  state : Phase;
  baseline_nose_y : option Q;
  peak_delta_pixels : Q;
  last_land_time : Q;
  last_jump_result : option JumpResult;
  prev_dy : option Q;
  airborne_frames : Z;
  prev_time : Q;
  fps : Q;
  dy_debug : Q;
  vel_debug : Q;
  nose_history : list Q;
  steady_frames : Z;
  min_airborne_frames : Z
}.

(** [_init_state]; [start_time] is the value of [time.time()] at
    construction. *)
Definition init (cfg : Config) (start_time : Q) : State :=
  {| state := idle; baseline_nose_y := None; peak_delta_pixels := 0;
     last_land_time := 0; last_jump_result := None; prev_dy := None;
     airborne_frames := 0; prev_time := start_time; fps := 0;
     dy_debug := 0; vel_debug := 0; nose_history := [];
     steady_frames := 0; min_airborne_frames := MIN_AIRBORNE_FRAMES cfg |}.

Definition set_state (v : Phase) (s : State) : State :=
  {| state := v; baseline_nose_y := baseline_nose_y s; peak_delta_pixels :=
     peak_delta_pixels s; last_land_time := last_land_time s;
     last_jump_result := last_jump_result s; prev_dy := prev_dy s;
     airborne_frames := airborne_frames s; prev_time := prev_time s; fps :=
     fps s; dy_debug := dy_debug s; vel_debug := vel_debug s; nose_history :=
     nose_history s; steady_frames := steady_frames s; min_airborne_frames :=
     min_airborne_frames s |}.

Definition set_baseline_nose_y (v : option Q) (s : State) : State :=
  {| state := state s; baseline_nose_y := v; peak_delta_pixels :=
     peak_delta_pixels s; last_land_time := last_land_time s;
     last_jump_result := last_jump_result s; prev_dy := prev_dy s;
     airborne_frames := airborne_frames s; prev_time := prev_time s; fps :=
     fps s; dy_debug := dy_debug s; vel_debug := vel_debug s; nose_history :=
     nose_history s; steady_frames := steady_frames s; min_airborne_frames :=
     min_airborne_frames s |}.

Definition set_peak_delta_pixels (v : Q) (s : State) : State :=
  {| state := state s; baseline_nose_y := baseline_nose_y s;
     peak_delta_pixels := v; last_land_time := last_land_time s;
     last_jump_result := last_jump_result s; prev_dy := prev_dy s;
     airborne_frames := airborne_frames s; prev_time := prev_time s; fps :=
     fps s; dy_debug := dy_debug s; vel_debug := vel_debug s; nose_history :=
     nose_history s; steady_frames := steady_frames s; min_airborne_frames :=
     min_airborne_frames s |}.

Definition set_last_land_time (v : Q) (s : State) : State :=
  {| state := state s; baseline_nose_y := baseline_nose_y s;
     peak_delta_pixels := peak_delta_pixels s; last_land_time := v;
     last_jump_result := last_jump_result s; prev_dy := prev_dy s;
     airborne_frames := airborne_frames s; prev_time := prev_time s; fps :=
     fps s; dy_debug := dy_debug s; vel_debug := vel_debug s; nose_history :=
     nose_history s; steady_frames := steady_frames s; min_airborne_frames :=
     min_airborne_frames s |}.

Definition set_last_jump_result (v : option JumpResult) (s : State) : State :=
  {| state := state s; baseline_nose_y := baseline_nose_y s;
     peak_delta_pixels := peak_delta_pixels s; last_land_time :=
     last_land_time s; last_jump_result := v; prev_dy := prev_dy s;
     airborne_frames := airborne_frames s; prev_time := prev_time s; fps :=
     fps s; dy_debug := dy_debug s; vel_debug := vel_debug s; nose_history :=
     nose_history s; steady_frames := steady_frames s; min_airborne_frames :=
     min_airborne_frames s |}.

Definition set_prev_dy (v : option Q) (s : State) : State :=
  {| state := state s; baseline_nose_y := baseline_nose_y s;
     peak_delta_pixels := peak_delta_pixels s; last_land_time :=
     last_land_time s; last_jump_result := last_jump_result s; prev_dy := v;
     airborne_frames := airborne_frames s; prev_time := prev_time s; fps :=
     fps s; dy_debug := dy_debug s; vel_debug := vel_debug s; nose_history :=
     nose_history s; steady_frames := steady_frames s; min_airborne_frames :=
     min_airborne_frames s |}.

Definition set_airborne_frames (v : Z) (s : State) : State :=
  {| state := state s; baseline_nose_y := baseline_nose_y s;
     peak_delta_pixels := peak_delta_pixels s; last_land_time :=
     last_land_time s; last_jump_result := last_jump_result s; prev_dy :=
     prev_dy s; airborne_frames := v; prev_time := prev_time s; fps := fps s;
     dy_debug := dy_debug s; vel_debug := vel_debug s; nose_history :=
     nose_history s; steady_frames := steady_frames s; min_airborne_frames :=
     min_airborne_frames s |}.

Definition set_prev_time (v : Q) (s : State) : State :=
  {| state := state s; baseline_nose_y := baseline_nose_y s;
     peak_delta_pixels := peak_delta_pixels s; last_land_time :=
     last_land_time s; last_jump_result := last_jump_result s; prev_dy :=
     prev_dy s; airborne_frames := airborne_frames s; prev_time := v; fps :=
     fps s; dy_debug := dy_debug s; vel_debug := vel_debug s; nose_history :=
     nose_history s; steady_frames := steady_frames s; min_airborne_frames :=
     min_airborne_frames s |}.

Definition set_fps (v : Q) (s : State) : State :=
  {| state := state s; baseline_nose_y := baseline_nose_y s;
     peak_delta_pixels := peak_delta_pixels s; last_land_time :=
     last_land_time s; last_jump_result := last_jump_result s; prev_dy :=
     prev_dy s; airborne_frames := airborne_frames s; prev_time := prev_time
     s; fps := v; dy_debug := dy_debug s; vel_debug := vel_debug s;
     nose_history := nose_history s; steady_frames := steady_frames s;
     min_airborne_frames := min_airborne_frames s |}.

Definition set_dy_debug (v : Q) (s : State) : State :=
  {| state := state s; baseline_nose_y := baseline_nose_y s;
     peak_delta_pixels := peak_delta_pixels s; last_land_time :=
     last_land_time s; last_jump_result := last_jump_result s; prev_dy :=
     prev_dy s; airborne_frames := airborne_frames s; prev_time := prev_time
     s; fps := fps s; dy_debug := v; vel_debug := vel_debug s; nose_history
     := nose_history s; steady_frames := steady_frames s; min_airborne_frames
     := min_airborne_frames s |}.

Definition set_vel_debug (v : Q) (s : State) : State :=
  {| state := state s; baseline_nose_y := baseline_nose_y s;
     peak_delta_pixels := peak_delta_pixels s; last_land_time :=
     last_land_time s; last_jump_result := last_jump_result s; prev_dy :=
     prev_dy s; airborne_frames := airborne_frames s; prev_time := prev_time
     s; fps := fps s; dy_debug := dy_debug s; vel_debug := v; nose_history :=
     nose_history s; steady_frames := steady_frames s; min_airborne_frames :=
     min_airborne_frames s |}.

Definition set_nose_history (v : list Q) (s : State) : State :=
  {| state := state s; baseline_nose_y := baseline_nose_y s;
     peak_delta_pixels := peak_delta_pixels s; last_land_time :=
     last_land_time s; last_jump_result := last_jump_result s; prev_dy :=
     prev_dy s; airborne_frames := airborne_frames s; prev_time := prev_time
     s; fps := fps s; dy_debug := dy_debug s; vel_debug := vel_debug s;
     nose_history := v; steady_frames := steady_frames s; min_airborne_frames
     := min_airborne_frames s |}.

Definition set_steady_frames (v : Z) (s : State) : State :=
  {| state := state s; baseline_nose_y := baseline_nose_y s;
     peak_delta_pixels := peak_delta_pixels s; last_land_time :=
     last_land_time s; last_jump_result := last_jump_result s; prev_dy :=
     prev_dy s; airborne_frames := airborne_frames s; prev_time := prev_time
     s; fps := fps s; dy_debug := dy_debug s; vel_debug := vel_debug s;
     nose_history := nose_history s; steady_frames := v; min_airborne_frames
     := min_airborne_frames s |}.

Definition set_min_airborne_frames (v : Z) (s : State) : State :=
  {| state := state s; baseline_nose_y := baseline_nose_y s;
     peak_delta_pixels := peak_delta_pixels s; last_land_time :=
     last_land_time s; last_jump_result := last_jump_result s; prev_dy :=
     prev_dy s; airborne_frames := airborne_frames s; prev_time := prev_time
     s; fps := fps s; dy_debug := dy_debug s; vel_debug := vel_debug s;
     nose_history := nose_history s; steady_frames := steady_frames s;
     min_airborne_frames := v |}.

(** [_reset_state]. *)
Definition reset_state (s : State) : State :=
  let s := set_state idle s in
  let s := set_baseline_nose_y None s in
  let s := set_peak_delta_pixels 0 s in
  let s := set_prev_dy None s in
  let s := set_airborne_frames 0 s in
  let s := set_nose_history [] s in
  set_steady_frames 0 s.

(** What one successful [self.cap.read()] and the pose estimator deliver:
    the clock, the frame shape and [results.pose_landmarks]. *)
Record Capture : Type := mkCapture {
  cap_now : Q;
  cap_h : Z;
  cap_w : Z;
  cap_pose : option Landmarks
}.

Section WithKneeAngle.

Variable cfg : Config.
Variable angle : Point -> Point -> Point -> Q.

(** [_finalize_jump]. *)
Definition finalize_jump (s : State) (landmarks : Landmarks) (width height : Z)
  : State :=
  let inches := Qmax 0 (peak_delta_pixels s) * inches_per_pixel cfg in
  if Qltb inches (MIN_JUMP_INCHES cfg) then
    set_last_jump_result
      (Some {| inches := inches; valid := false;
               reason := REASON_TOO_SMALL |}) s
  else
    let cheated := detect_squat_cheat angle landmarks width height in
    if cheated then
      set_last_jump_result
        (Some {| inches := inches; valid := false; reason := REASON_CHEAT |}) s
    else
      set_last_jump_result
        (Some {| inches := inches; valid := true; reason := REASON_OK |}) s.

(** The body of [if p_nose and self.baseline_nose_y is not None:]. *)
Definition detect_jump (s : State) (landmarks : Landmarks) (w h : Z)
    (now dt_local : Q) (p_nose : Point) (baseline : Q) : State :=
  let s :=
    set_nose_history
      (history_push (Z.max 5 (SMOOTHING_WINDOW cfg)) (nose_history s)
                    (snd p_nose)) s in
  let smooth_nose_y := mean (nose_history s) in
  let s :=
    if Qltb (Qabs (smooth_nose_y - baseline)) 4
    then set_steady_frames (steady_frames s + 1)%Z s
    else set_steady_frames 0%Z s in
  let dy := baseline - smooth_nose_y in
  let s := set_dy_debug dy s in
  let vel_dy :=
    match prev_dy s with
    | Some prev => if Qltb 0 dt_local then (dy - prev) / dt_local else 0
    | None => 0
    end in
  let s := set_vel_debug vel_dy s in
  let s := set_prev_dy (Some dy) s in
  let s := set_peak_delta_pixels (Qmax (peak_delta_pixels s) dy) s in
  let arm_thresh := Qmax 8 ((15 # 1000) * inject_Z h) in
  let land_thresh := Qmax 5 ((1 # 100) * inject_Z h) in
  let up_vel_thresh := VEL_UP_PCT_OF_H cfg * inject_Z h in
  let down_vel_thresh := VEL_DOWN_PCT_OF_H cfg * inject_Z h in
  let ready_to_jump := (5 <=? steady_frames s)%Z in
  if Phase_eqb (state s) armed && ready_to_jump
     && Qltb arm_thresh dy && Qltb up_vel_thresh vel_dy
  then set_airborne_frames 0%Z (set_state airborne s)
  else if Phase_eqb (state s) airborne then
    let s := set_airborne_frames (airborne_frames s + 1)%Z s in
    if Qltb dy land_thresh && Qltb vel_dy (- down_vel_thresh)
       && (min_airborne_frames s <=? airborne_frames s)%Z
    then
      let s := set_state landed s in
      let s := set_last_land_time now s in
      let s := finalize_jump s landmarks w h in
      set_steady_frames 0%Z s
    else s
  else s.

(** The body of [if landmarks:]. *)
Definition observe (s : State) (landmarks : Landmarks) (w h : Z)
    (now dt_local : Q) : State :=
  let s :=
    if Phase_eqb (state s) idle
       && is_hand_to_nose landmarks w h RIGHT_INDEX NOSE 60
    then
      let s := set_state armed s in
      let s :=
        match landmark_xy landmarks NOSE w h with
        | Some p_nose =>
          set_peak_delta_pixels 0 (set_baseline_nose_y (Some (snd p_nose)) s)
        | None => s
        end in
      set_steady_frames 0%Z s
    else s in
  let s :=
    if (Phase_eqb (state s) armed || Phase_eqb (state s) landed)
       && is_hand_to_nose landmarks w h LEFT_INDEX NOSE 60
    then set_last_jump_result None (reset_state s)
    else s in
  match landmark_xy landmarks NOSE w h, baseline_nose_y s with
  | Some p_nose, Some baseline =>
    detect_jump s landmarks w h now dt_local p_nose baseline
  | _, _ => s
  end.

(** [read_frame]; [None] stands for a closed camera or a failed read. *)
Definition read_frame (s : State) (capture : option Capture) : State :=
  match capture with
  | None => s
  | Some c =>
    let now := cap_now c in
    let dt_local :=
      if negb (Qeq_bool (prev_time s) 0) then now - prev_time s else 0 in
    let s :=
      match cap_pose c with
      | Some landmarks => observe s landmarks (cap_w c) (cap_h c) now dt_local
      | None => s
      end in
    let s :=
      if Qltb 0 dt_local
      then set_fps ((9 # 10) * fps s + (1 # 10) * (1 / dt_local)) s
      else s in
    set_prev_time now s
  end.

Definition run (s : State) (captures : list (option Capture)) : State :=
  fold_left read_frame captures s.

End WithKneeAngle.

End JumpAnalyzer.

(** ** JumpAnalyzerMobile *)

Module JumpAnalyzerMobile.

Record State : Type := mkState {
  baseline_y : option Q;
  max_jump_height : Q;
  jump_count : nat;
  is_jumping : bool;
  current_jump_height : Q;
  feedback : option string;
  y_history : list Q
}.

(** [__init__]. *)
Definition init : State :=
  {| baseline_y := None; max_jump_height := 0; jump_count := 0;
     is_jumping := false; current_jump_height := 0; feedback := None;
     y_history := [] |}.

Definition set_baseline_y (v : option Q) (s : State) : State :=
  {| baseline_y := v; max_jump_height := max_jump_height s; jump_count :=
     jump_count s; is_jumping := is_jumping s; current_jump_height :=
     current_jump_height s; feedback := feedback s; y_history := y_history s |}.

Definition set_max_jump_height (v : Q) (s : State) : State :=
  {| baseline_y := baseline_y s; max_jump_height := v; jump_count :=
     jump_count s; is_jumping := is_jumping s; current_jump_height :=
     current_jump_height s; feedback := feedback s; y_history := y_history s |}.

Definition set_jump_count (v : nat) (s : State) : State :=
  {| baseline_y := baseline_y s; max_jump_height := max_jump_height s;
     jump_count := v; is_jumping := is_jumping s; current_jump_height :=
     current_jump_height s; feedback := feedback s; y_history := y_history s |}.

Definition set_is_jumping (v : bool) (s : State) : State :=
  {| baseline_y := baseline_y s; max_jump_height := max_jump_height s;
     jump_count := jump_count s; is_jumping := v; current_jump_height :=
     current_jump_height s; feedback := feedback s; y_history := y_history s |}.

Definition set_current_jump_height (v : Q) (s : State) : State :=
  {| baseline_y := baseline_y s; max_jump_height := max_jump_height s;
     jump_count := jump_count s; is_jumping := is_jumping s;
     current_jump_height := v; feedback := feedback s; y_history := y_history
     s |}.

Definition set_feedback (v : option string) (s : State) : State :=
  {| baseline_y := baseline_y s; max_jump_height := max_jump_height s;
     jump_count := jump_count s; is_jumping := is_jumping s;
     current_jump_height := current_jump_height s; feedback := v; y_history
     := y_history s |}.

Definition set_y_history (v : list Q) (s : State) : State :=
  {| baseline_y := baseline_y s; max_jump_height := max_jump_height s;
     jump_count := jump_count s; is_jumping := is_jumping s;
     current_jump_height := current_jump_height s; feedback := feedback s;
     y_history := v |}.

(** [int(x)]: truncation toward zero. *)
Definition py_int (x : Q) : Z := Z.quot (Qnum x) (Zpos (Qden x)).

(** [f"Jump Height: {int(x)} px"]. *)
Definition jump_height_text (x : Q) : string :=
  ("Jump Height: " ++ NilZero.string_of_int (Z.to_int (py_int x)) ++ " px")%string.

Definition MSG_READY : string := "Ready to jump".

(** One decoded frame: its height in pixels and [results.pose_landmarks]. *)
Record Frame : Type := mkFrame {
  frame_h : Z;
  pose_landmarks : option Landmarks
}.

(** [process_frame]. *)
Definition process_frame (s : State) (frame : Frame) : State :=
  match pose_landmarks frame with
  | Some landmarks =>
    let left_ankle := landmarks LEFT_ANKLE in
    let right_ankle := landmarks RIGHT_ANKLE in
    if Qltb (7 # 10) (lm_visibility left_ankle)
       && Qltb (7 # 10) (lm_visibility right_ankle)
    then
      let avg_ankle_y := (lm_y left_ankle + lm_y right_ankle) / 2 in
      let s := set_y_history (deque_append 5 (y_history s) avg_ankle_y) s in
      let smooth_y := mean (y_history s) in
      let baseline :=
        match baseline_y s with
        | None => smooth_y
        | Some b => b
        end in
      let s := set_baseline_y (Some baseline) s in
      let jump_pixels := (baseline - smooth_y) * inject_Z (frame_h frame) in
      if Qltb 30 jump_pixels then
        let s :=
          if negb (is_jumping s)
          then set_jump_count (jump_count s + 1) (set_is_jumping true s)
          else s in
        let s :=
          set_current_jump_height
            (Qmax (current_jump_height s) jump_pixels) s in
        let s := set_max_jump_height (Qmax (max_jump_height s) jump_pixels) s in
        set_feedback (Some (jump_height_text (current_jump_height s))) s
      else
        let s :=
          if is_jumping s
          then set_current_jump_height 0 (set_is_jumping false s)
          else s in
        let s := set_feedback (Some MSG_READY) s in
        set_baseline_y (Some (smooth_y * (1 # 10) + baseline * (9 # 10))) s
    else set_feedback (Some MSG_NOT_VISIBLE) s
  | None => set_feedback (Some MSG_NOT_VISIBLE) s
  end.

Definition run (s : State) (frames : list Frame) : State :=
  fold_left process_frame frames s.

(** [reset]. *)
Definition reset (s : State) : State :=
  let s := set_jump_count 0 s in
  let s := set_max_jump_height 0 s in
  let s := set_baseline_y None s in
  let s := set_is_jumping false s in
  let s := set_current_jump_height 0 s in
  let s := set_feedback None s in
  set_y_history [] s.

End JumpAnalyzerMobile.

(** ** CameraManager *)

Module CameraManager.

(** An analyzer object as the manager uses it: [is_opened_result] is what
    [is_opened()] answers ([None] when the call raises), [release_raises]
    tells whether [release()] raises. *)
Record Analyzer : Type := mkAnalyzer {
  analyzer_id : nat;
  is_opened_result : option bool;
  release_raises : bool
}.

(** The stored frame is opaque to the manager. *)
Definition Frame : Type := list Z.

Inductive Thread : Type := CaptureThread.

(** The calls the manager makes on the outside world.  [Joined] is the call
    [thread.join(timeout=2.0)], [Released a] the call [a.release()], whether
    it raises or not. *)
Inductive Effect : Type :=
| Joined
| Released (a : Analyzer)
| Constructed (a : Analyzer)
| ConstructorRaised
| ThreadStarted.

(** [effects] records the outside calls made so far, oldest first; the
    other fields are the attributes of the object.  The lock and the body of
    the capture thread are not modelled. *)
Record State : Type := mkState {
  analyzer : option Analyzer;
  analyzer_type : option string;
  frame : option Frame;
  running : bool;
  thread : option Thread;
  effects : list Effect
}.

(** [__init__]. *)
Definition init : State :=
  {| analyzer := None; analyzer_type := None; frame := None;
     running := false; thread := None; effects := [] |}.

Definition set_analyzer (v : option Analyzer) (s : State) : State :=
  {| analyzer := v; analyzer_type := analyzer_type s; frame := frame s;
     running := running s; thread := thread s; effects := effects s |}.

Definition set_analyzer_type (v : option string) (s : State) : State :=
  {| analyzer := analyzer s; analyzer_type := v; frame := frame s; running :=
     running s; thread := thread s; effects := effects s |}.

Definition set_frame (v : option Frame) (s : State) : State :=
  {| analyzer := analyzer s; analyzer_type := analyzer_type s; frame := v;
     running := running s; thread := thread s; effects := effects s |}.

Definition set_running (v : bool) (s : State) : State :=
  {| analyzer := analyzer s; analyzer_type := analyzer_type s; frame := frame
     s; running := v; thread := thread s; effects := effects s |}.

Definition set_thread (v : option Thread) (s : State) : State :=
  {| analyzer := analyzer s; analyzer_type := analyzer_type s; frame := frame
     s; running := running s; thread := v; effects := effects s |}.

Definition set_effects (v : list Effect) (s : State) : State :=
  {| analyzer := analyzer s; analyzer_type := analyzer_type s; frame := frame
     s; running := running s; thread := thread s; effects := v |}.

Definition emit (e : Effect) (s : State) : State :=
  set_effects (effects s ++ [e]) s.

(** [_stop_internal]. *)
Definition stop_internal (s : State) : State :=
  let s := set_running false s in
  let s :=
    match thread s with
    | Some _ => set_thread None (emit Joined s)
    | None => s
    end in
  let s :=
    match analyzer s with
    | Some a => set_analyzer None (emit (Released a) s)
    | None => s
    end in
  let s := set_frame None s in
  set_analyzer_type None s.

(** [start]; [analyzer_cls] is the outcome of calling the class ([None]
    when the constructor raises), [ty] the requested [analyzer_type]. *)
Definition start (s : State) (analyzer_cls : option Analyzer) (ty : string)
  : State * bool :=
  if opt_string_eqb (analyzer_type s) (Some ty) && running s then (s, true)
  else
    let s := stop_internal s in
    match analyzer_cls with
    | None => (emit ConstructorRaised s, false)
    | Some a =>
      let s := set_analyzer (Some a) (emit (Constructed a) s) in
      match is_opened_result a with
      | None => (s, false)
      | Some false => (set_analyzer None s, false)
      | Some true =>
        let s := set_analyzer_type (Some ty) s in
        let s := set_running true s in
        let s := set_thread (Some CaptureThread) (emit ThreadStarted s) in
        (s, true)
      end
    end.

(** [stop]. *)
Definition stop (s : State) : State := stop_internal s.

(** [get_frame]. *)
Definition get_frame (s : State) : option Frame := frame s.

(** [is_running]. *)
Definition is_running (s : State) : bool := running s.

(** [get_analyzer_type]. *)
Definition get_analyzer_type (s : State) : option string := analyzer_type s.

(** Number of analyzers constructed so far. *)
Definition constructed (s : State) : nat :=
  length (filter (fun e => match e with Constructed _ => true | _ => false end)
                 (effects s)).

End CameraManager.

(** ** Reference definitions used in the statements *)


(** Arithmetic mean of five numbers. *)
Definition mean5 (a b c d e : Q) : Q := (a + b + c + d + e) / 5.

(** The cheat rule as the specification words it, on the pixel coordinates
    of the six leg landmarks whatever their visibility: average knee angle
    below 150 and (hip midpoint not 20px above the knee midpoint, or ankle
    midpoint within 60px of the hip midline). *)
Definition cheat_rule (angle : Point -> Point -> Point -> Q)
    (landmarks : Landmarks) (w h : Z) : bool :=
  let px name :=
    (lm_x (landmarks name) * inject_Z w, lm_y (landmarks name) * inject_Z h) in
  let knee_angle :=
    (angle (px LEFT_HIP) (px LEFT_KNEE) (px LEFT_ANKLE)
     + angle (px RIGHT_HIP) (px RIGHT_KNEE) (px RIGHT_ANKLE)) / 2 in
  let hip_y := (snd (px LEFT_HIP) + snd (px RIGHT_HIP)) / 2 in
  let knee_y := (snd (px LEFT_KNEE) + snd (px RIGHT_KNEE)) / 2 in
  let ankle_x := (fst (px LEFT_ANKLE) + fst (px RIGHT_ANKLE)) / 2 in
  let hip_x := (fst (px LEFT_HIP) + fst (px RIGHT_HIP)) / 2 in
  Qltb knee_angle 150
  && (Qltb (knee_y - 20) hip_y || Qltb (Qabs (ankle_x - hip_x)) 60).

(** All six leg landmarks pass the 0.4 visibility test of [landmark_xy]. *)
Definition legs_visible (landmarks : Landmarks) : bool :=
  forallb (fun name => negb (Qltb (lm_visibility (landmarks name)) (4 # 10)))
          [LEFT_HIP; RIGHT_HIP; LEFT_KNEE; RIGHT_KNEE; LEFT_ANKLE; RIGHT_ANKLE].

(** The jump result as the specification words it. *)
Definition specified_result (cfg : Config)
    (angle : Point -> Point -> Point -> Q) (peak_delta : Q)
    (landmarks : Landmarks) (w h : Z) : JumpResult :=
  let inches :=
    Qmax 0 peak_delta * (CALIBRATION_INCHES cfg / CALIBRATION_PIXELS cfg) in
  if Qltb inches (MIN_JUMP_INCHES cfg)
  then {| inches := inches; valid := false; reason := REASON_TOO_SMALL |}
  else if cheat_rule angle landmarks w h
  then {| inches := inches; valid := false; reason := REASON_CHEAT |}
  else {| inches := inches; valid := true; reason := REASON_OK |}.

(** The same, with the cheat rule applied only when the six leg landmarks
    are visible. *)
Definition visible_result (cfg : Config)
    (angle : Point -> Point -> Point -> Q) (peak_delta : Q)
    (landmarks : Landmarks) (w h : Z) : JumpResult :=
  let inches :=
    Qmax 0 peak_delta * (CALIBRATION_INCHES cfg / CALIBRATION_PIXELS cfg) in
  if Qltb inches (MIN_JUMP_INCHES cfg)
  then {| inches := inches; valid := false; reason := REASON_TOO_SMALL |}
  else if legs_visible landmarks && cheat_rule angle landmarks w h
  then {| inches := inches; valid := false; reason := REASON_CHEAT |}
  else {| inches := inches; valid := true; reason := REASON_OK |}.

(** The four landmarks the squat analyzers require all have visibility
    above 0.8. *)
Definition squat_visible (landmarks : Landmarks) : bool :=
  forallb (fun name => Qltb VISIBILITY_THRESHOLD (lm_visibility (landmarks name)))
          [LEFT_SHOULDER; LEFT_HIP; LEFT_KNEE; LEFT_ANKLE].

(** Sequences on which the rep-resolution chain does nothing while the
    stage is [X]. *)
Definition quiet (sequence : list Stage) (X : Stage) : Prop :=
  sequence = [S1] \/ sequence = [S1; S2]
  \/ (sequence = [S1; S2; S3] /\ X = S3).

(** A frame on which the squat analyzers run their state machine. *)
Definition frame_visible (frame : option Landmarks) : bool :=
  match frame with
  | Some landmarks => squat_visible landmarks
  | None => false
  end.

Section SmoothedAngles.

Variable calculate_angle : Point -> Point -> Point -> Q.

(** The smoothed knee angle [process_frame] works with on a visible frame:
    the mean of the knee window after the raw angle has been pushed. *)
Definition smoothed_knee (knee_history : list Q) (landmarks : Landmarks) : Q :=
  mean (deque_append 5 knee_history
          (calculate_angle (xy (get_landmark landmarks LEFT_HIP))
                           (xy (get_landmark landmarks LEFT_KNEE))
                           (xy (get_landmark landmarks LEFT_ANKLE)))).

(** The stage held after each frame of a replay. *)
Fixpoint stage_trace (s : SquatAnalyzerMobile.State)
    (frames : list (option Landmarks)) : list (option Stage) :=
  match frames with
  | [] => []
  | f :: rest =>
    let s' := SquatAnalyzerMobile.process_frame calculate_angle s f in
    SquatAnalyzerMobile.stage s' :: stage_trace s' rest
  end.

(** The correct-rep counter after each frame of a replay. *)
Fixpoint correct_trace (s : SquatAnalyzerMobile.State)
    (frames : list (option Landmarks)) : list nat :=
  match frames with
  | [] => []
  | f :: rest =>
    let s' := SquatAnalyzerMobile.process_frame calculate_angle s f in
    SquatAnalyzerMobile.correct_counter s' :: correct_trace s' rest
  end.

End SmoothedAngles.

(** A call on a mobile squat analyzer: one frame, or [reset]. *)
Inductive Call : Type :=
| CallFrame (frame : option Landmarks)
| CallReset.

Definition call (calculate_angle : Point -> Point -> Point -> Q)
    (s : SquatAnalyzerMobile.State) (c : Call) : SquatAnalyzerMobile.State :=
  match c with
  | CallFrame frame => SquatAnalyzerMobile.process_frame calculate_angle s frame
  | CallReset => SquatAnalyzerMobile.reset s
  end.

(** The analyzer after a series of calls on a fresh instance. *)
Definition after_calls (calculate_angle : Point -> Point -> Point -> Q)
    (calls : list Call) : SquatAnalyzerMobile.State :=
  fold_left (call calculate_angle) calls SquatAnalyzerMobile.init.

(** What [_calculate_angle] guarantees about its result: it folds angles
    above 180 back and takes an absolute value. *)
Definition angle_in_range (calculate_angle : Point -> Point -> Point -> Q)
  : Prop :=
  forall a b c, 0 <= calculate_angle a b c /\ calculate_angle a b c <= 180.

(** Number of recorded stages other than S3. *)
Definition upright_entries (sequence : list Stage) : nat :=
  length (filter (fun st => negb (Stage_eqb st S3)) sequence).

(** Facts that hold of every state a mobile squat analyzer goes through:
    the knee window holds at most five angles, all within range, and at
    least as many as the frames that built the depth hold and the upright
    part of the sequence; the recorded sequence ends with the current stage;
    while the stage is S3 the mean of the window is at most 95. *)
Record consistent (s : SquatAnalyzerMobile.State) : Prop := mkConsistent {
  window_in_range :
    Forall (fun v => 0 <= v /\ v <= 180) (SquatAnalyzerMobile.knee_history s);
  window_bounded : (length (SquatAnalyzerMobile.knee_history s) <= 5)%nat;
  window_filled :
    (Nat.min 5 (SquatAnalyzerMobile.depth_hold s
                + upright_entries (SquatAnalyzerMobile.sequence s))
     <= length (SquatAnalyzerMobile.knee_history s))%nat;
  sequence_ends_with_stage :
    forall st, last_opt (SquatAnalyzerMobile.sequence s) = Some st ->
               SquatAnalyzerMobile.stage s = Some st;
  deep_window :
    SquatAnalyzerMobile.stage s = Some S3 ->
    mean (SquatAnalyzerMobile.knee_history s) <= 95
}.

(** The form-feedback texts that can replace the rep feedback while the
    stage is S2. *)
Definition form_texts_S2 : list string :=
  [MSG_BEND_FORWARD; MSG_BEND_BACKWARDS; MSG_LOWER_HIPS; MSG_KNEES_OVER_TOES].

(** ** Sample inputs *)

(** Direction of the vector [(dx, dy)] in degrees, as [arctan2(dy, dx)]
    gives it, on the null vector and the eight compass directions. *)
Definition compass_degrees (dx dy : Q) : option Q :=
  match dx ?= 0, dy ?= 0 with
  | Eq, Eq => Some 0
  | Gt, Eq => Some 0
  | Gt, Gt => if Qeq_bool dx dy then Some 45 else None
  | Eq, Gt => Some 90
  | Lt, Gt => if Qeq_bool (- dx) dy then Some 135 else None
  | Lt, Eq => Some 180
  | Lt, Lt => if Qeq_bool dx dy then Some (-135) else None
  | Eq, Lt => Some (-90)
  | Gt, Lt => if Qeq_bool dx (- dy) then Some (-45) else None
  end.

(** [_calculate_angle] on points whose arms lie on compass directions,
    where the value is exact; other inputs are outside this table and get
    0. *)
Definition compass_angle (a b c : Point) : Q :=
  match compass_degrees (fst c - fst b) (snd c - snd b),
        compass_degrees (fst a - fst b) (snd a - snd b) with
  | Some dc, Some da =>
    let angle := Qabs (dc - da) in
    if Qltb 180 angle then 360 - angle else angle
  | _, _ => 0
  end.

(** The [angle] helper of [detect_squat_cheat] where its value is exact:
    perpendicular arms have cosine 0 and angle 90.  Other inputs are outside
    this table and get 180. *)
Definition perpendicular_angle (a b c : Point) : Q :=
  let dot := (fst a - fst b) * (fst c - fst b)
             + (snd a - snd b) * (snd c - snd b) in
  if Qeq_bool dot 0 then 90 else 180.

Definition hidden : Landmark := mkLandmark 0 0 0.

(** A side view with the knee at the centre of the image, the hip a quarter
    of the width to its right and the back at 45 degrees; all four
    landmarks visible at 0.9. *)
Definition side_view (ankle : Point) : Landmarks :=
  fun name =>
    match name with
    | LEFT_SHOULDER => mkLandmark (1 # 2) (3 # 4) (9 # 10)
    | LEFT_HIP => mkLandmark (3 # 4) (1 # 2) (9 # 10)
    | LEFT_KNEE => mkLandmark (1 # 2) (1 # 2) (9 # 10)
    | LEFT_ANKLE => mkLandmark (fst ankle) (snd ankle) (9 # 10)
    | _ => hidden
    end.

(** Raw knee angle 180. *)
Definition standing : option Landmarks := Some (side_view (1 # 4, 1 # 2)).
(** Raw knee angle 135. *)
Definition half_squat : option Landmarks := Some (side_view (1 # 4, 3 # 4)).
(** Raw knee angle 90. *)
Definition deep_squat : option Landmarks := Some (side_view (1 # 2, 3 # 4)).

(** Down through S1, S2 and S3 with three frames held in S3; the smoothed
    knee angles are 180, 157.5, 135, 123.75, 117, 99, 90, 90, 90. *)
Definition descent : list (option Landmarks) :=
  [standing; half_squat; deep_squat; deep_squat; deep_squat; deep_squat;
   deep_squat; deep_squat; deep_squat].

(** Smoothed knee angles 180, 157.5, 165: down to S2 and back up. *)
Definition shallow_rep : list (option Landmarks) :=
  [standing; half_squat; standing].

(** The pose of a bent-knee jump landing in a 640x360 frame: both knees at
    a right angle, hips level with the knees; [ankle_visibility] is the
    visibility of the left ankle. *)
Definition bent_knees (ankle_visibility : Q) : Landmarks :=
  fun name =>
    match name with
    | LEFT_HIP | RIGHT_HIP => mkLandmark (1 # 4) (1 # 2) (9 # 10)
    | LEFT_KNEE | RIGHT_KNEE => mkLandmark (1 # 2) (1 # 2) (9 # 10)
    | LEFT_ANKLE => mkLandmark (1 # 2) (3 # 4) ankle_visibility
    | RIGHT_ANKLE => mkLandmark (1 # 2) (3 # 4) (9 # 10)
    | _ => hidden
    end.

(** A jump analyzer whose recorded peak is 50 pixels (6 inches with the
    default calibration). *)
Definition peak_50 : JumpAnalyzer.State :=
  JumpAnalyzer.set_peak_delta_pixels 50
    (JumpAnalyzer.init default_config 1000).

(** A standing subject in a 640x360 frame: nose at [nose_y] (normalised),
    right index finger at [right_y], left hand out of reach. *)
Definition upright (nose_y right_y : Q) : Landmarks :=
  fun name =>
    match name with
    | NOSE => mkLandmark (1 # 2) nose_y (9 # 10)
    | RIGHT_INDEX => mkLandmark (1 # 2) right_y (9 # 10)
    | LEFT_INDEX => mkLandmark (1 # 10) (9 # 10) (9 # 10)
    | _ => hidden
    end.

(** Two captures a tenth of a second apart: the arm gesture with the nose
    at 180px, then the nose at 182px with the right hand lowered. *)
Definition arm_then_stand : list (option JumpAnalyzer.Capture) :=
  [Some (JumpAnalyzer.mkCapture (10001 # 10) 360 640
           (Some (upright (1 # 2) (1 # 2))));
   Some (JumpAnalyzer.mkCapture (10002 # 10) 360 640
           (Some (upright (91 # 180) (9 # 10))))].

(** An analyzer whose camera did not open, and one that opened. *)
Definition closed_analyzer : CameraManager.Analyzer :=
  CameraManager.mkAnalyzer 2 (Some false) false.
Definition open_analyzer : CameraManager.Analyzer :=
  CameraManager.mkAnalyzer 1 (Some true) false.


(** A 480-pixel-high mobile frame with both ankles visible at height [y]
    (normalised). *)
Definition ankles_at (y : Q) : JumpAnalyzerMobile.Frame :=
  JumpAnalyzerMobile.mkFrame 480
    (Some (fun name =>
             match name with
             | LEFT_ANKLE | RIGHT_ANKLE => mkLandmark (1 # 2) y (9 # 10)
             | _ => hidden
             end)).

(** ** Short names *)

Module M := SquatAnalyzerMobile.
Module C := SquatAnalyzer.
Module JM := JumpAnalyzerMobile.
Module CM := CameraManager.
Module J := JumpAnalyzer.

(** The four outcomes of the rep-resolution chain. *)
Inductive mobile_outcome (s : M.State) : M.State * option string -> Prop :=
| mobile_correct :
    mobile_outcome s
      ({| M.correct_counter := M.correct_counter s + 1;
          M.incorrect_counter := M.incorrect_counter s;
          M.stage := M.stage s; M.sequence := [];
          M.feedback := M.feedback s;
          M.knee_history := M.knee_history s;
          M.back_history := M.back_history s;
          M.depth_hold := 0; M.min_knee_angle := 180 |}, Some MSG_CORRECT)
| mobile_incorrect (text : string) :
    mobile_outcome s
      ({| M.correct_counter := M.correct_counter s;
          M.incorrect_counter := M.incorrect_counter s + 1;
          M.stage := M.stage s; M.sequence := [];
          M.feedback := M.feedback s;
          M.knee_history := M.knee_history s;
          M.back_history := M.back_history s;
          M.depth_hold := 0;
          M.min_knee_angle := M.min_knee_angle s |}, Some text)
| mobile_discarded :
    mobile_outcome s
      ({| M.correct_counter := M.correct_counter s;
          M.incorrect_counter := M.incorrect_counter s;
          M.stage := M.stage s; M.sequence := [];
          M.feedback := M.feedback s;
          M.knee_history := M.knee_history s;
          M.back_history := M.back_history s;
          M.depth_hold := 0;
          M.min_knee_angle := M.min_knee_angle s |}, None)
| mobile_pending :
    mobile_outcome s (s, None).

(** The same for the camera analyzer. *)
Inductive camera_outcome (s : C.State) : C.State * option string -> Prop :=
| camera_correct :
    camera_outcome s
      ({| C.correct_counter := C.correct_counter s + 1;
          C.incorrect_counter := C.incorrect_counter s;
          C.stage := C.stage s; C.sequence := [];
          C.last_feedback := C.last_feedback s;
          C.feedback := C.feedback s;
          C.knee_history := C.knee_history s;
          C.back_history := C.back_history s;
          C.depth_hold := 0; C.min_knee_angle := 180;
          C.speech_queue := C.speech_queue s |}, Some MSG_CORRECT)
| camera_incorrect (text : string) :
    camera_outcome s
      ({| C.correct_counter := C.correct_counter s;
          C.incorrect_counter := C.incorrect_counter s + 1;
          C.stage := C.stage s; C.sequence := [];
          C.last_feedback := C.last_feedback s;
          C.feedback := C.feedback s;
          C.knee_history := C.knee_history s;
          C.back_history := C.back_history s;
          C.depth_hold := 0;
          C.min_knee_angle := C.min_knee_angle s;
          C.speech_queue := C.speech_queue s |}, Some text)
| camera_discarded :
    camera_outcome s
      ({| C.correct_counter := C.correct_counter s;
          C.incorrect_counter := C.incorrect_counter s;
          C.stage := C.stage s; C.sequence := [];
          C.last_feedback := C.last_feedback s;
          C.feedback := C.feedback s;
          C.knee_history := C.knee_history s;
          C.back_history := C.back_history s;
          C.depth_hold := 0;
          C.min_knee_angle := C.min_knee_angle s;
          C.speech_queue := C.speech_queue s |}, None)
| camera_pending :
    camera_outcome s (s, None).


(** ** Runs of the squat analyzers *)

(** No two neighbouring entries of a stage sequence are equal. *)
Fixpoint alternating (sequence : list Stage) : bool :=
  match sequence with
  | a :: (b :: _) as rest => negb (Stage_eqb a b) && alternating rest
  | _ => true
  end.

(** The raw knee angles, oldest first, of the visible frames a mobile squat
    analyzer has processed since it was created or last reset. *)
Definition raw_knee_angles (calculate_angle : Point -> Point -> Point -> Q)
    (calls : list Call) : list Q :=
  fold_left
    (fun acc c =>
       match c with
       | CallReset => []
       | CallFrame (Some landmarks) =>
         if squat_visible landmarks
         then acc ++ [calculate_angle (xy (get_landmark landmarks LEFT_HIP))
                                      (xy (get_landmark landmarks LEFT_KNEE))
                                      (xy (get_landmark landmarks LEFT_ANKLE))]
         else acc
       | CallFrame None => acc
       end)
    calls [].

(** The raw back angles of the same frames. *)
Definition raw_back_angles (calculate_angle : Point -> Point -> Point -> Q)
    (calls : list Call) : list Q :=
  fold_left
    (fun acc c =>
       match c with
       | CallReset => []
       | CallFrame (Some landmarks) =>
         if squat_visible landmarks
         then acc ++ [calculate_angle
                        (xy (get_landmark landmarks LEFT_SHOULDER))
                        (xy (get_landmark landmarks LEFT_HIP))
                        (xy (get_landmark landmarks LEFT_KNEE))]
         else acc
       | CallFrame None => acc
       end)
    calls [].

(** The texts a shallow rep can leave as feedback: the rep text, or a form
    text that applies while standing. *)
Definition shallow_rep_texts : list string :=
  [MSG_INCOMPLETE_MOBILE; MSG_BEND_FORWARD; MSG_BEND_BACKWARDS;
   MSG_KNEES_OVER_TOES].

(** The camera squat analyzer after a series of captures on a fresh
    instance. *)
Definition camera_run (calculate_angle : Point -> Point -> Point -> Q)
    (captures : list (option (option Landmarks))) : SquatAnalyzer.State :=
  fold_left (SquatAnalyzer.read_frame calculate_angle) captures
            SquatAnalyzer.init.

(** No two neighbouring texts of a queue are equal. *)
Fixpoint no_repeated_text (queue : list string) : bool :=
  match queue with
  | a :: (b :: _) as rest => negb (String.eqb a b) && no_repeated_text rest
  | _ => true
  end.

(** The recorded sequence follows the stage: neighbouring entries differ
    and the last entry is the stage currently held. *)
Definition tracked (s : SquatAnalyzerMobile.State) : Prop :=
  alternating (SquatAnalyzerMobile.sequence s) = true
  /\ forall st, last_opt (SquatAnalyzerMobile.sequence s) = Some st ->
                SquatAnalyzerMobile.stage s = Some st.

(** The texts a rep with too short a hold can leave as feedback. *)
Definition short_hold_texts : list string :=
  [MSG_HOLD; MSG_BEND_FORWARD; MSG_BEND_BACKWARDS; MSG_KNEES_OVER_TOES].

(** Rising out of a short hold: the stage is still S3 with [S1, S2, S3]
    recorded, or already S2 with [S1, S2, S3, S2] recorded. *)
Definition rising_short (s : SquatAnalyzerMobile.State) : Prop :=
  (SquatAnalyzerMobile.stage s = Some S3
   /\ SquatAnalyzerMobile.sequence s = [S1; S2; S3])
  \/ (SquatAnalyzerMobile.stage s = Some S2
      /\ SquatAnalyzerMobile.sequence s = [S1; S2; S3; S2]).

(** ** Runs of the camera jump analyzer *)

(** Facts that hold of every state a camera jump analyzer goes through. *)
Record grounded (cfg : Config) (s : JumpAnalyzer.State) : Prop := mkGrounded {
  grounded_phase :
    JumpAnalyzer.state s = idle \/ JumpAnalyzer.state s = armed;
  grounded_result : JumpAnalyzer.last_jump_result s = None;
  grounded_airborne : JumpAnalyzer.airborne_frames s = 0%Z;
  grounded_landing : JumpAnalyzer.last_land_time s = 0;
  grounded_idle :
    JumpAnalyzer.state s = idle ->
    JumpAnalyzer.baseline_nose_y s = None
    /\ JumpAnalyzer.nose_history s = []
    /\ JumpAnalyzer.prev_dy s = None
    /\ JumpAnalyzer.peak_delta_pixels s = 0
    /\ JumpAnalyzer.steady_frames s = 0%Z;
  grounded_armed :
    JumpAnalyzer.state s = armed ->
    JumpAnalyzer.baseline_nose_y s <> None
    /\ JumpAnalyzer.nose_history s <> []
    /\ JumpAnalyzer.prev_dy s <> None;
  grounded_peak : 0 <= JumpAnalyzer.peak_delta_pixels s;
  grounded_steady : (0 <= JumpAnalyzer.steady_frames s)%Z;
  grounded_window :
    (Z.of_nat (length (JumpAnalyzer.nose_history s))
     <= Z.max 5 (SMOOTHING_WINDOW cfg))%Z
}.

(** ** Runs of the mobile jump analyzer *)

(** Both ankles pass the 0.7 visibility test of
    [JumpAnalyzerMobile.process_frame]. *)
Definition ankles_visible (frame : JumpAnalyzerMobile.Frame) : bool :=
  match JumpAnalyzerMobile.pose_landmarks frame with
  | Some landmarks =>
    Qltb (7 # 10) (lm_visibility (landmarks LEFT_ANKLE))
    && Qltb (7 # 10) (lm_visibility (landmarks RIGHT_ANKLE))
  | None => false
  end.

(** The mean ankle height of a frame (normalised), 0 without a pose. *)
Definition ankle_height (frame : JumpAnalyzerMobile.Frame) : Q :=
  match JumpAnalyzerMobile.pose_landmarks frame with
  | Some landmarks =>
    (lm_y (landmarks LEFT_ANKLE) + lm_y (landmarks RIGHT_ANKLE)) / 2
  | None => 0
  end.

(** Facts that hold of every state a mobile jump analyzer goes through. *)
Record calibrated (s : JumpAnalyzerMobile.State) : Prop := mkCalibrated {
  calibrated_baseline :
    JumpAnalyzerMobile.baseline_y s = None
    <-> JumpAnalyzerMobile.y_history s = [];
  calibrated_window : (length (JumpAnalyzerMobile.y_history s) <= 5)%nat;
  calibrated_standing :
    JumpAnalyzerMobile.is_jumping s = false ->
    JumpAnalyzerMobile.current_jump_height s = 0;
  calibrated_jumping :
    JumpAnalyzerMobile.is_jumping s = true ->
    30 < JumpAnalyzerMobile.current_jump_height s;
  calibrated_max :
    JumpAnalyzerMobile.current_jump_height s
    <= JumpAnalyzerMobile.max_jump_height s;
  calibrated_uncounted :
    JumpAnalyzerMobile.jump_count s = 0%nat ->
    JumpAnalyzerMobile.max_jump_height s = 0
    /\ JumpAnalyzerMobile.is_jumping s = false;
  calibrated_counted :
    (0 < JumpAnalyzerMobile.jump_count s)%nat ->
    30 < JumpAnalyzerMobile.max_jump_height s
}.

(** * utils/frame_processor.py *)

Module MobileFrameProcessor.

(** The two attributes hold the analyzer objects, [None] until first asked
    for.  An analyzer object is represented by its current state; the caller
    of [get_squat_analyzer] and the processor share the object, so a method
    called on the returned analyzer is written back with the setter.  The
    lock is not modelled. *)
Record State : Type := mkState {
  _squat_analyzer : option SquatAnalyzerMobile.State;
  _jump_analyzer : option JumpAnalyzerMobile.State
}.

(** [__init__]. *)
Definition init : State :=
  {| _squat_analyzer := None; _jump_analyzer := None |}.

Definition set_squat_analyzer (v : option SquatAnalyzerMobile.State)
    (s : State) : State :=
  {| _squat_analyzer := v; _jump_analyzer := _jump_analyzer s |}.

Definition set_jump_analyzer (v : option JumpAnalyzerMobile.State)
    (s : State) : State :=
  {| _squat_analyzer := _squat_analyzer s; _jump_analyzer := v |}.

(** [get_squat_analyzer]. *)
Definition get_squat_analyzer (s : State)
  : State * SquatAnalyzerMobile.State :=
  match _squat_analyzer s with
  | None =>
    let s := set_squat_analyzer (Some SquatAnalyzerMobile.init) s in
    (s, SquatAnalyzerMobile.init)
  | Some analyzer => (s, analyzer)
  end.

(** [get_jump_analyzer]. *)
Definition get_jump_analyzer (s : State)
  : State * JumpAnalyzerMobile.State :=
  match _jump_analyzer s with
  | None =>
    let s := set_jump_analyzer (Some JumpAnalyzerMobile.init) s in
    (s, JumpAnalyzerMobile.init)
  | Some analyzer => (s, analyzer)
  end.

(** [reset_squat_analyzer]. *)
Definition reset_squat_analyzer (s : State) : State :=
  let (s, analyzer) := get_squat_analyzer s in
  set_squat_analyzer (Some (SquatAnalyzerMobile.reset analyzer)) s.

(** [reset_jump_analyzer]. *)
Definition reset_jump_analyzer (s : State) : State :=
  let (s, analyzer) := get_jump_analyzer s in
  set_jump_analyzer (Some (JumpAnalyzerMobile.reset analyzer)) s.

End MobileFrameProcessor.

Module MFP := MobileFrameProcessor.

(** ** Sessions on the frame processor *)

(** What a client does with the processor: fetch an analyzer and give it a
    frame, or reset one of the analyzers. *)
Inductive Request : Type :=
| SquatFrame (frame : option Landmarks)
| JumpFrame (frame : JumpAnalyzerMobile.Frame)
| SquatReset
| JumpReset.

Definition serve (calculate_angle : Point -> Point -> Point -> Q)
    (p : MFP.State) (r : Request) : MFP.State :=
  match r with
  | SquatFrame frame =>
    let (p, analyzer) := MFP.get_squat_analyzer p in
    MFP.set_squat_analyzer
      (Some (SquatAnalyzerMobile.process_frame calculate_angle analyzer frame))
      p
  | JumpFrame frame =>
    let (p, analyzer) := MFP.get_jump_analyzer p in
    MFP.set_jump_analyzer
      (Some (JumpAnalyzerMobile.process_frame analyzer frame)) p
  | SquatReset => MFP.reset_squat_analyzer p
  | JumpReset => MFP.reset_jump_analyzer p
  end.

(** The processor after a series of requests on a fresh instance. *)
Definition served (calculate_angle : Point -> Point -> Point -> Q)
    (requests : list Request) : MFP.State :=
  fold_left (serve calculate_angle) requests MFP.init.

(** The calls among the requests that concern the squat analyzer. *)
Definition squat_calls (requests : list Request) : list Call :=
  flat_map (fun r =>
              match r with
              | SquatFrame frame => [CallFrame frame]
              | SquatReset => [CallReset]
              | _ => []
              end) requests.

Inductive JumpCall : Type :=
| JumpCallFrame (frame : JumpAnalyzerMobile.Frame)
| JumpCallReset.

Definition jump_call (s : JumpAnalyzerMobile.State) (c : JumpCall)
  : JumpAnalyzerMobile.State :=
  match c with
  | JumpCallFrame frame => JumpAnalyzerMobile.process_frame s frame
  | JumpCallReset => JumpAnalyzerMobile.reset s
  end.

(** The mobile jump analyzer after a series of calls on a fresh instance. *)
Definition jump_after_calls (calls : list JumpCall)
  : JumpAnalyzerMobile.State :=
  fold_left jump_call calls JumpAnalyzerMobile.init.

(** The calls among the requests that concern the jump analyzer. *)
Definition jump_calls (requests : list Request) : list JumpCall :=
  flat_map (fun r =>
              match r with
              | JumpFrame frame => [JumpCallFrame frame]
              | JumpReset => [JumpCallReset]
              | _ => []
              end) requests.

(** ** Sessions on the camera manager *)

Inductive ManagerCall : Type :=
| CallStart (analyzer_cls : option CameraManager.Analyzer) (ty : string)
| CallStop.

Definition manager_call (s : CameraManager.State) (c : ManagerCall)
  : CameraManager.State :=
  match c with
  | CallStart analyzer_cls ty => fst (CameraManager.start s analyzer_cls ty)
  | CallStop => CameraManager.stop s
  end.

(** The manager after a series of calls on a fresh instance. *)
Definition manager_after (calls : list ManagerCall) : CameraManager.State :=
  fold_left manager_call calls CameraManager.init.

(** The order in which the outside world may be called.  The pair tells
    whether an analyzer is held on which [release] has not been called, and
    whether a thread has been started on which [join] has not been called.
    An analyzer is constructed only when neither is owed, and is held from
    then on unless its source turns out closed; a thread is started only on
    a held analyzer; [join] is called on the thread before [release] is
    called on the analyzer.  [Joined] stands for the call
    [join(timeout=2.0)], which returns after two seconds at most: the pair
    does not tell whether the thread has ended.  [None] marks a trace that
    breaks the order. *)
Definition protocol (st : option (bool * bool)) (e : CameraManager.Effect)
  : option (bool * bool) :=
  match st, e with
  | Some (false, false), CameraManager.Constructed a =>
    match CameraManager.is_opened_result a with
    | Some false => Some (false, false)
    | _ => Some (true, false)
    end
  | Some (false, false), CameraManager.ConstructorRaised =>
    Some (false, false)
  | Some (true, false), CameraManager.ThreadStarted => Some (true, true)
  | Some (held, true), CameraManager.Joined => Some (held, false)
  | Some (true, false), CameraManager.Released _ => Some (false, false)
  | _, _ => None
  end.

Definition follow_protocol (es : list CameraManager.Effect)
  : option (bool * bool) :=
  fold_left protocol es (Some (false, false)).

Definition is_some {A : Type} (o : option A) : bool :=
  match o with Some _ => true | None => false end.

(** Facts that hold of every state the manager goes through. *)
Record managed (s : CameraManager.State) : Prop := mkManaged {
  managed_thread :
    CameraManager.running s = is_some (CameraManager.thread s);
  managed_type :
    CameraManager.running s = is_some (CameraManager.analyzer_type s);
  managed_analyzer :
    CameraManager.running s = true ->
    exists a, CameraManager.analyzer s = Some a
              /\ CameraManager.is_opened_result a = Some true;
  managed_open :
    forall a, CameraManager.analyzer s = Some a ->
              CameraManager.is_opened_result a <> Some false;
  managed_trace :
    follow_protocol (CameraManager.effects s)
    = Some (is_some (CameraManager.analyzer s),
            is_some (CameraManager.thread s))
}.

(** * Properties *)

(** ** Comparisons *)

Lemma Qltb_lt (x y : Q) : Qltb x y = true <-> x < y.
Proof.
  unfold Qltb. rewrite negb_true_iff.
  split; intro H.
  - apply Qnot_le_lt. intro Hle. apply Qle_bool_iff in Hle. congruence.
  - destruct (Qle_bool y x) eqn:E; [| reflexivity].
    apply Qle_bool_iff in E. exfalso. exact (Qlt_not_le _ _ H E).
Qed.

Lemma Qltb_ge (x y : Q) : Qltb x y = false <-> y <= x.
Proof.
  unfold Qltb. rewrite negb_false_iff. apply Qle_bool_iff.
Qed.

Lemma Stage_eqb_eq (a b : Stage) : Stage_eqb a b = true <-> a = b.
Proof. destruct a, b; simpl; split; congruence. Qed.

Lemma opt_Stage_eqb_eq (a b : option Stage) :
  opt_Stage_eqb a b = true <-> a = b.
Proof.
  destruct a as [a|], b as [b|]; simpl; try (split; congruence).
  rewrite Stage_eqb_eq. split; congruence.
Qed.

Lemma seq_eqb_eq (l1 l2 : list Stage) : seq_eqb l1 l2 = true <-> l1 = l2.
Proof.
  revert l2. induction l1 as [|a l1 IH]; intros [|b l2]; simpl;
    try (split; congruence).
  rewrite andb_true_iff, Stage_eqb_eq, IH. split.
  - intros [-> ->]. reflexivity.
  - intros H. inversion H. auto.
Qed.

Lemma opt_string_eqb_eq (a b : option string) :
  opt_string_eqb a b = true <-> a = b.
Proof.
  destruct a as [a|], b as [b|]; simpl; try (split; congruence).
  rewrite String.eqb_eq. split; congruence.
Qed.

(** ** The sliding window *)

Lemma skipn_succ_tl {A : Type} (k : nat) (l : list A) :
  skipn (S k) l = tl (skipn k l).
Proof.
  revert l. induction k as [|k IH]; intros [|x l]; try reflexivity.
  change (skipn (S (S k)) (x :: l)) with (skipn (S k) l).
  change (skipn (S k) (x :: l)) with (skipn k l). apply IH.
Qed.

(** Pushing on the last five values of [l] leaves the last five values of
    [l ++ [v]]. *)
Lemma deque_append_last_n (l : list Q) (v : Q) :
  deque_append 5 (last_n 5 l) v = last_n 5 (l ++ [v]).
Proof.
  unfold deque_append, last_n.
  rewrite !length_app, length_skipn. simpl length.
  destruct (Nat.le_gt_cases (length l) 4) as [Hs | Hl].
  - replace (length l - 5)%nat with 0%nat by lia.
    replace (length l + 1 - 5)%nat with 0%nat by lia.
    simpl skipn.
    replace (length l - 0 + 1)%nat with (length l + 1)%nat by lia.
    destruct (Nat.ltb_spec 5 (length l + 1)); [lia | reflexivity].
  - replace (length l - (length l - 5) + 1)%nat with 6%nat by lia.
    simpl Nat.ltb. cbv iota.
    replace (length l + 1 - 5)%nat with (S (length l - 5)) by lia.
    rewrite skipn_succ_tl. f_equal.
    rewrite skipn_app.
    replace (length l - 5 - length l)%nat with 0%nat by lia.
    reflexivity.
Qed.


Lemma last_n_app_exact {A : Type} (n : nat) (l tail : list A) :
  length tail = n -> last_n n (l ++ tail) = tail.
Proof.
  intro H. unfold last_n. rewrite length_app, skipn_app, H.
  replace (length l + n - n)%nat with (length l) by lia.
  rewrite skipn_all, Nat.sub_diag. reflexivity.
Qed.

Lemma last_opt_snoc {A : Type} (l : list A) (x : A) :
  last_opt (l ++ [x]) = Some x.
Proof. unfold last_opt. rewrite rev_app_distr. reflexivity. Qed.

Lemma mean_five (a b c d e : Q) : mean [a; b; c; d; e] == mean5 a b c d e.
Proof.
  unfold mean, mean5, py_sum, py_len. simpl. field.
Qed.



(** ** Mobile squat analyzer: one frame *)

(** The state handed to the rep-resolution chain on a visible frame. *)
Lemma mobile_visible_frame
    (calculate_angle : Point -> Point -> Point -> Q)
    (s : M.State) (landmarks : Landmarks) :
  squat_visible landmarks = true ->
  let knee := get_landmark landmarks LEFT_KNEE in
  let ankle := get_landmark landmarks LEFT_ANKLE in
  let kh := deque_append 5 (M.knee_history s)
              (calculate_angle (xy (get_landmark landmarks LEFT_HIP))
                               (xy knee) (xy ankle)) in
  let bh := deque_append 5 (M.back_history s)
              (calculate_angle (xy (get_landmark landmarks LEFT_SHOULDER))
                               (xy (get_landmark landmarks LEFT_HIP))
                               (xy knee)) in
  let st := classify_stage (M.stage s) (mean kh) in
  let mid :=
    {| M.correct_counter := M.correct_counter s;
       M.incorrect_counter := M.incorrect_counter s;
       M.stage := st;
       M.sequence := record_stage (M.stage s) st (M.sequence s);
       M.feedback := M.feedback s;
       M.knee_history := kh;
       M.back_history := bh;
       M.depth_hold :=
         if opt_Stage_eqb st (Some S3) then M.depth_hold s + 1
         else M.depth_hold s;
       M.min_knee_angle := Qmin (M.min_knee_angle s) (mean kh) |} in
  M.process_frame calculate_angle s (Some landmarks)
  = M.set_feedback
      (form_feedback (snd (M.resolve_rep (mean kh) mid))
         (M.stage (fst (M.resolve_rep (mean kh) mid)))
         (mean kh) (mean bh)
         (M.min_knee_angle (fst (M.resolve_rep (mean kh) mid))) ankle knee)
      (fst (M.resolve_rep (mean kh) mid)).
Proof.
  intros Hvis knee ankle kh bh st mid.
  unfold M.process_frame.
  change (forallb (fun lm => Qltb VISIBILITY_THRESHOLD (vis lm))
            [get_landmark landmarks LEFT_SHOULDER;
             get_landmark landmarks LEFT_HIP;
             get_landmark landmarks LEFT_KNEE;
             get_landmark landmarks LEFT_ANKLE])
    with (squat_visible landmarks).
  rewrite Hvis. subst mid st kh bh knee ankle.
  cbn [M.set_knee_history M.set_back_history M.set_min_knee_angle M.set_stage
       M.set_sequence M.knee_history M.back_history M.min_knee_angle M.stage
       M.sequence M.correct_counter M.incorrect_counter M.feedback
       M.depth_hold].
  destruct (opt_Stage_eqb _ (Some S3));
    cbn [M.set_depth_hold M.knee_history M.back_history M.min_knee_angle
         M.stage M.sequence M.correct_counter M.incorrect_counter M.feedback
         M.depth_hold];
    destruct (M.resolve_rep _ _) as [s' fb]; reflexivity.
Qed.

Lemma mobile_hidden_frame
    (calculate_angle : Point -> Point -> Point -> Q)
    (s : M.State) (landmarks : Landmarks) :
  squat_visible landmarks = false ->
  M.process_frame calculate_angle s (Some landmarks)
  = M.set_feedback (Some MSG_NOT_VISIBLE) s.
Proof.
  intro Hvis. unfold M.process_frame.
  change (forallb (fun lm => Qltb VISIBILITY_THRESHOLD (vis lm))
            [get_landmark landmarks LEFT_SHOULDER;
             get_landmark landmarks LEFT_HIP;
             get_landmark landmarks LEFT_KNEE;
             get_landmark landmarks LEFT_ANKLE])
    with (squat_visible landmarks).
  rewrite Hvis. reflexivity.
Qed.

Lemma mobile_resolve_outcome (knee_angle : Q) (s : M.State) :
  mobile_outcome s (M.resolve_rep knee_angle s).
Proof.
  unfold M.resolve_rep.
  repeat match goal with
         | |- context [if ?b then _ else _] => destruct b
         end;
    cbn [M.set_depth_hold M.set_min_knee_angle M.set_sequence
         M.set_correct_counter M.set_incorrect_counter
         M.knee_history M.back_history M.min_knee_angle
         M.stage M.sequence M.correct_counter M.incorrect_counter M.feedback
         M.depth_hold];
    constructor.
Qed.

Lemma mobile_step_counters
    (calculate_angle : Point -> Point -> Point -> Q)
    (s : M.State) (frame : option Landmarks) :
  (M.correct_counter s
   <= M.correct_counter (M.process_frame calculate_angle s frame))%nat
  /\ (M.incorrect_counter s
      <= M.incorrect_counter (M.process_frame calculate_angle s frame))%nat
  /\ (M.correct_counter (M.process_frame calculate_angle s frame)
      + M.incorrect_counter (M.process_frame calculate_angle s frame)
      <= M.correct_counter s + M.incorrect_counter s + 1)%nat.
Proof.
  destruct frame as [landmarks|]; [| simpl; lia].
  destruct (squat_visible landmarks) eqn:Hvis.
  - rewrite (mobile_visible_frame _ _ _ Hvis).
    match goal with
    | |- context [M.resolve_rep ?k ?mid] =>
      destruct (mobile_resolve_outcome k mid)
    end; simpl; lia.
  - rewrite (mobile_hidden_frame _ _ _ Hvis). simpl; lia.
Qed.

Lemma mobile_run_counters
    (calculate_angle : Point -> Point -> Point -> Q)
    (frames : list (option Landmarks)) (s : M.State) :
  (M.correct_counter s
   <= M.correct_counter (M.run calculate_angle s frames))%nat
  /\ (M.incorrect_counter s
      <= M.incorrect_counter (M.run calculate_angle s frames))%nat.
Proof.
  revert s. induction frames as [|f fs IH]; intro s; [simpl; lia|].
  change (M.run calculate_angle s (f :: fs))
    with (M.run calculate_angle (M.process_frame calculate_angle s f) fs).
  pose proof (mobile_step_counters calculate_angle s f).
  pose proof (IH (M.process_frame calculate_angle s f)). lia.
Qed.

(** C10. Across one call of the mobile squat [process_frame] neither
    counter decreases and their sum grows by at most one; over any replay
    the counters never decrease; [reset] sets both to zero. *)
Theorem mobile_counters_monotone :
  forall (calculate_angle : Point -> Point -> Point -> Q)
         (s : M.State) (frame : option Landmarks)
         (frames : list (option Landmarks)),
    let s' := M.process_frame calculate_angle s frame in
    let s_end := M.run calculate_angle s frames in
    (M.correct_counter s <= M.correct_counter s')%nat
    /\ (M.incorrect_counter s <= M.incorrect_counter s')%nat
    /\ (M.correct_counter s' + M.incorrect_counter s'
        <= M.correct_counter s + M.incorrect_counter s + 1)%nat
    /\ (M.correct_counter s <= M.correct_counter s_end)%nat
    /\ (M.incorrect_counter s <= M.incorrect_counter s_end)%nat
    /\ M.correct_counter (M.reset s) = 0%nat
    /\ M.incorrect_counter (M.reset s) = 0%nat.
Proof.
  intros calculate_angle s frame frames s' s_end.
  destruct (mobile_step_counters calculate_angle s frame) as (H1 & H2 & H3).
  destruct (mobile_run_counters calculate_angle frames s) as (H4 & H5).
  repeat split; try assumption; reflexivity.
Qed.

(** ** Camera squat analyzer: one frame *)

(** [_speak] touches [last_feedback] and [speech_queue] only. *)
Lemma speak_frame (text : option string) (s : C.State) :
  C.correct_counter (C.speak text s) = C.correct_counter s
  /\ C.incorrect_counter (C.speak text s) = C.incorrect_counter s
  /\ C.stage (C.speak text s) = C.stage s
  /\ C.sequence (C.speak text s) = C.sequence s
  /\ C.feedback (C.speak text s) = C.feedback s
  /\ C.knee_history (C.speak text s) = C.knee_history s
  /\ C.back_history (C.speak text s) = C.back_history s
  /\ C.depth_hold (C.speak text s) = C.depth_hold s
  /\ C.min_knee_angle (C.speak text s) = C.min_knee_angle s.
Proof.
  unfold C.speak. destruct text as [t|]; [| repeat split].
  destruct (C.truthy (Some t) && negb (opt_string_eqb (Some t) (C.last_feedback s)));
    repeat split.
Qed.

Lemma camera_visible_frame
    (calculate_angle : Point -> Point -> Point -> Q)
    (s : C.State) (landmarks : Landmarks) :
  squat_visible landmarks = true ->
  let knee := get_landmark landmarks LEFT_KNEE in
  let ankle := get_landmark landmarks LEFT_ANKLE in
  let kh := deque_append 5 (C.knee_history s)
              (calculate_angle (xy (get_landmark landmarks LEFT_HIP))
                               (xy knee) (xy ankle)) in
  let bh := deque_append 5 (C.back_history s)
              (calculate_angle (xy (get_landmark landmarks LEFT_SHOULDER))
                               (xy (get_landmark landmarks LEFT_HIP))
                               (xy knee)) in
  let st := classify_stage (C.stage s) (mean kh) in
  let mid :=
    {| C.correct_counter := C.correct_counter s;
       C.incorrect_counter := C.incorrect_counter s;
       C.stage := st;
       C.sequence := record_stage (C.stage s) st (C.sequence s);
       C.last_feedback := C.last_feedback s;
       C.feedback := C.feedback s;
       C.knee_history := kh;
       C.back_history := bh;
       C.depth_hold :=
         if opt_Stage_eqb st (Some S3) then C.depth_hold s + 1
         else C.depth_hold s;
       C.min_knee_angle := Qmin (C.min_knee_angle s) (mean kh);
       C.speech_queue := C.speech_queue s |} in
  let text :=
    form_feedback (snd (C.resolve_rep mid))
      (C.stage (fst (C.resolve_rep mid))) (mean kh) (mean bh)
      (C.min_knee_angle (fst (C.resolve_rep mid))) ankle knee in
  C.read_frame calculate_angle s (Some (Some landmarks))
  = C.speak text (C.set_feedback text (fst (C.resolve_rep mid))).
Proof.
  intros Hvis knee ankle kh bh st mid text.
  unfold C.read_frame.
  change (forallb (fun lm => Qltb VISIBILITY_THRESHOLD (vis lm))
            [get_landmark landmarks LEFT_SHOULDER;
             get_landmark landmarks LEFT_HIP;
             get_landmark landmarks LEFT_KNEE;
             get_landmark landmarks LEFT_ANKLE])
    with (squat_visible landmarks).
  rewrite Hvis. subst text mid st kh bh knee ankle.
  cbn [C.set_knee_history C.set_back_history C.set_min_knee_angle C.set_stage
       C.set_sequence C.knee_history C.back_history C.min_knee_angle C.stage
       C.sequence C.correct_counter C.incorrect_counter C.feedback
       C.depth_hold C.last_feedback C.speech_queue].
  destruct (opt_Stage_eqb _ (Some S3));
    cbn [C.set_depth_hold C.knee_history C.back_history C.min_knee_angle
         C.stage C.sequence C.correct_counter C.incorrect_counter C.feedback
         C.depth_hold C.last_feedback C.speech_queue];
    destruct (C.resolve_rep _) as [s' fb]; reflexivity.
Qed.

Lemma camera_hidden_frame
    (calculate_angle : Point -> Point -> Point -> Q)
    (s : C.State) (landmarks : Landmarks) :
  squat_visible landmarks = false ->
  C.read_frame calculate_angle s (Some (Some landmarks))
  = C.speak (Some MSG_NOT_VISIBLE) (C.set_feedback (Some MSG_NOT_VISIBLE) s).
Proof.
  intro Hvis. unfold C.read_frame.
  change (forallb (fun lm => Qltb VISIBILITY_THRESHOLD (vis lm))
            [get_landmark landmarks LEFT_SHOULDER;
             get_landmark landmarks LEFT_HIP;
             get_landmark landmarks LEFT_KNEE;
             get_landmark landmarks LEFT_ANKLE])
    with (squat_visible landmarks).
  rewrite Hvis. reflexivity.
Qed.

Lemma camera_resolve_outcome (s : C.State) :
  camera_outcome s (C.resolve_rep s).
Proof.
  unfold C.resolve_rep.
  repeat match goal with
         | |- context [if ?b then _ else _] => destruct b
         end;
    cbn [C.set_depth_hold C.set_min_knee_angle C.set_sequence
         C.set_correct_counter C.set_incorrect_counter
         C.knee_history C.back_history C.min_knee_angle
         C.stage C.sequence C.correct_counter C.incorrect_counter C.feedback
         C.depth_hold C.last_feedback C.speech_queue];
    constructor.
Qed.

(** ** Frames without a fully visible body *)

Lemma hidden_landmark (landmarks : Landmarks) (name : PoseLandmark) :
  In name [LEFT_SHOULDER; LEFT_HIP; LEFT_KNEE; LEFT_ANKLE] ->
  lm_visibility (landmarks name) <= VISIBILITY_THRESHOLD ->
  squat_visible landmarks = false.
Proof.
  intros Hin Hle. apply Qltb_ge in Hle.
  unfold squat_visible. simpl.
  simpl in Hin.
  destruct Hin as [<- | [<- | [<- | [<- | []]]]]; rewrite Hle;
    rewrite ?andb_false_r; reflexivity.
Qed.

(** C5. When one of the four required landmarks (left shoulder, hip, knee,
    ankle) has visibility not above 0.8, both squat analyzers set the
    feedback to the body-not-visible text and leave the counters, stage,
    sequence, depth hold, minimum knee angle and both angle windows as they
    were. *)
Theorem hidden_body_frame_keeps_state :
  forall (calculate_angle : Point -> Point -> Point -> Q)
         (m : M.State) (c : C.State)
         (landmarks : Landmarks) (name : PoseLandmark),
    In name [LEFT_SHOULDER; LEFT_HIP; LEFT_KNEE; LEFT_ANKLE] ->
    lm_visibility (landmarks name) <= 8 # 10 ->
    let m' := M.process_frame calculate_angle m (Some landmarks) in
    let c' := C.read_frame calculate_angle c (Some (Some landmarks)) in
    (M.feedback m' = Some MSG_NOT_VISIBLE
     /\ M.correct_counter m' = M.correct_counter m
     /\ M.incorrect_counter m' = M.incorrect_counter m
     /\ M.stage m' = M.stage m
     /\ M.sequence m' = M.sequence m
     /\ M.depth_hold m' = M.depth_hold m
     /\ M.min_knee_angle m' = M.min_knee_angle m
     /\ M.knee_history m' = M.knee_history m
     /\ M.back_history m' = M.back_history m)
    /\ (C.feedback c' = Some MSG_NOT_VISIBLE
        /\ C.correct_counter c' = C.correct_counter c
        /\ C.incorrect_counter c' = C.incorrect_counter c
        /\ C.stage c' = C.stage c
        /\ C.sequence c' = C.sequence c
        /\ C.depth_hold c' = C.depth_hold c
        /\ C.min_knee_angle c' = C.min_knee_angle c
        /\ C.knee_history c' = C.knee_history c
        /\ C.back_history c' = C.back_history c).
Proof.
  intros calculate_angle m c landmarks name Hin Hle m' c'.
  pose proof (hidden_landmark landmarks name Hin Hle) as Hvis.
  split.
  - subst m'. rewrite (mobile_hidden_frame _ _ _ Hvis). repeat split.
  - subst c'. rewrite (camera_hidden_frame _ _ _ Hvis).
    destruct (speak_frame (Some MSG_NOT_VISIBLE)
                (C.set_feedback (Some MSG_NOT_VISIBLE) c))
      as (H1 & H2 & H3 & H4 & H5 & H6 & H7 & H8 & H9).
    rewrite H1, H2, H3, H4, H5, H6, H7, H8, H9. repeat split.
Qed.

Lemma hidden_body_frame_keeps_state_witness :
  let landmarks := bent_knees (9 # 10) in
  let m := M.run compass_angle M.init descent in
  M.feedback (M.process_frame compass_angle m (Some landmarks))
  = Some MSG_NOT_VISIBLE
  /\ M.correct_counter (M.process_frame compass_angle m (Some landmarks))
     = M.correct_counter m
  /\ M.sequence (M.process_frame compass_angle m (Some landmarks))
     = [S1; S2; S3]
  /\ C.depth_hold (C.read_frame compass_angle C.init (Some (Some landmarks)))
     = 0%nat.
Proof.
  intros landmarks m.
  assert (Hin : In LEFT_SHOULDER [LEFT_SHOULDER; LEFT_HIP; LEFT_KNEE; LEFT_ANKLE])
    by (left; reflexivity).
  assert (Hle : lm_visibility (landmarks LEFT_SHOULDER) <= 8 # 10)
    by (vm_compute; discriminate).
  destruct (hidden_body_frame_keeps_state compass_angle m C.init landmarks
              LEFT_SHOULDER Hin Hle)
    as ((H1 & H2 & _ & _ & H5 & _) & (_ & _ & _ & _ & _ & G6 & _)).
  split; [exact H1 | split; [exact H2 | split; [| exact G6]]].
  rewrite H5. vm_compute. reflexivity.
Defined.

(** ** Reset *)

(** C6. Whatever frames they have processed, [reset] puts the mobile squat
    analyzer and the mobile jump analyzer back in the state [__init__]
    builds: counters zero, stage and baseline cleared, sequence and windows
    empty, depth hold 0, minimum knee angle 180, no feedback. *)
Theorem reset_restores_initial_state :
  forall (calculate_angle : Point -> Point -> Point -> Q)
         (m : M.State) (j : JM.State)
         (squat_frames : list (option Landmarks))
         (jump_frames : list JM.Frame),
    M.reset m = M.init
    /\ JM.reset j = JM.init
    /\ M.reset (M.run calculate_angle M.init squat_frames) = M.init
    /\ JM.reset (JM.run JM.init jump_frames) = JM.init
    /\ M.reset (M.reset m) = M.reset m
    /\ JM.reset (JM.reset j) = JM.reset j.
Proof.
  intros calculate_angle m j squat_frames jump_frames.
  assert (Hm : forall s, M.reset s = M.init) by reflexivity.
  assert (Hj : forall s, JM.reset s = JM.init) by reflexivity.
  repeat split; rewrite ?Hm, ?Hj; reflexivity.
Qed.

(** ** The minimum knee angle when a rep is counted *)

Lemma smoothed_knee_unfold
    (calculate_angle : Point -> Point -> Point -> Q)
    (kh : list Q) (landmarks : Landmarks) :
  mean (deque_append 5 kh
          (calculate_angle (xy (get_landmark landmarks LEFT_HIP))
                           (xy (get_landmark landmarks LEFT_KNEE))
                           (xy (get_landmark landmarks LEFT_ANKLE))))
  = smoothed_knee calculate_angle kh landmarks.
Proof. reflexivity. Qed.

(** C3 (as the code has it). In both squat analyzers a call that counts a
    correct rep ends with [min_knee_angle] equal to 180.  A call that counts
    an incorrect rep does not reset it: the frame is a visible one and
    [min_knee_angle] ends as the minimum of its previous value and the
    frame's smoothed knee angle. *)
Theorem min_knee_angle_after_rep :
  forall (calculate_angle : Point -> Point -> Point -> Q)
         (m : M.State) (c : C.State) (frame : option Landmarks),
    let m' := M.process_frame calculate_angle m frame in
    let c' := C.read_frame calculate_angle c (Some frame) in
    (M.correct_counter m' = (M.correct_counter m + 1)%nat ->
     M.min_knee_angle m' = 180)
    /\ (M.incorrect_counter m' = (M.incorrect_counter m + 1)%nat ->
        exists landmarks,
          frame = Some landmarks /\ squat_visible landmarks = true
          /\ M.min_knee_angle m'
             = Qmin (M.min_knee_angle m)
                    (smoothed_knee calculate_angle (M.knee_history m)
                                   landmarks))
    /\ (C.correct_counter c' = (C.correct_counter c + 1)%nat ->
        C.min_knee_angle c' = 180)
    /\ (C.incorrect_counter c' = (C.incorrect_counter c + 1)%nat ->
        exists landmarks,
          frame = Some landmarks /\ squat_visible landmarks = true
          /\ C.min_knee_angle c'
             = Qmin (C.min_knee_angle c)
                    (smoothed_knee calculate_angle (C.knee_history c)
                                   landmarks)).
Proof.
  intros calculate_angle m c frame m' c'. subst m' c'.
  destruct frame as [landmarks|].
  2:{ cbn [M.process_frame C.read_frame].
      destruct (speak_frame (Some MSG_NOT_VISIBLE)
                  (C.set_feedback (Some MSG_NOT_VISIBLE) c))
        as (E1 & E2 & _).
      rewrite E1, E2.
      repeat split; simpl; intro H; exfalso; lia. }
  destruct (squat_visible landmarks) eqn:Hvis.
  - rewrite (mobile_visible_frame _ _ _ Hvis).
    rewrite (camera_visible_frame _ _ _ Hvis).
    cbv zeta.
    match goal with
    | |- context [M.resolve_rep ?k ?mid] =>
      destruct (mobile_resolve_outcome k mid)
    end;
    match goal with
    | |- context [C.speak ?t (C.set_feedback ?t (fst (C.resolve_rep ?mid)))] =>
      destruct (speak_frame t (C.set_feedback t (fst (C.resolve_rep mid))))
        as (E1 & E2 & _ & _ & _ & _ & _ & _ & E9);
      rewrite E1, E2, E9; clear E1 E2 E9;
      destruct (camera_resolve_outcome mid)
    end;
    cbn [fst snd M.set_feedback C.set_feedback
         M.correct_counter M.incorrect_counter M.min_knee_angle
         C.correct_counter C.incorrect_counter C.min_knee_angle];
    rewrite ?smoothed_knee_unfold;
    repeat split;
    try (intro H; exfalso; lia);
    try (intros _; exists landmarks;
         split; [reflexivity | split; [exact Hvis | reflexivity]]);
    try reflexivity.
  - rewrite (mobile_hidden_frame _ _ _ Hvis).
    rewrite (camera_hidden_frame _ _ _ Hvis).
    destruct (speak_frame (Some MSG_NOT_VISIBLE)
                (C.set_feedback (Some MSG_NOT_VISIBLE) c))
      as (E1 & E2 & _).
    rewrite E1, E2.
    repeat split; simpl; intro H; exfalso; lia.
Qed.

Lemma min_knee_angle_after_rep_witness :
  M.min_knee_angle
    (M.process_frame compass_angle (M.run compass_angle M.init descent)
                     standing) = 180
  /\ exists landmarks,
       standing = Some landmarks /\ squat_visible landmarks = true
       /\ M.min_knee_angle
            (M.process_frame compass_angle
               (M.run compass_angle M.init [standing; half_squat]) standing)
          = Qmin (M.min_knee_angle
                    (M.run compass_angle M.init [standing; half_squat]))
                 (smoothed_knee compass_angle
                    (M.knee_history
                       (M.run compass_angle M.init [standing; half_squat]))
                    landmarks).
Proof.
  split.
  - destruct (min_knee_angle_after_rep compass_angle
                (M.run compass_angle M.init descent) C.init standing)
      as (H & _).
    apply H. vm_compute. reflexivity.
  - destruct (min_knee_angle_after_rep compass_angle
                (M.run compass_angle M.init [standing; half_squat])
                C.init standing)
      as (_ & H & _).
    apply H. vm_compute. reflexivity.
Defined.

(** C3 as stated fails: the third frame of [shallow_rep] counts an incorrect
    rep in both analyzers and leaves [min_knee_angle] at 157.5. *)
Lemma incorrect_rep_keeps_min_knee_angle :
  let m := M.run compass_angle M.init [standing; half_squat] in
  let m' := M.process_frame compass_angle m standing in
  let c := fold_left (C.read_frame compass_angle)
             [Some standing; Some half_squat] C.init in
  let c' := C.read_frame compass_angle c (Some standing) in
  M.incorrect_counter m = 0%nat /\ M.incorrect_counter m' = 1%nat
  /\ M.min_knee_angle m' == 315 # 2 /\ ~ M.min_knee_angle m' == 180
  /\ C.incorrect_counter c = 0%nat /\ C.incorrect_counter c' = 1%nat
  /\ C.min_knee_angle c' == 315 # 2 /\ ~ C.min_knee_angle c' == 180.
Proof.
  vm_compute.
  repeat split; try reflexivity; intro H; discriminate H.
Qed.

(** ** A rep counted on the way up *)

Lemma last_n_3_split {A : Type} (l : list A) (a b c : A) :
  last_n 3 l = [a; b; c] -> exists pre, l = pre ++ [a; b; c].
Proof.
  intro H. exists (firstn (length l - 3) l).
  rewrite <- H. unfold last_n. symmetry. apply firstn_skipn.
Qed.

Lemma last_n_3_length {A : Type} (l : list A) (a b c : A) :
  last_n 3 l = [a; b; c] -> (3 <=? length l)%nat = true.
Proof.
  intro H. destruct (last_n_3_split l a b c H) as [pre ->].
  apply Nat.leb_le. rewrite length_app. simpl. lia.
Qed.

Lemma last_n_3_push {A : Type} (l : list A) (a b c d : A) :
  last_n 3 l = [a; b; c] -> last_n 3 (l ++ [d]) = [b; c; d].
Proof.
  intro H. destruct (last_n_3_split l a b c H) as [pre ->].
  rewrite <- app_assoc. simpl.
  change (pre ++ [a; b; c; d]) with (pre ++ [a] ++ [b; c; d]).
  rewrite app_assoc. apply last_n_app_exact. reflexivity.
Qed.

Lemma classify_stage_S2 (prev : option Stage) (k : Q) :
  95 < k -> k <= 160 -> classify_stage prev k = Some S2.
Proof.
  intros Hlo Hhi. unfold classify_stage, STAGE_S1_THRESHOLD, STAGE_S2_THRESHOLD.
  rewrite (proj2 (Qltb_ge 160 k) Hhi).
  rewrite (proj2 (Qle_bool_iff k 160) Hhi).
  rewrite (proj2 (Qltb_lt 95 k) Hlo). reflexivity.
Qed.

(** A frame classified S3 has a smoothed knee angle of at most 95. *)
Lemma classify_stage_S3 (prev : option Stage) (k : Q) :
  classify_stage prev k = Some S3 -> k <= 95.
Proof.
  unfold classify_stage, STAGE_S1_THRESHOLD, STAGE_S2_THRESHOLD.
  destruct (Qltb 160 k) eqn:E1; [discriminate|].
  destruct (Qle_bool k 160 && Qltb 95 k) eqn:E2; [discriminate|].
  destruct (Qle_bool k 95) eqn:E3.
  - intros _. apply Qle_bool_iff. exact E3.
  - intros _. exfalso.
    apply Qltb_ge in E1.
    apply andb_false_iff in E2. destruct E2 as [E2 | E2].
    + apply (proj2 (Qle_bool_iff k 160)) in E1. congruence.
    + apply Qltb_ge in E2. apply (proj2 (Qle_bool_iff k 95)) in E2.
      congruence.
Qed.

(** After a rep has been counted while the stage is S2 and the knee angle
    is above 80, the form chain always replaces the rep feedback. *)
Lemma form_feedback_S2 (fb : option string) (k b mk : Q) (ankle knee : Q * Q * Q) :
  80 < k ->
  exists text,
    form_feedback fb (Some S2) k b mk ankle knee = Some text
    /\ In text form_texts_S2.
Proof.
  intro Hk. unfold form_feedback, form_texts_S2.
  rewrite (proj2 (Qltb_lt 80 k) Hk). simpl.
  destruct (Qltb (fst (xy knee)) (fst (xy ankle)));
    [eexists; split; [reflexivity | simpl; tauto] |].
  destruct (Qltb b 25); [eexists; split; [reflexivity | simpl; tauto] |].
  destruct (Qltb 50 b); eexists; split; try reflexivity; simpl; tauto.
Qed.

Lemma form_texts_S2_not_correct (text : string) :
  In text form_texts_S2 -> text <> MSG_CORRECT.
Proof.
  unfold form_texts_S2. simpl.
  intros [<- | [<- | [<- | [<- | []]]]]; discriminate.
Qed.

(** One frame on the way up, from any state. *)
Lemma mobile_rising_frame
    (calculate_angle : Point -> Point -> Point -> Q)
    (s : M.State) (landmarks : Landmarks) :
  squat_visible landmarks = true ->
  last_n 3 (M.sequence s) = [S1; S2; S3] ->
  (3 <= M.depth_hold s)%nat ->
  100 < smoothed_knee calculate_angle (M.knee_history s) landmarks ->
  smoothed_knee calculate_angle (M.knee_history s) landmarks <= 160 ->
  let s' := M.process_frame calculate_angle s (Some landmarks) in
  M.correct_counter s' = (M.correct_counter s + 1)%nat
  /\ M.incorrect_counter s' = M.incorrect_counter s
  /\ M.sequence s' = []
  /\ M.min_knee_angle s' = 180
  /\ M.depth_hold s' = 0%nat
  /\ M.stage s' = Some S2
  /\ (exists text, M.feedback s' = Some text /\ In text form_texts_S2)
  /\ M.feedback s' <> Some MSG_CORRECT.
Proof.
  intros Hvis Hseq Hdh Hlo Hhi s'. subst s'.
  rewrite (mobile_visible_frame _ _ _ Hvis). cbv zeta.
  rewrite !smoothed_knee_unfold.
  set (k := smoothed_knee calculate_angle (M.knee_history s) landmarks) in *.
  assert (H95 : 95 < k) by (eapply Qlt_trans; [| exact Hlo]; reflexivity).
  assert (H80 : 80 < k) by (eapply Qlt_trans; [| exact Hlo]; reflexivity).
  rewrite (classify_stage_S2 (M.stage s) k H95 Hhi).
  cbn [opt_Stage_eqb Stage_eqb].
  assert (Hres :
    forall hist back,
    M.resolve_rep k
      {| M.correct_counter := M.correct_counter s;
         M.incorrect_counter := M.incorrect_counter s;
         M.stage := Some S2;
         M.sequence := record_stage (M.stage s) (Some S2) (M.sequence s);
         M.feedback := M.feedback s;
         M.knee_history := hist;
         M.back_history := back;
         M.depth_hold := M.depth_hold s;
         M.min_knee_angle := Qmin (M.min_knee_angle s) k |}
    = ({| M.correct_counter := M.correct_counter s + 1;
          M.incorrect_counter := M.incorrect_counter s;
          M.stage := Some S2; M.sequence := [];
          M.feedback := M.feedback s;
          M.knee_history := hist;
          M.back_history := back;
          M.depth_hold := 0; M.min_knee_angle := 180 |}, Some MSG_CORRECT)).
  { intros hist back. unfold M.resolve_rep.
    cbn [M.sequence M.depth_hold M.correct_counter].
    rewrite (proj2 (Nat.leb_le 3 (M.depth_hold s)) Hdh).
    rewrite (proj2 (Qltb_lt 100 k) Hlo).
    unfold record_stage.
    destruct (negb (opt_Stage_eqb (M.stage s) (Some S2))).
    - rewrite (last_n_3_push _ _ _ _ S2 Hseq).
      rewrite (last_n_3_length _ _ _ _ (last_n_3_push _ _ _ _ S2 Hseq)).
      reflexivity.
    - rewrite Hseq, (last_n_3_length _ _ _ _ Hseq). reflexivity. }
  rewrite Hres. cbn [fst snd M.set_feedback M.correct_counter
    M.incorrect_counter M.sequence M.min_knee_angle M.depth_hold M.stage
    M.feedback].
  destruct (form_feedback_S2 (Some MSG_CORRECT) k
              (mean (deque_append 5 (M.back_history s)
                 (calculate_angle (xy (get_landmark landmarks LEFT_SHOULDER))
                    (xy (get_landmark landmarks LEFT_HIP))
                    (xy (get_landmark landmarks LEFT_KNEE)))))
              180 (get_landmark landmarks LEFT_ANKLE)
              (get_landmark landmarks LEFT_KNEE) H80) as [text [Hfb Hin]].
  rewrite Hfb.
  repeat split; try reflexivity.
  - exists text. split; [reflexivity | exact Hin].
  - intro H. injection H as H. exact (form_texts_S2_not_correct _ Hin H).
Qed.

(** ** States a run goes through *)

Lemma deque_append_length (w : list Q) (v : Q) :
  (length w <= 5)%nat ->
  length (deque_append 5 w v) = Nat.min 5 (length w + 1).
Proof.
  intro H. unfold deque_append. rewrite length_app. simpl length.
  destruct (Nat.ltb_spec 5 (length w + 1)).
  - destruct (w ++ [v]) eqn:E.
    + apply (f_equal (@length Q)) in E. rewrite length_app in E.
      cbn [length] in E. lia.
    + apply (f_equal (@length Q)) in E. rewrite length_app in E.
      cbn [length] in E. cbn [tl]. lia.
  - rewrite length_app. cbn [length]. lia.
Qed.

Lemma deque_append_Forall (P : Q -> Prop) (w : list Q) (v : Q) :
  Forall P w -> P v -> Forall P (deque_append 5 w v).
Proof.
  intros Hw Hv. unfold deque_append.
  assert (H : Forall P (w ++ [v])).
  { apply Forall_app. split; [exact Hw | constructor; [exact Hv | constructor]]. }
  destruct (5 <? length (w ++ [v]))%nat; [| exact H].
  destruct (w ++ [v]); [constructor |]. inversion H. assumption.
Qed.

Lemma Qdiv_5 (x : Q) : x / 5 == x * (1 # 5).
Proof. unfold Qdiv. reflexivity. Qed.

(** A full window whose mean is at most 95 has a mean of at most 131 after
    one more angle: a frame cannot leave S3 for S1 directly. *)
Lemma full_window_next_mean (w : list Q) (v : Q) :
  length w = 5%nat ->
  Forall (fun x => 0 <= x /\ x <= 180) w ->
  mean w <= 95 ->
  v <= 180 ->
  mean (deque_append 5 w v) <= 131.
Proof.
  intros Hlen Hrange Hmean Hv.
  destruct w as [|a [|b [|c [|d [|e [|f w]]]]]]; try discriminate.
  inversion Hrange as [|? ? [Ha _] _]. subst.
  change (deque_append 5 [a; b; c; d; e] v) with [b; c; d; e; v].
  rewrite mean_five in *. unfold mean5 in *. rewrite Qdiv_5 in *. lra.
Qed.

Lemma upright_entries_app (l1 l2 : list Stage) :
  upright_entries (l1 ++ l2) = (upright_entries l1 + upright_entries l2)%nat.
Proof. unfold upright_entries. rewrite filter_app, length_app. reflexivity. Qed.

Lemma consistent_init : consistent M.init.
Proof.
  constructor; cbn.
  - constructor.
  - lia.
  - lia.
  - discriminate.
  - discriminate.
Qed.

Lemma consistent_set_feedback (fb : option string) (s : M.State) :
  consistent s -> consistent (M.set_feedback fb s).
Proof. intros [H1 H2 H3 H4 H5]. constructor; assumption. Qed.

(** [process_frame] keeps a consistent state consistent, as long as the
    angles are in range. *)
Lemma consistent_process_frame
    (calculate_angle : Point -> Point -> Point -> Q)
    (s : M.State) (frame : option Landmarks) :
  angle_in_range calculate_angle ->
  consistent s ->
  consistent (M.process_frame calculate_angle s frame).
Proof.
  intros Hang Hs.
  destruct frame as [landmarks|]; [| apply consistent_set_feedback; exact Hs].
  destruct (squat_visible landmarks) eqn:Hvis.
  2:{ rewrite (mobile_hidden_frame _ _ _ Hvis).
      apply consistent_set_feedback; exact Hs. }
  rewrite (mobile_visible_frame _ _ _ Hvis). cbv zeta.
  apply consistent_set_feedback.
  set (v := calculate_angle _ _ _).
  set (kh := deque_append 5 (M.knee_history s) v).
  set (st := classify_stage (M.stage s) (mean kh)).
  match goal with
  | |- consistent (fst (M.resolve_rep ?k ?m)) => set (mid := m)
  end.
  destruct Hs as [H1 H2 H3 H4 H5].
  assert (Hmid : consistent mid).
  { constructor; cbn [mid M.knee_history M.depth_hold M.sequence M.stage].
    - apply deque_append_Forall; [exact H1 | apply Hang].
    - unfold kh. rewrite deque_append_length by exact H2. lia.
    - unfold kh. rewrite deque_append_length by exact H2.
      unfold record_stage.
      destruct st as [[| |]|] eqn:Est; cbn [opt_Stage_eqb Stage_eqb];
        try destruct (negb (opt_Stage_eqb (M.stage s) _));
        rewrite ?upright_entries_app; cbn [upright_entries filter Stage_eqb
          negb length]; lia.
    - intros x Hx. unfold record_stage in Hx.
      destruct st as [y|] eqn:Est.
      + destruct (opt_Stage_eqb (M.stage s) (Some y)) eqn:E; cbn [negb] in Hx.
        * apply opt_Stage_eqb_eq in E. rewrite <- E. apply H4. exact Hx.
        * rewrite last_opt_snoc in Hx. exact Hx.
      + assert (Hprev : M.stage s = None).
        { unfold st, classify_stage in Est.
          repeat match type of Est with
                 | (if ?b then _ else _) = _ => destruct b; try discriminate
                 end. exact Est. }
        rewrite (H4 x Hx) in Hprev. discriminate.
    - intro Hdeep. apply (classify_stage_S3 (M.stage s)). exact Hdeep. }
  destruct Hmid as [G1 G2 G3 G4 G5].
  destruct (mobile_resolve_outcome (mean kh) mid);
    constructor; cbn [fst M.knee_history M.depth_hold M.sequence M.stage];
    try assumption; try (cbn; lia); try (intros x Hx; discriminate Hx).
Qed.

Lemma consistent_call
    (calculate_angle : Point -> Point -> Point -> Q)
    (s : M.State) (c : Call) :
  angle_in_range calculate_angle ->
  consistent s ->
  consistent (call calculate_angle s c).
Proof.
  intros Hang Hs. destruct c as [frame|].
  - apply consistent_process_frame; assumption.
  - apply consistent_init.
Qed.

Lemma consistent_after_calls
    (calculate_angle : Point -> Point -> Point -> Q) (calls : list Call) :
  angle_in_range calculate_angle ->
  consistent (after_calls calculate_angle calls).
Proof.
  intro Hang. unfold after_calls.
  assert (H : forall s, consistent s ->
                        consistent (fold_left (call calculate_angle) calls s)).
  { induction calls as [|c calls IH]; intros s Hs; [exact Hs |].
    simpl. apply IH. apply consistent_call; assumption. }
  apply H. apply consistent_init.
Qed.

(** In a consistent state that has recorded [S1, S2, S3] with a depth hold
    of three, the next smoothed knee angle is at most 131. *)
Lemma rising_angle_bounded
    (calculate_angle : Point -> Point -> Point -> Q)
    (s : M.State) (landmarks : Landmarks) :
  angle_in_range calculate_angle ->
  consistent s ->
  last_n 3 (M.sequence s) = [S1; S2; S3] ->
  (3 <= M.depth_hold s)%nat ->
  smoothed_knee calculate_angle (M.knee_history s) landmarks <= 131.
Proof.
  intros Hang [H1 H2 H3 H4 H5] Hseq Hdh.
  destruct (last_n_3_split _ _ _ _ Hseq) as [pre Hpre].
  unfold smoothed_knee. apply full_window_next_mean.
  - rewrite Hpre, upright_entries_app in H3.
    cbn [upright_entries filter Stage_eqb negb length] in H3. lia.
  - exact H1.
  - apply H5. apply H4. rewrite Hpre.
    change (pre ++ [S1; S2; S3]) with (pre ++ [S1; S2] ++ [S3]).
    rewrite app_assoc. apply last_opt_snoc.
  - apply Hang.
Qed.

(** ** Replaying a descent *)

Lemma mobile_resolve_quiet (k : Q) (X : Stage) (mid : M.State) :
  quiet (M.sequence mid) X ->
  (X = S3 -> k <= 95) ->
  M.resolve_rep k mid = (mid, None).
Proof.
  intros Hq Hk. unfold M.resolve_rep.
  destruct Hq as [-> | [-> | [-> ->]]]; try reflexivity.
  assert (H100 : Qltb 100 k = false).
  { apply Qltb_ge. eapply Qle_trans; [apply Hk; reflexivity | discriminate]. }
  rewrite H100. cbn.
  destruct (M.depth_hold mid) as [|[|[|n]]]; reflexivity.
Qed.

(** A visible frame that ends in stage [X] with a quiet sequence only
    records the stage and the depth hold. *)
Lemma mobile_quiet_frame
    (calculate_angle : Point -> Point -> Point -> Q)
    (s : M.State) (landmarks : Landmarks) (X : Stage) :
  squat_visible landmarks = true ->
  M.stage (M.process_frame calculate_angle s (Some landmarks)) = Some X ->
  quiet (record_stage (M.stage s) (Some X) (M.sequence s)) X ->
  let s' := M.process_frame calculate_angle s (Some landmarks) in
  M.sequence s' = record_stage (M.stage s) (Some X) (M.sequence s)
  /\ M.correct_counter s' = M.correct_counter s
  /\ M.incorrect_counter s' = M.incorrect_counter s
  /\ M.depth_hold s'
     = (if Stage_eqb X S3 then M.depth_hold s + 1 else M.depth_hold s)%nat.
Proof.
  intros Hvis Hst Hq s'. subst s'. revert Hst.
  rewrite (mobile_visible_frame _ _ _ Hvis). cbv zeta.
  set (k := mean _).
  assert (Hstage : forall mid fb,
            M.stage (M.set_feedback fb (fst (M.resolve_rep k mid)))
            = M.stage mid).
  { intros mid fb. destruct (mobile_resolve_outcome k mid); reflexivity. }
  rewrite Hstage. cbn [M.stage]. intro Hcl. rewrite Hcl.
  rewrite mobile_resolve_quiet with (X := X).
  - cbn. repeat split; reflexivity.
  - cbn [M.sequence]. exact Hq.
  - intros ->. apply (classify_stage_S3 _ _ Hcl).
Qed.

Lemma cons_eq_inv {A : Type} (x y : A) (l l' : list A) :
  x :: l = y :: l' -> x = y /\ l = l'.
Proof. intro H. injection H as -> ->. split; reflexivity. Qed.

Lemma stage_trace_cons
    (calculate_angle : Point -> Point -> Point -> Q)
    (f : option Landmarks) (a : list (option Landmarks)) (s : M.State) :
  stage_trace calculate_angle s (f :: a)
  = M.stage (M.process_frame calculate_angle s f)
    :: stage_trace calculate_angle (M.process_frame calculate_angle s f) a.
Proof. reflexivity. Qed.

Lemma correct_trace_cons
    (calculate_angle : Point -> Point -> Point -> Q)
    (f : option Landmarks) (a : list (option Landmarks)) (s : M.State) :
  correct_trace calculate_angle s (f :: a)
  = M.correct_counter (M.process_frame calculate_angle s f)
    :: correct_trace calculate_angle (M.process_frame calculate_angle s f) a.
Proof. reflexivity. Qed.

Lemma stage_trace_app
    (calculate_angle : Point -> Point -> Point -> Q)
    (a b : list (option Landmarks)) (s : M.State) :
  stage_trace calculate_angle s (a ++ b)
  = stage_trace calculate_angle s a
    ++ stage_trace calculate_angle (M.run calculate_angle s a) b.
Proof.
  revert s. induction a as [|f a IH]; intro s; [reflexivity|].
  simpl. rewrite IH. reflexivity.
Qed.

Lemma correct_trace_app
    (calculate_angle : Point -> Point -> Point -> Q)
    (a b : list (option Landmarks)) (s : M.State) :
  correct_trace calculate_angle s (a ++ b)
  = correct_trace calculate_angle s a
    ++ correct_trace calculate_angle (M.run calculate_angle s a) b.
Proof.
  revert s. induction a as [|f a IH]; intro s; [reflexivity|].
  simpl. rewrite IH. reflexivity.
Qed.

Lemma stage_trace_length
    (calculate_angle : Point -> Point -> Point -> Q)
    (a : list (option Landmarks)) (s : M.State) :
  length (stage_trace calculate_angle s a) = length a.
Proof.
  revert s. induction a as [|f a IH]; intro s; [reflexivity|].
  simpl. rewrite IH. reflexivity.
Qed.

Lemma app_eq_by_length {A : Type} (a c b d : list A) :
  length a = length c -> a ++ b = c ++ d -> a = c /\ b = d.
Proof.
  revert c. induction a as [|x a IH]; intros [|y c] Hlen H;
    try discriminate; [split; [reflexivity | exact H] |].
  simpl in H. injection H as -> H. injection Hlen as Hlen.
  destruct (IH c Hlen H) as [-> ->]. split; reflexivity.
Qed.

(** Frames that all end in the stage already held. *)
Lemma mobile_hold_stage
    (calculate_angle : Point -> Point -> Point -> Q) (X : Stage)
    (frames : list (option Landmarks)) (s : M.State) :
  forallb frame_visible frames = true ->
  stage_trace calculate_angle s frames = map (fun _ => Some X) frames ->
  M.stage s = Some X ->
  quiet (M.sequence s) X ->
  let s' := M.run calculate_angle s frames in
  M.stage s' = Some X
  /\ M.sequence s' = M.sequence s
  /\ M.correct_counter s' = M.correct_counter s
  /\ M.incorrect_counter s' = M.incorrect_counter s
  /\ M.depth_hold s'
     = (if Stage_eqb X S3 then M.depth_hold s + length frames
        else M.depth_hold s)%nat
  /\ correct_trace calculate_angle s frames
     = map (fun _ => M.correct_counter s) frames.
Proof.
  revert s. induction frames as [|f frames IH]; intros s Hvis Htr Hst Hq.
  - simpl. repeat split; try assumption.
    destruct (Stage_eqb X S3); lia.
  - simpl in Hvis. apply andb_true_iff in Hvis. destruct Hvis as [Hf Hvis].
    destruct f as [landmarks|]; [| discriminate].
    simpl in Hf. rewrite stage_trace_cons in Htr. cbn [map] in Htr.
  apply cons_eq_inv in Htr. destruct Htr as [Hst' Htr].
    assert (Hrec : record_stage (M.stage s) (Some X) (M.sequence s)
                   = M.sequence s).
    { unfold record_stage. rewrite Hst.
      rewrite (proj2 (opt_Stage_eqb_eq (Some X) (Some X)) eq_refl).
      reflexivity. }
    destruct (mobile_quiet_frame calculate_angle s landmarks X Hf Hst')
      as (Hs1 & Hc1 & Hi1 & Hd1).
    { rewrite Hrec. exact Hq. }
    rewrite Hrec in Hs1.
    specialize (IH _ Hvis Htr Hst').
    rewrite Hs1 in IH. specialize (IH Hq).
    destruct IH as (I1 & I2 & I3 & I3' & I4 & I5).
    change (M.run calculate_angle s (Some landmarks :: frames))
      with (M.run calculate_angle
              (M.process_frame calculate_angle s (Some landmarks)) frames).
    cbv zeta. rewrite I1, I2, I3, I3', I4. rewrite correct_trace_cons. cbn [map].
    rewrite I5, Hc1, Hi1, Hd1.
    repeat split; try reflexivity.
    simpl length. destruct (Stage_eqb X S3); lia.
Qed.

(** A first frame that moves to stage [X], followed by frames that stay
    there. *)
Lemma mobile_phase
    (calculate_angle : Point -> Point -> Point -> Q) (X : Stage)
    (frames : list (option Landmarks)) (s : M.State) :
  frames <> [] ->
  forallb frame_visible frames = true ->
  stage_trace calculate_angle s frames = map (fun _ => Some X) frames ->
  M.stage s <> Some X ->
  quiet (M.sequence s ++ [X]) X ->
  let s' := M.run calculate_angle s frames in
  M.stage s' = Some X
  /\ M.sequence s' = M.sequence s ++ [X]
  /\ M.correct_counter s' = M.correct_counter s
  /\ M.incorrect_counter s' = M.incorrect_counter s
  /\ M.depth_hold s'
     = (if Stage_eqb X S3 then M.depth_hold s + length frames
        else M.depth_hold s)%nat
  /\ correct_trace calculate_angle s frames
     = map (fun _ => M.correct_counter s) frames.
Proof.
  intros Hne Hvis Htr Hst Hq.
  destruct frames as [|f frames]; [congruence|]. clear Hne.
  simpl in Hvis. apply andb_true_iff in Hvis. destruct Hvis as [Hf Hvis].
  destruct f as [landmarks|]; [| discriminate].
  simpl in Hf. rewrite stage_trace_cons in Htr. cbn [map] in Htr.
  apply cons_eq_inv in Htr. destruct Htr as [Hst' Htr].
  assert (Hrec : record_stage (M.stage s) (Some X) (M.sequence s)
                 = M.sequence s ++ [X]).
  { unfold record_stage.
    destruct (opt_Stage_eqb (M.stage s) (Some X)) eqn:E; [| reflexivity].
    apply opt_Stage_eqb_eq in E. congruence. }
  destruct (mobile_quiet_frame calculate_angle s landmarks X Hf Hst')
    as (Hs1 & Hc1 & Hi1 & Hd1).
  { rewrite Hrec. exact Hq. }
  rewrite Hrec in Hs1.
  destruct (mobile_hold_stage calculate_angle X frames _ Hvis Htr Hst')
    as (I1 & I2 & I3 & I3' & I4 & I5).
  { rewrite Hs1. exact Hq. }
  change (M.run calculate_angle s (Some landmarks :: frames))
    with (M.run calculate_angle
            (M.process_frame calculate_angle s (Some landmarks)) frames).
  cbv zeta. rewrite I1, I2, I3, I3', I4. rewrite correct_trace_cons. cbn [map].
  rewrite I5, Hc1, Hi1, Hd1, Hs1.
  repeat split; try reflexivity.
  simpl length. destruct (Stage_eqb X S3); lia.
Qed.

Lemma mobile_run_app
    (calculate_angle : Point -> Point -> Point -> Q)
    (a b : list (option Landmarks)) (s : M.State) :
  M.run calculate_angle s (a ++ b)
  = M.run calculate_angle (M.run calculate_angle s a) b.
Proof. unfold M.run. apply fold_left_app. Qed.

(** The state at the bottom of a descent replayed from a fresh analyzer. *)
Lemma mobile_descent_replay
    (calculate_angle : Point -> Point -> Point -> Q)
    (standing_frames partial_frames deep_frames : list (option Landmarks)) :
  let replay := standing_frames ++ partial_frames ++ deep_frames in
  forallb frame_visible replay = true ->
  stage_trace calculate_angle M.init replay
  = map (fun _ => Some S1) standing_frames
    ++ map (fun _ => Some S2) partial_frames
    ++ map (fun _ => Some S3) deep_frames ->
  standing_frames <> [] ->
  partial_frames <> [] ->
  deep_frames <> [] ->
  let bottom := M.run calculate_angle M.init replay in
  M.stage bottom = Some S3
  /\ M.sequence bottom = [S1; S2; S3]
  /\ M.correct_counter bottom = 0%nat
  /\ M.incorrect_counter bottom = 0%nat
  /\ M.depth_hold bottom = length deep_frames
  /\ correct_trace calculate_angle M.init replay = map (fun _ => 0%nat) replay.
Proof.
  intros replay Hvis Htr H1 H2 H3 bottom. subst bottom replay.
  rewrite !forallb_app in Hvis.
  apply andb_true_iff in Hvis. destruct Hvis as [V1 Hvis].
  apply andb_true_iff in Hvis. destruct Hvis as [V2 V3].
  rewrite !stage_trace_app in Htr.
  rewrite !mobile_run_app, !correct_trace_app, !map_app.
  apply app_eq_by_length in Htr;
    [| rewrite stage_trace_length, length_map; reflexivity].
  destruct Htr as [T1 Htr].
  apply app_eq_by_length in Htr;
    [| rewrite stage_trace_length, length_map; reflexivity].
  destruct Htr as [T2 T3].
  destruct (mobile_phase calculate_angle S1 standing_frames M.init H1 V1 T1)
    as (A1 & A2 & A3 & A3' & A4 & A5);
    [discriminate | left; reflexivity |].
  set (s1 := M.run calculate_angle M.init standing_frames) in *.
  destruct (mobile_phase calculate_angle S2 partial_frames s1 H2 V2 T2)
    as (B1 & B2 & B3 & B3' & B4 & B5);
    [rewrite A1; discriminate
    | rewrite A2; right; left; reflexivity |].
  set (s2 := M.run calculate_angle s1 partial_frames) in *.
  destruct (mobile_phase calculate_angle S3 deep_frames s2 H3 V3 T3)
    as (C1 & C2 & C3 & C3' & C4 & C5);
    [rewrite B1; discriminate
    | rewrite B2, A2; right; right; split; reflexivity |].
  rewrite C1, C2, C3, C3', C4, B2, B3, B3', B4, A2, A3, A3', A4.
  rewrite A5, B5, C5, B3, A3.
  repeat split; reflexivity.
Qed.

Lemma consistent_run
    (calculate_angle : Point -> Point -> Point -> Q)
    (frames : list (option Landmarks)) (s : M.State) :
  angle_in_range calculate_angle ->
  consistent s ->
  consistent (M.run calculate_angle s frames).
Proof.
  intro Hang. revert s.
  induction frames as [|f frames IH]; intros s Hs; [exact Hs |].
  apply (IH (M.process_frame calculate_angle s f)).
  apply consistent_process_frame; assumption.
Qed.

(** C1 (as the code has it). The angles are those [_calculate_angle]
    returns, within 0 and 180.  First part, any run of the mobile squat
    analyzer from a fresh instance (frames and resets): on a visible frame
    where the last three recorded stages are [S1, S2, S3],
    [depth_hold >= 3] and the smoothed knee angle exceeds 100,
    [process_frame] increments [correct_counter] by exactly one, leaves
    [incorrect_counter], empties [sequence], resets [min_knee_angle] to 180
    and [depth_hold] to 0; the stage is S2 and the feedback the call leaves
    is a form-feedback text (Bend forward, Bend backwards, Lower your hips
    or Knees over toes), never Correct Squat.  Second part, a replay from a
    fresh analyzer: over visible frames whose stages are S1 (at least one),
    then S2 (at least one), then S3 (at least three), followed by such a
    rising frame, the counter is 0 after every frame but the last and 1
    after the last. *)
Theorem rising_frame_counts_one_rep :
  forall (calculate_angle : Point -> Point -> Point -> Q),
    angle_in_range calculate_angle ->
    (forall (calls : list Call) (landmarks : Landmarks),
        let s := after_calls calculate_angle calls in
        squat_visible landmarks = true ->
        last_n 3 (M.sequence s) = [S1; S2; S3] ->
        (3 <= M.depth_hold s)%nat ->
        100 < smoothed_knee calculate_angle (M.knee_history s) landmarks ->
        let s' := M.process_frame calculate_angle s (Some landmarks) in
        M.correct_counter s' = (M.correct_counter s + 1)%nat
        /\ M.incorrect_counter s' = M.incorrect_counter s
        /\ M.sequence s' = []
        /\ M.min_knee_angle s' = 180
        /\ M.depth_hold s' = 0%nat
        /\ M.stage s' = Some S2
        /\ (exists text, M.feedback s' = Some text /\ In text form_texts_S2)
        /\ M.feedback s' <> Some MSG_CORRECT)
    /\ (forall (standing_frames partial_frames deep_frames
                 : list (option Landmarks)) (rising : Landmarks),
           let replay := standing_frames ++ partial_frames ++ deep_frames in
           let bottom := M.run calculate_angle M.init replay in
           forallb frame_visible replay = true ->
           stage_trace calculate_angle M.init replay
           = map (fun _ => Some S1) standing_frames
             ++ map (fun _ => Some S2) partial_frames
             ++ map (fun _ => Some S3) deep_frames ->
           standing_frames <> [] ->
           partial_frames <> [] ->
           (3 <= length deep_frames)%nat ->
           squat_visible rising = true ->
           100 < smoothed_knee calculate_angle (M.knee_history bottom) rising ->
           let s_end :=
             M.run calculate_angle M.init (replay ++ [Some rising]) in
           M.sequence bottom = [S1; S2; S3]
           /\ (3 <= M.depth_hold bottom)%nat
           /\ correct_trace calculate_angle M.init (replay ++ [Some rising])
              = map (fun _ => 0%nat) replay ++ [1%nat]
           /\ M.correct_counter s_end = 1%nat
           /\ M.incorrect_counter s_end = 0%nat
           /\ M.sequence s_end = []
           /\ M.min_knee_angle s_end = 180
           /\ M.depth_hold s_end = 0%nat
           /\ M.feedback s_end <> Some MSG_CORRECT).
Proof.
  intros calculate_angle Hang.
  assert (Hstep : forall s landmarks,
    consistent s ->
    squat_visible landmarks = true ->
    last_n 3 (M.sequence s) = [S1; S2; S3] ->
    (3 <= M.depth_hold s)%nat ->
    100 < smoothed_knee calculate_angle (M.knee_history s) landmarks ->
    let s' := M.process_frame calculate_angle s (Some landmarks) in
    M.correct_counter s' = (M.correct_counter s + 1)%nat
    /\ M.incorrect_counter s' = M.incorrect_counter s
    /\ M.sequence s' = []
    /\ M.min_knee_angle s' = 180
    /\ M.depth_hold s' = 0%nat
    /\ M.stage s' = Some S2
    /\ (exists text, M.feedback s' = Some text /\ In text form_texts_S2)
    /\ M.feedback s' <> Some MSG_CORRECT).
  { intros s landmarks Hs Hvis Hseq Hdh Hlo.
    apply mobile_rising_frame; try assumption.
    eapply Qle_trans;
      [apply (rising_angle_bounded calculate_angle s landmarks Hang Hs Hseq Hdh)
      | discriminate]. }
  split.
  - intros calls landmarks s. apply Hstep.
    apply consistent_after_calls. exact Hang.
  - intros standing_frames partial_frames deep_frames rising replay bottom
           Hvis Htr H1 H2 H3 Hr Hlo s_end.
    assert (H3' : deep_frames <> []).
    { intros ->. simpl in H3. lia. }
    destruct (mobile_descent_replay calculate_angle standing_frames
                partial_frames deep_frames Hvis Htr H1 H2 H3')
      as (D1 & D2 & D3 & Hinc & D4 & D5).
    fold replay in D1, D2, D3, Hinc, D4, D5.
    fold bottom in D1, D2, D3, Hinc, D4.
    assert (Hseq : last_n 3 (M.sequence bottom) = [S1; S2; S3])
      by (rewrite D2; reflexivity).
    assert (Hdh : (3 <= M.depth_hold bottom)%nat) by (rewrite D4; exact H3).
    assert (Hcons : consistent bottom).
    { apply consistent_run; [exact Hang | apply consistent_init]. }
    destruct (Hstep bottom rising Hcons Hr Hseq Hdh Hlo)
      as (R1 & R2 & R3 & R4 & R5 & _ & _ & R8).
    assert (Eend : s_end
                   = M.process_frame calculate_angle bottom (Some rising)).
    { unfold s_end. rewrite mobile_run_app. reflexivity. }
    rewrite Eend, R1, R2, R3, R4, R5, D3, Hinc.
    repeat split; try assumption; try reflexivity.
    rewrite correct_trace_app, D5.
    fold bottom. rewrite correct_trace_cons, R1, D3. reflexivity.
Qed.

Lemma compass_angle_in_range : angle_in_range compass_angle.
Proof.
  intros a b c. unfold compass_angle, compass_degrees.
  repeat match goal with
         | |- context [match ?x ?= ?y with _ => _ end] =>
           destruct (x ?= y)
         | |- context [if Qeq_bool ?x ?y then _ else _] =>
           destruct (Qeq_bool x y)
         end;
    vm_compute; split; discriminate.
Qed.

Lemma rising_frame_counts_one_rep_witness :
  let calls := map CallFrame descent in
  let bottom := after_calls compass_angle calls in
  let rising := side_view (1 # 4, 1 # 2) in
  (M.correct_counter (M.process_frame compass_angle bottom (Some rising))
   = (M.correct_counter bottom + 1)%nat
   /\ M.sequence (M.process_frame compass_angle bottom (Some rising)) = [])
  /\ correct_trace compass_angle M.init (descent ++ [Some rising])
     = [0; 0; 0; 0; 0; 0; 0; 0; 0; 1]%nat.
Proof.
  intros calls bottom rising.
  destruct (rising_frame_counts_one_rep compass_angle compass_angle_in_range)
    as [Hstep Hreplay].
  split.
  - destruct (Hstep calls rising) as (H1 & _ & H3 & _).
    + vm_compute. reflexivity.
    + vm_compute. reflexivity.
    + vm_compute. lia.
    + vm_compute. reflexivity.
    + split; [exact H1 | exact H3].
  - destruct (Hreplay [standing]
                [half_squat; deep_squat; deep_squat; deep_squat; deep_squat]
                [deep_squat; deep_squat; deep_squat] rising)
      as (_ & _ & H3 & _).
    + vm_compute. reflexivity.
    + vm_compute. reflexivity.
    + discriminate.
    + discriminate.
    + simpl. lia.
    + vm_compute. reflexivity.
    + vm_compute. reflexivity.
    + exact H3.
Defined.

(** C1 as stated fails on the feedback: after [descent] the last three
    recorded stages are [S1, S2, S3] and [depth_hold] is 3; the next frame
    has smoothed knee angle 108 and counts the rep, yet the feedback it
    leaves is Lower your hips. *)
Lemma rising_frame_feedback_replaced :
  let bottom := M.run compass_angle M.init descent in
  let rising := side_view (1 # 4, 1 # 2) in
  let s' := M.process_frame compass_angle bottom (Some rising) in
  last_n 3 (M.sequence bottom) = [S1; S2; S3]
  /\ M.depth_hold bottom = 3%nat
  /\ smoothed_knee compass_angle (M.knee_history bottom) rising == 108
  /\ M.correct_counter bottom = 0%nat
  /\ M.correct_counter s' = 1%nat
  /\ M.feedback s' = Some MSG_LOWER_HIPS
  /\ M.feedback s' <> Some MSG_CORRECT.
Proof.
  vm_compute. repeat split; try reflexivity. intro H. discriminate H.
Qed.

(** ** The speech queue *)

Lemma speak_accepts (t : string) (s : C.State) :
  t <> EmptyString ->
  C.last_feedback s <> Some t ->
  C.speak (Some t) s
  = C.set_speech_queue (C.speech_queue s ++ [t])
      (C.set_last_feedback (Some t) s).
Proof.
  intros Ht Hlast. unfold C.speak, C.truthy.
  rewrite (proj2 (String.eqb_neq t EmptyString) Ht).
  destruct (opt_string_eqb (Some t) (C.last_feedback s)) eqn:E.
  - apply opt_string_eqb_eq in E. congruence.
  - reflexivity.
Qed.

Lemma speak_ignores (text : option string) (s : C.State) :
  text = None \/ text = Some EmptyString \/ text = C.last_feedback s ->
  C.speak text s = s.
Proof.
  intros [-> | [-> | ->]]; try reflexivity.
  unfold C.speak. destruct (C.last_feedback s) as [t|]; [| reflexivity].
  rewrite (proj2 (opt_string_eqb_eq (Some t) (Some t)) eq_refl).
  rewrite andb_false_r. reflexivity.
Qed.

(** The text [_speak] compares with is the last text put on the queue. *)
Lemma speak_last_feedback (text : option string) (s : C.State) :
  C.last_feedback s = last_opt (C.speech_queue s) ->
  C.last_feedback (C.speak text s) = last_opt (C.speech_queue (C.speak text s)).
Proof.
  intro H. unfold C.speak. destruct text as [t|]; [| exact H].
  destruct (C.truthy (Some t) && negb (opt_string_eqb (Some t) (C.last_feedback s)));
    [| exact H].
  cbn. symmetry. apply last_opt_snoc.
Qed.

Lemma speak_all_last_feedback (calls : list (option string)) (s : C.State) :
  C.last_feedback s = last_opt (C.speech_queue s) ->
  C.last_feedback (C.speak_all calls s)
  = last_opt (C.speech_queue (C.speak_all calls s)).
Proof.
  revert s. induction calls as [|t calls IH]; intros s H; [exact H|].
  simpl. apply IH. apply speak_last_feedback. exact H.
Qed.

(** C8. [_speak] drops consecutive duplicates only.  After any series of
    calls on a fresh analyzer, the text a call is compared with is the last
    text that was enqueued; a call enqueues its text when the text is not
    empty and differs from it, and enqueues nothing otherwise; a text said
    twice in a row is enqueued once; X, Y, X with X and Y distinct enqueues
    three items. *)
Theorem speak_suppresses_consecutive_duplicates :
  forall (calls : list (option string)) (text : option string) (X Y : string),
    X <> EmptyString -> Y <> EmptyString -> X <> Y ->
    let s := C.speak_all calls C.init in
    let previous := last_opt (C.speech_queue s) in
    C.last_feedback s = previous
    /\ (forall t, text = Some t -> t <> EmptyString -> previous <> Some t ->
                  C.speech_queue (C.speak text s) = C.speech_queue s ++ [t])
    /\ (text = None \/ text = Some EmptyString \/ text = previous ->
        C.speech_queue (C.speak text s) = C.speech_queue s)
    /\ C.speech_queue (C.speak (Some X) (C.speak (Some X) s))
       = C.speech_queue (C.speak (Some X) s)
    /\ C.speech_queue
         (C.speak (Some X) (C.speak (Some Y) (C.speak (Some X) C.init)))
       = [X; Y; X]
    /\ (previous <> Some X ->
        C.speech_queue (C.speak (Some X) (C.speak (Some Y) (C.speak (Some X) s)))
        = C.speech_queue s ++ [X; Y; X]).
Proof.
  intros calls text X Y HX HY HXY s previous.
  assert (Hinv : C.last_feedback s = previous).
  { apply speak_all_last_feedback. reflexivity. }
  assert (Hxyx : forall s0, C.last_feedback s0 <> Some X ->
            C.speech_queue
              (C.speak (Some X) (C.speak (Some Y) (C.speak (Some X) s0)))
            = C.speech_queue s0 ++ [X; Y; X]).
  { intros s0 H0.
    rewrite (speak_accepts X s0 HX H0).
    rewrite (speak_accepts Y) by (cbn; congruence).
    rewrite (speak_accepts X) by (cbn; congruence).
    cbn. rewrite <- !app_assoc. reflexivity. }
  split; [exact Hinv |].
  split; [| split; [| split; [| split]]].
  - intros t -> Ht Hprev. rewrite speak_accepts; [reflexivity | exact Ht |].
    rewrite Hinv. exact Hprev.
  - intro H. rewrite speak_ignores; [reflexivity |].
    rewrite Hinv. exact H.
  - destruct (opt_string_eqb (Some X) (C.last_feedback s)) eqn:E.
    + apply opt_string_eqb_eq in E.
      rewrite !(speak_ignores (Some X) s) by (right; right; exact E).
      reflexivity.
    + assert (Hne : C.last_feedback s <> Some X).
      { intro H. rewrite H in E.
        rewrite (proj2 (opt_string_eqb_eq (Some X) (Some X)) eq_refl) in E.
        discriminate. }
      rewrite (speak_accepts X s HX Hne).
      rewrite speak_ignores; [reflexivity |].
      right; right. reflexivity.
  - apply (Hxyx C.init). discriminate.
  - intro Hprev. apply Hxyx. rewrite Hinv. exact Hprev.
Qed.

Lemma speak_suppresses_consecutive_duplicates_witness :
  C.speech_queue
    (C.speak (Some MSG_HOLD)
       (C.speak (Some MSG_HOLD)
          (C.speak_all [Some MSG_NOT_VISIBLE; None; Some MSG_NOT_VISIBLE]
                       C.init)))
  = C.speech_queue
      (C.speak (Some MSG_HOLD)
         (C.speak_all [Some MSG_NOT_VISIBLE; None; Some MSG_NOT_VISIBLE]
                      C.init))
  /\ C.speech_queue
       (C.speak (Some MSG_HOLD)
          (C.speak (Some MSG_CORRECT) (C.speak (Some MSG_HOLD) C.init)))
     = [MSG_HOLD; MSG_CORRECT; MSG_HOLD].
Proof.
  assert (HX : MSG_HOLD <> EmptyString) by discriminate.
  assert (HY : MSG_CORRECT <> EmptyString) by discriminate.
  assert (HXY : MSG_HOLD <> MSG_CORRECT) by discriminate.
  destruct (speak_suppresses_consecutive_duplicates
              [Some MSG_NOT_VISIBLE; None; Some MSG_NOT_VISIBLE]
              None MSG_HOLD MSG_CORRECT HX HY HXY)
    as (_ & _ & _ & H4 & H5 & _).
  split; [exact H4 | exact H5].
Defined.

(** ** The camera manager *)

(** What [_stop_internal] leaves behind, and the calls it makes. *)
Lemma stop_internal_fields (s : CM.State) :
  CM.running (CM.stop_internal s) = false
  /\ CM.analyzer (CM.stop_internal s) = None
  /\ CM.analyzer_type (CM.stop_internal s) = None
  /\ CM.frame (CM.stop_internal s) = None
  /\ CM.thread (CM.stop_internal s) = None
  /\ CM.effects (CM.stop_internal s)
     = CM.effects s
       ++ match CM.thread s with Some _ => [CM.Joined] | None => [] end
       ++ match CM.analyzer s with
          | Some old => [CM.Released old]
          | None => []
          end.
Proof.
  destruct s as [an aty fr run th eff].
  destruct th as [t|], an as [old|]; cbn;
    rewrite <- ?app_assoc, ?app_nil_r; repeat split; reflexivity.
Qed.

(** The two ways through [start]: the early return, or a stop followed by
    the construction. *)
Lemma start_cases (s : CM.State) (analyzer_cls : option CM.Analyzer)
    (ty : string) :
  (CM.analyzer_type s = Some ty /\ CM.running s = true
   /\ CM.start s analyzer_cls ty = (s, true))
  \/ (~ (CM.analyzer_type s = Some ty /\ CM.running s = true)
      /\ CM.start s analyzer_cls ty
         = match analyzer_cls with
           | None => (CM.emit CM.ConstructorRaised (CM.stop_internal s), false)
           | Some a =>
             let s1 := CM.set_analyzer (Some a)
                         (CM.emit (CM.Constructed a) (CM.stop_internal s)) in
             match CM.is_opened_result a with
             | None => (s1, false)
             | Some false => (CM.set_analyzer None s1, false)
             | Some true =>
               (CM.set_thread (Some CM.CaptureThread)
                  (CM.emit CM.ThreadStarted
                     (CM.set_running true
                        (CM.set_analyzer_type (Some ty) s1))), true)
             end
           end).
Proof.
  unfold CM.start.
  destruct (opt_string_eqb (CM.analyzer_type s) (Some ty) && CM.running s)
    eqn:E.
  - apply andb_true_iff in E. destruct E as [E1 E2].
    apply opt_string_eqb_eq in E1. left. repeat split; assumption.
  - right. split; [| reflexivity].
    intros [H1 H2]. rewrite H1, H2 in E.
    rewrite (proj2 (opt_string_eqb_eq (Some ty) (Some ty)) eq_refl) in E.
    discriminate E.
Qed.

(** C9. [start] with the type that is already running returns true and
    changes nothing: no analyzer is constructed.  On every other path the
    current analyzer is stopped first, whatever happens next: [join] is
    called on the thread when there is one, then [release] on the analyzer
    when there is one, and only then is the new analyzer constructed; the
    stored frame is dropped.  When the source of the new analyzer is opened,
    [start] returns true and the manager runs the new analyzer with a new
    thread.  When it is not opened, [start] returns false and the manager is
    stopped: not running, no analyzer, no analyzer type, no stored frame, no
    thread.  When the constructor or [is_opened] raises, [start] returns
    false and the manager is not running. *)
Theorem start_same_type_or_source_closed :
  forall (s : CM.State) (analyzer_cls : option CM.Analyzer) (ty : string),
    let s' := fst (CM.start s analyzer_cls ty) in
    let result := snd (CM.start s analyzer_cls ty) in
    let stopping :=
      match CM.thread s with Some _ => [CM.Joined] | None => [] end
      ++ match CM.analyzer s with
         | Some old => [CM.Released old]
         | None => []
         end in
    (CM.analyzer_type s = Some ty -> CM.running s = true ->
     CM.start s analyzer_cls ty = (s, true)
     /\ CM.constructed s' = CM.constructed s)
    /\ (~ (CM.analyzer_type s = Some ty /\ CM.running s = true) ->
        CM.effects s'
        = CM.effects s ++ stopping
          ++ match analyzer_cls with
             | None => [CM.ConstructorRaised]
             | Some a =>
               CM.Constructed a
               :: match CM.is_opened_result a with
                  | Some true => [CM.ThreadStarted]
                  | _ => []
                  end
             end
        /\ CM.frame s' = None
        /\ (forall a, analyzer_cls = Some a ->
                      CM.is_opened_result a = Some true ->
                      result = true
                      /\ CM.running s' = true
                      /\ CM.analyzer s' = Some a
                      /\ CM.analyzer_type s' = Some ty
                      /\ CM.thread s' = Some CM.CaptureThread)
        /\ (forall a, analyzer_cls = Some a ->
                      CM.is_opened_result a = Some false ->
                      result = false
                      /\ CM.running s' = false
                      /\ CM.analyzer s' = None
                      /\ CM.analyzer_type s' = None
                      /\ CM.frame s' = None
                      /\ CM.thread s' = None)
        /\ (forall a, analyzer_cls = Some a ->
                      CM.is_opened_result a = None ->
                      result = false
                      /\ CM.running s' = false
                      /\ CM.analyzer s' = Some a
                      /\ CM.analyzer_type s' = None
                      /\ CM.thread s' = None)
        /\ (analyzer_cls = None ->
            result = false
            /\ CM.running s' = false
            /\ CM.analyzer s' = None
            /\ CM.analyzer_type s' = None
            /\ CM.thread s' = None)).
Proof.
  intros s analyzer_cls ty s' result stopping. subst s' result stopping.
  split.
  - intros Hty Hrun.
    destruct (start_cases s analyzer_cls ty) as [(_ & _ & ->) | (Hn & _)].
    + split; reflexivity.
    + exfalso. apply Hn. split; assumption.
  - intros Hother.
    destruct (start_cases s analyzer_cls ty) as [(H1 & H2 & _) | (_ & ->)];
      [exfalso; apply Hother; split; assumption |].
    destruct (stop_internal_fields s) as (E1 & E2 & E3 & E4 & E5 & E6).
    destruct analyzer_cls as [a|]; cbv zeta.
    + destruct (CM.is_opened_result a) as [[|]|] eqn:Eo; cbn [fst snd];
        cbn [CM.set_thread CM.set_running CM.set_analyzer_type
             CM.set_analyzer CM.emit CM.set_effects CM.running CM.thread
             CM.analyzer_type CM.analyzer CM.frame CM.effects];
        rewrite ?E1, ?E2, ?E3, ?E4, ?E5, ?E6, <- ?app_assoc;
        cbn [app];
        (split; [reflexivity |]); (split; [reflexivity |]);
        repeat split; intros; try discriminate; try reflexivity;
        try congruence.
    + cbn [fst snd CM.emit CM.set_effects CM.running CM.thread
           CM.analyzer_type CM.analyzer CM.frame CM.effects].
      rewrite ?E1, ?E2, ?E3, ?E4, ?E5, ?E6, <- ?app_assoc.
      (split; [reflexivity |]); (split; [reflexivity |]);
        repeat split; intros; try discriminate; reflexivity.
Qed.

Lemma start_same_type_or_source_closed_witness :
  let running_squat := fst (CM.start CM.init (Some open_analyzer) "squat") in
  CM.start running_squat (Some closed_analyzer) "squat" = (running_squat, true)
  /\ snd (CM.start running_squat (Some closed_analyzer) "jump") = false
  /\ CM.running (fst (CM.start running_squat (Some closed_analyzer) "jump"))
     = false
  /\ CM.effects (fst (CM.start running_squat (Some closed_analyzer) "jump"))
     = [CM.Constructed open_analyzer; CM.ThreadStarted; CM.Joined;
        CM.Released open_analyzer; CM.Constructed closed_analyzer]
  /\ CM.effects (fst (CM.start running_squat (Some open_analyzer) "jump"))
     = [CM.Constructed open_analyzer; CM.ThreadStarted; CM.Joined;
        CM.Released open_analyzer; CM.Constructed open_analyzer;
        CM.ThreadStarted]
  /\ CM.analyzer_type
       (fst (CM.start running_squat (Some open_analyzer) "jump"))
     = Some "jump"%string.
Proof.
  intro running_squat.
  destruct (start_same_type_or_source_closed running_squat
              (Some closed_analyzer) "squat") as [Hsame _].
  destruct (start_same_type_or_source_closed running_squat
              (Some closed_analyzer) "jump") as [_ Hclosed].
  destruct (start_same_type_or_source_closed running_squat
              (Some open_analyzer) "jump") as [_ Hopen].
  destruct Hsame as [H1 _]; [reflexivity | reflexivity |].
  destruct Hclosed as (G1 & _ & _ & G4 & _);
    [intros [H _]; discriminate H |].
  destruct (G4 closed_analyzer eq_refl eq_refl) as (G5 & G6 & _).
  destruct Hopen as (K1 & _ & K3 & _);
    [intros [H _]; discriminate H |].
  destruct (K3 open_analyzer eq_refl eq_refl) as (_ & _ & _ & K4 & _).
  split; [exact H1 |].
  split; [exact G5 |].
  split; [exact G6 |].
  split; [exact G1 |].
  split; [exact K1 | exact K4].
Defined.

(** ** Jump finalization *)

(** [detect_squat_cheat] applies the cheat rule when, and only when, the six
    leg landmarks pass the visibility test. *)
Lemma detect_squat_cheat_rule
    (angle : Point -> Point -> Point -> Q)
    (landmarks : Landmarks) (w h : Z) :
  detect_squat_cheat angle landmarks w h
  = legs_visible landmarks && cheat_rule angle landmarks w h.
Proof.
  unfold detect_squat_cheat, legs_visible, cheat_rule, landmark_xy.
  cbn [forallb].
  destruct (Qltb (lm_visibility (landmarks LEFT_HIP)) (4 # 10));
    [reflexivity |].
  destruct (Qltb (lm_visibility (landmarks RIGHT_HIP)) (4 # 10));
    [reflexivity |].
  destruct (Qltb (lm_visibility (landmarks LEFT_KNEE)) (4 # 10));
    [reflexivity |].
  destruct (Qltb (lm_visibility (landmarks RIGHT_KNEE)) (4 # 10));
    [reflexivity |].
  destruct (Qltb (lm_visibility (landmarks LEFT_ANKLE)) (4 # 10));
    [reflexivity |].
  destruct (Qltb (lm_visibility (landmarks RIGHT_ANKLE)) (4 # 10));
    reflexivity.
Qed.

(** C2 (as the code has it). With a positive [CALIBRATION_PIXELS],
    [_finalize_jump] stores the result whose inches are
    [max(0, peak_delta) * (CALIBRATION_INCHES / CALIBRATION_PIXELS)]: invalid
    with reason too-small when the inches are below [MIN_JUMP_INCHES];
    otherwise invalid with reason cheat exactly when the six hip, knee and
    ankle landmarks all have visibility at least 0.4 and the cheat rule
    holds (average knee angle below 150 and either [hip_y > knee_y - 20] or
    the ankle midpoint within 60px of the hip midline); otherwise valid with
    reason ok.  Nothing else in the state changes. *)
Theorem finalize_jump_result :
  forall (cfg : Config) (angle : Point -> Point -> Point -> Q)
         (s : J.State) (landmarks : Landmarks) (w h : Z),
    0 < CALIBRATION_PIXELS cfg ->
    let s' := J.finalize_jump cfg angle s landmarks w h in
    let inches :=
      Qmax 0 (J.peak_delta_pixels s)
      * (CALIBRATION_INCHES cfg / CALIBRATION_PIXELS cfg) in
    J.last_jump_result s'
    = Some (visible_result cfg angle (J.peak_delta_pixels s) landmarks w h)
    /\ (inches < MIN_JUMP_INCHES cfg ->
        J.last_jump_result s'
        = Some {| inches := inches; valid := false;
                  reason := REASON_TOO_SMALL |})
    /\ (MIN_JUMP_INCHES cfg <= inches ->
        legs_visible landmarks && cheat_rule angle landmarks w h = true ->
        J.last_jump_result s'
        = Some {| inches := inches; valid := false; reason := REASON_CHEAT |})
    /\ (MIN_JUMP_INCHES cfg <= inches ->
        legs_visible landmarks && cheat_rule angle landmarks w h = false ->
        J.last_jump_result s'
        = Some {| inches := inches; valid := true; reason := REASON_OK |})
    /\ s' = J.set_last_jump_result (J.last_jump_result s') s.
Proof.
  intros cfg angle s landmarks w h Hpx s' inches.
  assert (Hipp : inches_per_pixel cfg
                 = CALIBRATION_INCHES cfg / CALIBRATION_PIXELS cfg).
  { unfold inches_per_pixel. rewrite (proj2 (Qltb_lt _ _) Hpx). reflexivity. }
  assert (Hres : J.last_jump_result s'
    = Some (visible_result cfg angle (J.peak_delta_pixels s) landmarks w h)).
  { subst s'. unfold J.finalize_jump, visible_result.
    rewrite Hipp, detect_squat_cheat_rule.
    destruct (Qltb _ (MIN_JUMP_INCHES cfg)); [reflexivity |].
    destruct (legs_visible landmarks && cheat_rule angle landmarks w h);
      reflexivity. }
  split; [exact Hres |].
  split; [| split; [| split]].
  - intro Hsmall. rewrite Hres. unfold visible_result. fold inches.
    rewrite (proj2 (Qltb_lt _ _) Hsmall). reflexivity.
  - intros Hbig Hcheat. rewrite Hres. unfold visible_result. fold inches.
    rewrite (proj2 (Qltb_ge _ _) Hbig), Hcheat. reflexivity.
  - intros Hbig Hcheat. rewrite Hres. unfold visible_result. fold inches.
    rewrite (proj2 (Qltb_ge _ _) Hbig), Hcheat. reflexivity.
  - subst s'. unfold J.finalize_jump.
    destruct (Qltb _ (MIN_JUMP_INCHES cfg)); [reflexivity |].
    destruct (detect_squat_cheat angle landmarks w h); reflexivity.
Qed.

Lemma finalize_jump_result_witness :
  J.last_jump_result
    (J.finalize_jump default_config perpendicular_angle peak_50
       (bent_knees (9 # 10)) 640 360)
  = Some {| inches := Qmax 0 (J.peak_delta_pixels peak_50)
                      * (CALIBRATION_INCHES default_config
                         / CALIBRATION_PIXELS default_config);
            valid := false; reason := REASON_CHEAT |}.
Proof.
  assert (Hpx : 0 < CALIBRATION_PIXELS default_config) by reflexivity.
  destruct (finalize_jump_result default_config perpendicular_angle peak_50
              (bent_knees (9 # 10)) 640 360 Hpx) as (_ & _ & H & _).
  apply H.
  - vm_compute. discriminate.
  - vm_compute. reflexivity.
Defined.

(** C2 as stated fails when a leg landmark is hidden: with the left ankle
    at visibility 0.3 the pose satisfies the cheat rule (knee angle 90, hips
    level with the knees) and the jump measures 6 inches, yet the stored
    result is valid with reason ok. *)
Lemma hidden_ankle_jump_not_flagged :
  let landmarks := bent_knees (3 # 10) in
  let s' := J.finalize_jump default_config perpendicular_angle peak_50
              landmarks 640 360 in
  cheat_rule perpendicular_angle landmarks 640 360 = true
  /\ option_map valid (J.last_jump_result s') = Some true
  /\ option_map reason (J.last_jump_result s') = Some REASON_OK
  /\ (exists r, J.last_jump_result s' = Some r /\ inches r == 6)
  /\ reason (specified_result default_config perpendicular_angle
               (J.peak_delta_pixels peak_50) landmarks 640 360)
     = REASON_CHEAT
  /\ J.last_jump_result s'
     <> Some (specified_result default_config perpendicular_angle
                (J.peak_delta_pixels peak_50) landmarks 640 360).
Proof.
  vm_compute.
  repeat split; try reflexivity.
  - eexists. split; reflexivity.
  - intro H. discriminate H.
Qed.

(** ** The jump baseline *)

Lemma finalize_jump_baseline
    (cfg : Config) (angle : Point -> Point -> Point -> Q)
    (s : J.State) (landmarks : Landmarks) (w h : Z) :
  J.baseline_nose_y (J.finalize_jump cfg angle s landmarks w h)
  = J.baseline_nose_y s.
Proof.
  unfold J.finalize_jump.
  destruct (Qltb _ (MIN_JUMP_INCHES cfg)); [reflexivity |].
  destruct (detect_squat_cheat angle landmarks w h); reflexivity.
Qed.

(** Jump detection reads the baseline and never writes it. *)
Lemma detect_jump_baseline
    (cfg : Config) (angle : Point -> Point -> Point -> Q)
    (s : J.State) (landmarks : Landmarks) (w h : Z)
    (now dt_local : Q) (p_nose : Point) (baseline : Q) :
  J.baseline_nose_y
    (J.detect_jump cfg angle s landmarks w h now dt_local p_nose baseline)
  = J.baseline_nose_y s.
Proof.
  unfold J.detect_jump.
  repeat match goal with
         | |- context [if ?b then _ else _] => destruct b
         | |- context [match J.prev_dy ?x with _ => _ end] =>
           destruct (J.prev_dy x)
         end;
    cbn [J.set_steady_frames J.baseline_nose_y];
    rewrite ?finalize_jump_baseline; reflexivity.
Qed.

(** What [read_frame] can do to the baseline: leave it, clear it (reset
    gesture), or set it to the nose height of the frame (arm gesture, from
    the idle phase only). *)
Lemma camera_baseline_changes
    (cfg : Config) (angle : Point -> Point -> Point -> Q)
    (s : J.State) (landmarks : Landmarks) (w h : Z) (now dt_local : Q) :
  let s' := J.observe cfg angle s landmarks w h now dt_local in
  (J.state s = airborne -> J.baseline_nose_y s' = J.baseline_nose_y s)
  /\ (is_hand_to_nose landmarks w h RIGHT_INDEX NOSE 60 = false ->
      is_hand_to_nose landmarks w h LEFT_INDEX NOSE 60 = false ->
      J.baseline_nose_y s' = J.baseline_nose_y s)
  /\ (J.baseline_nose_y s' = J.baseline_nose_y s
      \/ J.baseline_nose_y s' = None
      \/ (J.state s = idle
          /\ exists p_nose, landmark_xy landmarks NOSE w h = Some p_nose
                            /\ J.baseline_nose_y s' = Some (snd p_nose))).
Proof.
  intro s'. subst s'. unfold J.observe.
  destruct (J.state s) eqn:Est;
    destruct (is_hand_to_nose landmarks w h RIGHT_INDEX NOSE 60) eqn:Er;
    destruct (is_hand_to_nose landmarks w h LEFT_INDEX NOSE 60) eqn:El;
    destruct (landmark_xy landmarks NOSE w h) as [p|] eqn:En;
    do 3 (rewrite ?Est;
          cbn [J.set_state J.set_steady_frames J.set_peak_delta_pixels
               J.set_baseline_nose_y J.set_last_jump_result J.reset_state
               J.set_prev_dy J.set_airborne_frames J.set_nose_history
               J.state J.baseline_nose_y Phase_eqb andb orb]);
    try destruct (J.baseline_nose_y s) as [b|] eqn:Eb;
    rewrite ?detect_jump_baseline;
    cbn [J.baseline_nose_y];
    rewrite ?Eb;
    (split; [| split]);
    try discriminate; try (intros; reflexivity);
    try (left; reflexivity);
    try (right; left; reflexivity);
    try (right; right; split; [reflexivity | exists p; split; reflexivity]).
Qed.

Lemma read_frame_baseline
    (cfg : Config) (angle : Point -> Point -> Point -> Q)
    (s : J.State) (c : J.Capture) :
  J.baseline_nose_y (J.read_frame cfg angle s (Some c))
  = match J.cap_pose c with
    | Some landmarks =>
      J.baseline_nose_y
        (J.observe cfg angle s landmarks (J.cap_w c) (J.cap_h c) (J.cap_now c)
           (if negb (Qeq_bool (J.prev_time s) 0)
            then J.cap_now c - J.prev_time s else 0))
    | None => J.baseline_nose_y s
    end.
Proof.
  unfold J.read_frame.
  destruct (Qltb 0 _); destruct (J.cap_pose c); reflexivity.
Qed.

(** C4 (as the code has it). The camera [JumpAnalyzer] never drifts its
    baseline: [read_frame] leaves [baseline_nose_y] as it was on every frame
    taken while airborne and on every frame without a hand-to-nose gesture;
    a frame can only clear it (reset gesture) or set it to the nose height
    of that frame (arm gesture, from idle).  The drift is in
    [JumpAnalyzerMobile.process_frame]: on a frame with both ankles above
    0.7 visibility, with [smooth] the mean of the ankle window and
    [jump_pixels = (baseline_y - smooth) * frame_h], the baseline becomes
    [0.1 * smooth + 0.9 * baseline_y] when [jump_pixels <= 30] and is not
    drifted when [jump_pixels > 30]. *)
Theorem baseline_drift_only_in_mobile :
  forall (cfg : Config) (angle : Point -> Point -> Point -> Q)
         (s : J.State) (c : J.Capture)
         (j : JM.State) (frame : JM.Frame) (landmarks : Landmarks),
    let s' := J.read_frame cfg angle s (Some c) in
    (J.state s = airborne -> J.baseline_nose_y s' = J.baseline_nose_y s)
    /\ ((forall pose, J.cap_pose c = Some pose ->
           is_hand_to_nose pose (J.cap_w c) (J.cap_h c) RIGHT_INDEX NOSE 60
           = false
           /\ is_hand_to_nose pose (J.cap_w c) (J.cap_h c) LEFT_INDEX NOSE 60
              = false) ->
        J.baseline_nose_y s' = J.baseline_nose_y s)
    /\ (J.baseline_nose_y s' = J.baseline_nose_y s
        \/ J.baseline_nose_y s' = None
        \/ (J.state s = idle
            /\ exists pose p_nose,
                 J.cap_pose c = Some pose
                 /\ landmark_xy pose NOSE (J.cap_w c) (J.cap_h c) = Some p_nose
                 /\ J.baseline_nose_y s' = Some (snd p_nose)))
    /\ J.read_frame cfg angle s None = s
    /\ (JM.pose_landmarks frame = Some landmarks ->
        7 # 10 < lm_visibility (landmarks LEFT_ANKLE) ->
        7 # 10 < lm_visibility (landmarks RIGHT_ANKLE) ->
        let smooth :=
          mean (deque_append 5 (JM.y_history j)
                  ((lm_y (landmarks LEFT_ANKLE) + lm_y (landmarks RIGHT_ANKLE))
                   / 2)) in
        let baseline :=
          match JM.baseline_y j with
          | Some b => b
          | None => smooth
          end in
        let jump_pixels := (baseline - smooth) * inject_Z (JM.frame_h frame) in
        let j' := JM.process_frame j frame in
        (jump_pixels <= 30 ->
         JM.baseline_y j' = Some (smooth * (1 # 10) + baseline * (9 # 10)))
        /\ (30 < jump_pixels -> JM.baseline_y j' = Some baseline)).
Proof.
  intros cfg angle s c j frame landmarks s'.
  assert (Hrf := read_frame_baseline cfg angle s c). fold s' in Hrf.
  split; [| split; [| split; [| split]]].
  - intro Hair. rewrite Hrf. destruct (J.cap_pose c) as [pose|]; [| reflexivity].
    match goal with
    | |- context [J.observe cfg angle s pose ?w ?h ?n ?d] =>
      destruct (camera_baseline_changes cfg angle s pose w h n d)
        as (H & _)
    end.
    apply H. exact Hair.
  - intro Hno. rewrite Hrf.
    destruct (J.cap_pose c) as [pose|] eqn:Hpose; [| reflexivity].
    destruct (Hno pose eq_refl) as [Hr Hl].
    match goal with
    | |- context [J.observe cfg angle s pose ?w ?h ?n ?d] =>
      destruct (camera_baseline_changes cfg angle s pose w h n d)
        as (_ & H & _)
    end.
    apply H; assumption.
  - rewrite Hrf.
    destruct (J.cap_pose c) as [pose|] eqn:Hpose; [| left; reflexivity].
    match goal with
    | |- context [J.observe cfg angle s pose ?w ?h ?n ?d] =>
      destruct (camera_baseline_changes cfg angle s pose w h n d)
        as (_ & _ & [H | [H | [Hidle [p [Hp H]]]]])
    end.
    + left. exact H.
    + right. left. exact H.
    + right. right. split; [exact Hidle |].
      exists pose, p. split; [reflexivity | split; assumption].
  - reflexivity.
  - intros Hpose Hl Hr smooth baseline jump_pixels j'.
    subst j'. unfold JM.process_frame. rewrite Hpose.
    rewrite (proj2 (Qltb_lt _ _) Hl), (proj2 (Qltb_lt _ _) Hr).
    cbn [andb JM.set_y_history JM.y_history JM.baseline_y JM.set_baseline_y
         JM.is_jumping].
    fold smooth. fold baseline. fold jump_pixels.
    split.
    + intro Hle. rewrite (proj2 (Qltb_ge _ _) Hle).
      destruct (JM.is_jumping j); reflexivity.
    + intro Hgt. rewrite (proj2 (Qltb_lt _ _) Hgt).
      destruct (JM.is_jumping j); reflexivity.
Qed.

Lemma baseline_drift_only_in_mobile_witness :
  let s1 := J.read_frame default_config perpendicular_angle
              (J.init default_config 1000)
              (Some (J.mkCapture (10001 # 10) 360 640
                       (Some (upright (1 # 2) (1 # 2))))) in
  let c2 := J.mkCapture (10002 # 10) 360 640
              (Some (upright (91 # 180) (9 # 10))) in
  J.baseline_nose_y (J.read_frame default_config perpendicular_angle s1 (Some c2))
  = J.baseline_nose_y s1
  /\ exists b,
       JM.baseline_y (JM.process_frame JM.init (ankles_at (3 # 4))) = Some b
       /\ b == 3 # 4.
Proof.
  intros s1 c2.
  destruct (baseline_drift_only_in_mobile default_config perpendicular_angle
              s1 c2 JM.init (ankles_at (3 # 4))
              (fun name =>
                 match name with
                 | LEFT_ANKLE | RIGHT_ANKLE =>
                   mkLandmark (1 # 2) (3 # 4) (9 # 10)
                 | _ => hidden
                 end))
    as (_ & Hno & _ & _ & Hmobile).
  split.
  - apply Hno. intros pose Hpose. injection Hpose as <-.
    split; vm_compute; reflexivity.
  - destruct Hmobile as [Hdrift _].
    + reflexivity.
    + vm_compute. reflexivity.
    + vm_compute. reflexivity.
    + eexists. split.
      * apply Hdrift. vm_compute. discriminate.
      * vm_compute. reflexivity.
Defined.

(** C4 as stated fails for the camera analyzer: after the arm gesture the
    baseline is 180; on the next frame the phase is armed, the smoothed nose
    height is 181 and [dy = -1] is below the takeoff threshold 8, yet the
    baseline is still 180 and not [0.9 * 180 + 0.1 * 181]. *)
Lemma camera_baseline_not_drifted :
  let s1 := J.run default_config perpendicular_angle
              (J.init default_config 1000) (firstn 1 arm_then_stand) in
  let s2 := J.run default_config perpendicular_angle
              (J.init default_config 1000) arm_then_stand in
  J.state s1 = armed /\ J.state s2 = armed
  /\ mean (J.nose_history s2) == 181
  /\ J.dy_debug s2 == -1
  /\ J.dy_debug s2 < Qmax 8 ((15 # 1000) * 360)
  /\ (exists b, J.baseline_nose_y s1 = Some b /\ b == 180)
  /\ (exists b, J.baseline_nose_y s2 = Some b /\ b == 180
                /\ ~ b == (9 # 10) * 180 + (1 # 10) * 181).
Proof.
  vm_compute.
  repeat split; try reflexivity.
  - eexists. split; reflexivity.
  - eexists. split; [reflexivity |]. split; [reflexivity |].
    intro H. discriminate H.
Qed.

(** ** Branches no run reaches *)

(** In a run of the mobile squat analyzer the test of the first
    rep-resolution branch (sequence ending [S1, S2, S3] once the frame's
    stage has been recorded, with a knee angle above 100) never holds: a
    sequence ends in S3 only while the stage is S3, that is with a knee
    angle of at most 95.  The rising frame of C1 is counted by the
    [S2, S3, S2] branch. *)
Lemma mobile_first_branch_unreachable
    (calculate_angle : Point -> Point -> Point -> Q)
    (calls : list Call) (landmarks : Landmarks) :
  angle_in_range calculate_angle ->
  let s := after_calls calculate_angle calls in
  let k := smoothed_knee calculate_angle (M.knee_history s) landmarks in
  last_n 3 (record_stage (M.stage s) (classify_stage (M.stage s) k)
                         (M.sequence s)) = [S1; S2; S3] ->
  k <= 95.
Proof.
  intros Hang s k Hseq.
  pose proof (consistent_after_calls calculate_angle calls Hang) as Hs.
  fold s in Hs. destruct Hs as [_ _ _ Hend _].
  destruct (last_n_3_split _ _ _ _ Hseq) as [pre Hpre].
  assert (Hlast : last_opt (record_stage (M.stage s)
                              (classify_stage (M.stage s) k) (M.sequence s))
                  = Some S3).
  { rewrite Hpre. change (pre ++ [S1; S2; S3]) with (pre ++ [S1; S2] ++ [S3]).
    rewrite app_assoc. apply last_opt_snoc. }
  unfold record_stage in Hlast.
  destruct (classify_stage (M.stage s) k) as [st|] eqn:Ecl.
  - destruct (opt_Stage_eqb (M.stage s) (Some st)) eqn:E; cbn [negb] in Hlast.
    + apply opt_Stage_eqb_eq in E. apply Hend in Hlast.
      rewrite Hlast in E. injection E as <-.
      apply (classify_stage_S3 _ _ Ecl).
    + rewrite last_opt_snoc in Hlast. injection Hlast as ->.
      apply (classify_stage_S3 _ _ Ecl).
  - apply Hend in Hlast. unfold classify_stage in Ecl.
    repeat match type of Ecl with
           | (if ?b then _ else _) = _ => destruct b; try discriminate
           end.
    congruence.
Qed.

(** The takeoff test of the camera jump analyzer cannot pass: it asks for
    five steady frames, but [steady_frames] is zero whenever the smoothed
    nose height is 4px or more from the baseline, and it asks for
    [dy > max(8, 0.015 h)].  A [JumpAnalyzer] therefore stays idle or armed
    and never stores a jump result. *)
Lemma detect_jump_stays_grounded
    (cfg : Config) (angle : Point -> Point -> Point -> Q)
    (s : J.State) (landmarks : Landmarks) (w h : Z)
    (now dt_local : Q) (p_nose : Point) (baseline : Q) :
  J.state s = idle \/ J.state s = armed ->
  let s' := J.detect_jump cfg angle s landmarks w h now dt_local p_nose
              baseline in
  J.state s' = J.state s /\ J.last_jump_result s' = J.last_jump_result s.
Proof.
  intros Hst s'. subst s'. unfold J.detect_jump. cbv zeta.
  set (smooth := mean _).
  destruct (Qltb (Qabs (smooth - baseline)) 4) eqn:Esteady;
    match goal with
    | |- context [if Phase_eqb (J.state ?S) armed && ?r && Qltb ?thr ?dy && ?v
                  then _ else _] =>
      assert (Hcond : Phase_eqb (J.state S) armed && r && Qltb thr dy && v
                      = false);
        [| assert (Hair : Phase_eqb (J.state S) airborne = false)
             by (change (J.state S) with (J.state s);
                 destruct Hst as [E | E]; rewrite E; reflexivity);
           rewrite Hcond, Hair; split; reflexivity]
    end.
  - apply Qltb_lt in Esteady.
    assert (Hdy : Qltb (Qmax 8 ((15 # 1000) * inject_Z h)) (baseline - smooth)
                  = false).
    { apply Qltb_ge.
      apply Qle_trans with (Qabs (baseline - smooth)); [apply Qle_Qabs |].
      apply Qle_trans with 8; [| apply Q.le_max_l].
      rewrite Qabs_Qminus. apply Qlt_le_weak.
      eapply Qlt_trans; [exact Esteady | reflexivity]. }
    apply andb_false_iff. left. apply andb_false_iff. right. exact Hdy.
  - apply andb_false_iff. left. apply andb_false_iff. left.
    apply andb_false_iff. right. reflexivity.
Qed.

Lemma observe_stays_grounded
    (cfg : Config) (angle : Point -> Point -> Point -> Q)
    (s : J.State) (landmarks : Landmarks) (w h : Z) (now dt_local : Q) :
  (J.state s = idle \/ J.state s = armed) /\ J.last_jump_result s = None ->
  let s' := J.observe cfg angle s landmarks w h now dt_local in
  (J.state s' = idle \/ J.state s' = armed) /\ J.last_jump_result s' = None.
Proof.
  intros [Hst Hres] s'. subst s'. unfold J.observe.
  set (s1 := if Phase_eqb (J.state s) idle && _ then _ else s).
  assert (H1 : (J.state s1 = idle \/ J.state s1 = armed)
                /\ J.last_jump_result s1 = None).
  { unfold s1. destruct (Phase_eqb (J.state s) idle && _).
    - destruct (landmark_xy landmarks NOSE w h); cbn; auto.
    - auto. }
  set (s2 := if (Phase_eqb (J.state s1) armed || Phase_eqb (J.state s1) landed)
                && _ then _ else s1).
  assert (H2 : (J.state s2 = idle \/ J.state s2 = armed)
                /\ J.last_jump_result s2 = None).
  { unfold s2. destruct ((Phase_eqb (J.state s1) armed
                          || Phase_eqb (J.state s1) landed) && _).
    - cbn. auto.
    - exact H1. }
  destruct H2 as [H2 H2'].
  destruct (landmark_xy landmarks NOSE w h) as [p|]; [| auto].
  destruct (J.baseline_nose_y s2) as [b|]; [| auto].
  destruct (detect_jump_stays_grounded cfg angle s2 landmarks w h now dt_local
              p b H2) as [E1 E2].
  rewrite E1, E2. auto.
Qed.

Lemma camera_jump_never_airborne
    (cfg : Config) (angle : Point -> Point -> Point -> Q)
    (start_time : Q) (captures : list (option J.Capture)) :
  let s := J.run cfg angle (J.init cfg start_time) captures in
  (J.state s = idle \/ J.state s = armed) /\ J.last_jump_result s = None.
Proof.
  unfold J.run.
  assert (H : forall s,
    (J.state s = idle \/ J.state s = armed) /\ J.last_jump_result s = None ->
    (J.state (fold_left (J.read_frame cfg angle) captures s) = idle
     \/ J.state (fold_left (J.read_frame cfg angle) captures s) = armed)
    /\ J.last_jump_result (fold_left (J.read_frame cfg angle) captures s)
       = None).
  { induction captures as [|c captures IH]; intros s Hs; [exact Hs |].
    simpl. apply IH. destruct c as [c|]; [| exact Hs].
    unfold J.read_frame.
    destruct (J.cap_pose c) as [landmarks|].
    - match goal with
      | |- context [J.observe cfg angle s landmarks ?w ?h ?n ?d] =>
        pose proof (observe_stays_grounded cfg angle s landmarks w h n d Hs)
          as Ho
      end.
      cbv zeta in Ho. destruct (Qltb 0 _); exact Ho.
    - destruct (Qltb 0 _); exact Hs. }
  apply H. cbn. auto.
Qed.

(** * Further properties of the analyzers *)

(** ** Mobile squat analyzer: stages and sequence *)

Lemma classify_stage_S1 (prev : option Stage) (k : Q) :
  160 < k -> classify_stage prev k = Some S1.
Proof.
  intro H. unfold classify_stage, STAGE_S1_THRESHOLD.
  rewrite (proj2 (Qltb_lt 160 k) H). reflexivity.
Qed.

Lemma classify_stage_deep (prev : option Stage) (k : Q) :
  k <= 95 -> classify_stage prev k = Some S3.
Proof.
  intro H. unfold classify_stage, STAGE_S1_THRESHOLD, STAGE_S2_THRESHOLD.
  assert (H160 : Qltb 160 k = false).
  { apply Qltb_ge. eapply Qle_trans; [exact H | discriminate]. }
  rewrite H160, (proj2 (Qltb_ge 95 k) H), andb_false_r.
  rewrite (proj2 (Qle_bool_iff k 95) H). reflexivity.
Qed.

Lemma mobile_frame_stage
    (calculate_angle : Point -> Point -> Point -> Q)
    (s : M.State) (landmarks : Landmarks) :
  squat_visible landmarks = true ->
  M.stage (M.process_frame calculate_angle s (Some landmarks))
  = classify_stage (M.stage s)
      (smoothed_knee calculate_angle (M.knee_history s) landmarks).
Proof.
  intro Hvis. rewrite (mobile_visible_frame _ _ _ Hvis). cbv zeta.
  match goal with
  | |- context [M.resolve_rep ?k ?mid] =>
    destruct (mobile_resolve_outcome k mid)
  end; reflexivity.
Qed.

Lemma camera_frame_stage
    (calculate_angle : Point -> Point -> Point -> Q)
    (s : C.State) (landmarks : Landmarks) :
  squat_visible landmarks = true ->
  C.stage (C.read_frame calculate_angle s (Some (Some landmarks)))
  = classify_stage (C.stage s)
      (smoothed_knee calculate_angle (C.knee_history s) landmarks).
Proof.
  intro Hvis. rewrite (camera_visible_frame _ _ _ Hvis). cbv zeta.
  match goal with
  | |- context [C.speak ?t (C.set_feedback ?t (fst (C.resolve_rep ?mid)))] =>
    destruct (speak_frame t (C.set_feedback t (fst (C.resolve_rep mid))))
      as (_ & _ & E & _);
    rewrite E; destruct (camera_resolve_outcome mid)
  end; reflexivity.
Qed.

(** X1. After a visible frame both squat analyzers hold a stage, fixed by
    the smoothed knee angle alone: S1 above 160, S2 above 95 and up to 160,
    S3 up to 95; the previous stage and the rep resolution play no part. *)
Theorem visible_frame_sets_stage :
  forall (calculate_angle : Point -> Point -> Point -> Q)
         (m : M.State) (c : C.State) (landmarks : Landmarks),
    squat_visible landmarks = true ->
    let km := smoothed_knee calculate_angle (M.knee_history m) landmarks in
    let kc := smoothed_knee calculate_angle (C.knee_history c) landmarks in
    let m' := M.process_frame calculate_angle m (Some landmarks) in
    let c' := C.read_frame calculate_angle c (Some (Some landmarks)) in
    (M.stage m' = Some S1 <-> 160 < km)
    /\ (M.stage m' = Some S2 <-> 95 < km /\ km <= 160)
    /\ (M.stage m' = Some S3 <-> km <= 95)
    /\ (C.stage c' = Some S1 <-> 160 < kc)
    /\ (C.stage c' = Some S2 <-> 95 < kc /\ kc <= 160)
    /\ (C.stage c' = Some S3 <-> kc <= 95).
Proof.
  intros calculate_angle m c landmarks Hvis km kc m' c'.
  assert (Hcases : forall prev k,
    (classify_stage prev k = Some S1 <-> 160 < k)
    /\ (classify_stage prev k = Some S2 <-> 95 < k /\ k <= 160)
    /\ (classify_stage prev k = Some S3 <-> k <= 95)).
  { intros prev k.
    destruct (Qlt_le_dec 160 k) as [H1 | H1];
      [rewrite (classify_stage_S1 prev k H1)
      | destruct (Qlt_le_dec 95 k) as [H2 | H2];
        [rewrite (classify_stage_S2 prev k H2 H1)
        | rewrite (classify_stage_deep prev k H2)]];
      repeat split; intros; first [reflexivity | congruence | lra]. }
  subst m' c'.
  rewrite (mobile_frame_stage _ _ _ Hvis), (camera_frame_stage _ _ _ Hvis).
  fold km kc.
  destruct (Hcases (M.stage m) km) as (A1 & A2 & A3).
  destruct (Hcases (C.stage c) kc) as (B1 & B2 & B3).
  split; [exact A1 | split; [exact A2 | split; [exact A3 |]]].
  split; [exact B1 | split; [exact B2 | exact B3]].
Qed.

Lemma visible_frame_sets_stage_witness :
  M.stage (M.process_frame compass_angle M.init standing) = Some S1
  /\ C.stage (C.read_frame compass_angle C.init (Some deep_squat)) = Some S3.
Proof.
  destruct (visible_frame_sets_stage compass_angle M.init C.init
              (side_view (1 # 4, 1 # 2))) as (H1 & _).
  { vm_compute. reflexivity. }
  destruct (visible_frame_sets_stage compass_angle M.init C.init
              (side_view (1 # 2, 3 # 4))) as (_ & _ & _ & _ & _ & H6).
  { vm_compute. reflexivity. }
  split; [apply H1 | apply H6]; vm_compute; first [reflexivity | discriminate].
Defined.

Lemma last_opt_cons {A : Type} (a b : A) (l : list A) :
  last_opt (a :: b :: l) = last_opt (b :: l).
Proof.
  unfold last_opt. simpl rev.
  destruct (rev l) as [|x r]; reflexivity.
Qed.

Lemma alternating_snoc (l : list Stage) (x : Stage) :
  alternating l = true ->
  last_opt l <> Some x ->
  alternating (l ++ [x]) = true.
Proof.
  induction l as [|a l IH]; intros Halt Hlast; [reflexivity |].
  destruct l as [|b l].
  - simpl. rewrite andb_true_r. apply negb_true_iff.
    destruct (Stage_eqb a x) eqn:E; [| reflexivity].
    apply Stage_eqb_eq in E. subst. exfalso. apply Hlast. reflexivity.
  - change (alternating (a :: (b :: l) ++ [x]))
      with (negb (Stage_eqb a b) && alternating ((b :: l) ++ [x])).
    change (alternating (a :: b :: l))
      with (negb (Stage_eqb a b) && alternating (b :: l)) in Halt.
    apply andb_true_iff in Halt. destruct Halt as [H1 H2].
    apply andb_true_iff. split; [exact H1 |].
    apply IH; [exact H2 |].
    rewrite last_opt_cons in Hlast. exact Hlast.
Qed.

Lemma classify_stage_unset (prev : option Stage) (k : Q) :
  classify_stage prev k = None -> prev = None.
Proof.
  unfold classify_stage. intro H.
  repeat match type of H with
         | (if ?b then _ else _) = _ => destruct b; try discriminate
         end.
  exact H.
Qed.

(** Recording the stage of a frame keeps the sequence in step with the
    stage. *)
Lemma tracked_record (prev : option Stage) (k : Q) (sequence : list Stage) :
  alternating sequence = true ->
  (forall st, last_opt sequence = Some st -> prev = Some st) ->
  alternating (record_stage prev (classify_stage prev k) sequence) = true
  /\ forall st,
       last_opt (record_stage prev (classify_stage prev k) sequence) = Some st ->
       classify_stage prev k = Some st.
Proof.
  intros Halt Hlast. unfold record_stage.
  destruct (classify_stage prev k) as [y|] eqn:Ecl.
  - destruct (opt_Stage_eqb prev (Some y)) eqn:E; cbn [negb].
    + apply opt_Stage_eqb_eq in E. split; [exact Halt |].
      intros st Hst. rewrite <- E. apply Hlast. exact Hst.
    + split.
      * apply alternating_snoc; [exact Halt |].
        intro H. apply Hlast in H. rewrite H in E.
        rewrite (proj2 (opt_Stage_eqb_eq (Some y) (Some y)) eq_refl) in E.
        discriminate.
      * intros st Hst. rewrite last_opt_snoc in Hst. exact Hst.
  - split; [exact Halt |].
    intros st Hst. apply Hlast in Hst.
    rewrite (classify_stage_unset _ _ Ecl) in Hst. discriminate.
Qed.

Lemma tracked_init : tracked M.init.
Proof. split; [reflexivity | discriminate]. Qed.

Lemma tracked_process_frame
    (calculate_angle : Point -> Point -> Point -> Q)
    (s : M.State) (frame : option Landmarks) :
  tracked s -> tracked (M.process_frame calculate_angle s frame).
Proof.
  intros [Halt Hlast].
  destruct frame as [landmarks|]; [| split; assumption].
  destruct (squat_visible landmarks) eqn:Hvis.
  2:{ rewrite (mobile_hidden_frame _ _ _ Hvis). split; assumption. }
  rewrite (mobile_visible_frame _ _ _ Hvis). cbv zeta.
  set (k := mean _).
  destruct (tracked_record (M.stage s) k (M.sequence s) Halt Hlast)
    as [Galt Glast].
  match goal with
  | |- context [M.resolve_rep k ?mid] =>
    destruct (mobile_resolve_outcome k mid)
  end; split; cbn [fst M.set_feedback M.sequence M.stage];
    try assumption; try reflexivity; try discriminate.
Qed.

Lemma tracked_after_calls
    (calculate_angle : Point -> Point -> Point -> Q) (calls : list Call) :
  tracked (after_calls calculate_angle calls).
Proof.
  unfold after_calls.
  assert (H : forall s, tracked s ->
                        tracked (fold_left (call calculate_angle) calls s)).
  { induction calls as [|c calls IH]; intros s Hs; [exact Hs |].
    simpl. apply IH. destruct c as [frame|].
    - apply tracked_process_frame. exact Hs.
    - apply tracked_init. }
  apply H. apply tracked_init.
Qed.

(** X2. Whatever frames and resets a mobile squat analyzer has been given,
    its recorded sequence never holds the same stage twice in a row, and
    when it is not empty its last entry is the stage currently held. *)
Theorem sequence_follows_stage :
  forall (calculate_angle : Point -> Point -> Point -> Q) (calls : list Call),
    let s := after_calls calculate_angle calls in
    alternating (M.sequence s) = true
    /\ (M.sequence s <> [] -> last_opt (M.sequence s) = M.stage s).
Proof.
  intros calculate_angle calls s.
  destruct (tracked_after_calls calculate_angle calls) as [Halt Hlast].
  fold s in Halt, Hlast. split; [exact Halt |].
  intro Hne. destruct (last_opt (M.sequence s)) as [st|] eqn:E.
  - symmetry. apply Hlast. reflexivity.
  - exfalso. apply Hne. unfold last_opt in E.
    destruct (rev (M.sequence s)) as [|x r] eqn:Er; [| discriminate].
    apply (f_equal (@rev Stage)) in Er. rewrite rev_involutive in Er.
    exact Er.
Qed.

Lemma sequence_follows_stage_witness :
  M.sequence (after_calls compass_angle (map CallFrame descent)) = [S1; S2; S3]
  /\ last_opt (M.sequence (after_calls compass_angle (map CallFrame descent)))
     = M.stage (after_calls compass_angle (map CallFrame descent)).
Proof.
  split; [vm_compute; reflexivity |].
  apply (sequence_follows_stage compass_angle (map CallFrame descent)).
  vm_compute. discriminate.
Defined.

(** ** Mobile squat analyzer: the rep feedback *)

(** A frame classified S2 has a smoothed knee angle above 95. *)
Lemma classify_stage_S2_lower (prev : option Stage) (k : Q) :
  classify_stage prev k = Some S2 -> 95 < k.
Proof.
  intro H.
  destruct (Qlt_le_dec 95 k) as [Hlt | Hle]; [exact Hlt |].
  rewrite (classify_stage_deep prev k Hle) in H. discriminate.
Qed.

(** The form chain never produces the rep text by itself. *)
Lemma form_feedback_not_correct (fb : option string) (stage : option Stage)
    (k b mk : Q) (ankle knee : Q * Q * Q) :
  fb <> Some MSG_CORRECT ->
  form_feedback fb stage k b mk ankle knee <> Some MSG_CORRECT.
Proof.
  intro Hfb. unfold form_feedback.
  repeat match goal with
         | |- context [if ?c then _ else _] => destruct c
         end;
    first [exact Hfb | discriminate].
Qed.

(** When the rep chain answers with the rep text, the sequence it looked at
    ended in [S1, S2, S3] or in [S2, S3, S2]. *)
Lemma mobile_resolve_correct (k : Q) (mid : M.State) :
  snd (M.resolve_rep k mid) = Some MSG_CORRECT ->
  (last_n 3 (M.sequence mid) = [S1; S2; S3] /\ 100 < k)
  \/ last_n 3 (M.sequence mid) = [S2; S3; S2].
Proof.
  unfold M.resolve_rep.
  destruct ((3 <=? length (M.sequence mid))%nat
            && seq_eqb (last_n 3 (M.sequence mid)) [S1; S2; S3]
            && (3 <=? M.depth_hold mid)%nat) eqn:E1.
  - apply andb_true_iff in E1. destruct E1 as [E1 _].
    apply andb_true_iff in E1. destruct E1 as [_ E1].
    apply seq_eqb_eq in E1.
    destruct (Qltb 100 k) eqn:E; [| discriminate].
    intros _. left. split; [exact E1 | apply Qltb_lt; exact E].
  - destruct ((3 <=? length (M.sequence mid))%nat
              && seq_eqb (last_n 3 (M.sequence mid)) [S2; S3; S2]
              && (3 <=? M.depth_hold mid)%nat) eqn:E2.
    + apply andb_true_iff in E2. destruct E2 as [E2 _].
      apply andb_true_iff in E2. destruct E2 as [_ E2].
      apply seq_eqb_eq in E2. intros _. right. exact E2.
    + repeat match goal with
             | |- context [if ?c then _ else _] => destruct c
             end; cbn [snd]; discriminate.
Qed.

Lemma mobile_frame_not_correct
    (calculate_angle : Point -> Point -> Point -> Q)
    (s : M.State) (frame : option Landmarks) :
  tracked s ->
  M.feedback (M.process_frame calculate_angle s frame) <> Some MSG_CORRECT.
Proof.
  intros [Halt Hlast].
  destruct frame as [landmarks|]; [| discriminate].
  destruct (squat_visible landmarks) eqn:Hvis.
  2:{ rewrite (mobile_hidden_frame _ _ _ Hvis). discriminate. }
  rewrite (mobile_visible_frame _ _ _ Hvis). cbv zeta.
  set (k := mean _).
  destruct (tracked_record (M.stage s) k (M.sequence s) Halt Hlast)
    as [_ Glast].
  match goal with
  | |- context [M.resolve_rep k ?m] => set (mid := m)
  end.
  cbn [M.set_feedback M.feedback].
  assert (Hst : M.stage (fst (M.resolve_rep k mid)) = M.stage mid).
  { destruct (mobile_resolve_outcome k mid); reflexivity. }
  rewrite Hst.
  destruct (snd (M.resolve_rep k mid)) as [fb|] eqn:Efb.
  2:{ apply form_feedback_not_correct. discriminate. }
  destruct (String.eqb fb MSG_CORRECT) eqn:Eeq.
  2:{ apply form_feedback_not_correct. intro H. injection H as H.
      apply String.eqb_neq in Eeq. contradiction. }
  apply String.eqb_eq in Eeq. subst fb.
  assert (Hend : forall pre a b c,
            M.sequence mid = pre ++ [a; b; c] ->
            M.stage mid = Some c).
  { intros pre a b c Hpre. cbn [mid M.stage]. apply Glast.
    cbn [mid M.sequence] in Hpre. rewrite Hpre.
    change (pre ++ [a; b; c]) with (pre ++ [a; b] ++ [c]).
    rewrite app_assoc. apply last_opt_snoc. }
  destruct (mobile_resolve_correct k mid Efb) as [[Hseq Hk] | Hseq];
    destruct (last_n_3_split _ _ _ _ Hseq) as [pre Hpre];
    pose proof (Hend _ _ _ _ Hpre) as Hstage.
  - exfalso. cbn [mid M.stage] in Hstage.
    apply classify_stage_S3 in Hstage.
    apply (Qlt_not_le _ _ Hk). eapply Qle_trans; [exact Hstage | discriminate].
  - rewrite Hstage. cbn [mid M.stage] in Hstage.
    apply classify_stage_S2_lower in Hstage.
    assert (H80 : 80 < k) by (eapply Qlt_trans; [| exact Hstage]; reflexivity).
    match goal with
    | |- form_feedback ?fb _ _ ?b ?mk ?an ?kn <> _ =>
      destruct (form_feedback_S2 fb k b mk an kn H80) as [text [Hfb Hin]]
    end.
    rewrite Hfb. intro H. injection H as H.
    exact (form_texts_S2_not_correct _ Hin H).
Qed.

(** X3. A mobile squat analyzer never ends a call with the feedback Correct
    Squat: a correct rep is only counted on a frame classified S2, whose
    knee angle is above 80, and there the form chain always writes over the
    rep text. *)
Theorem mobile_never_reports_correct :
  forall (calculate_angle : Point -> Point -> Point -> Q) (calls : list Call),
    M.feedback (after_calls calculate_angle calls) <> Some MSG_CORRECT.
Proof.
  intros calculate_angle calls.
  induction calls as [|c calls _] using rev_ind; [discriminate |].
  unfold after_calls. rewrite fold_left_app. cbn [fold_left].
  fold (after_calls calculate_angle calls).
  destruct c as [frame|]; [| discriminate].
  apply mobile_frame_not_correct. apply tracked_after_calls.
Qed.

(** ** Mobile squat analyzer: windows and minimum *)

Lemma after_calls_snoc
    (calculate_angle : Point -> Point -> Point -> Q)
    (calls : list Call) (c : Call) :
  after_calls calculate_angle (calls ++ [c])
  = call calculate_angle (after_calls calculate_angle calls) c.
Proof. unfold after_calls. rewrite fold_left_app. reflexivity. Qed.

Lemma mobile_frame_windows
    (calculate_angle : Point -> Point -> Point -> Q)
    (s : M.State) (landmarks : Landmarks) :
  squat_visible landmarks = true ->
  M.knee_history (M.process_frame calculate_angle s (Some landmarks))
  = deque_append 5 (M.knee_history s)
      (calculate_angle (xy (get_landmark landmarks LEFT_HIP))
                       (xy (get_landmark landmarks LEFT_KNEE))
                       (xy (get_landmark landmarks LEFT_ANKLE)))
  /\ M.back_history (M.process_frame calculate_angle s (Some landmarks))
     = deque_append 5 (M.back_history s)
         (calculate_angle (xy (get_landmark landmarks LEFT_SHOULDER))
                          (xy (get_landmark landmarks LEFT_HIP))
                          (xy (get_landmark landmarks LEFT_KNEE))).
Proof.
  intro Hvis. rewrite (mobile_visible_frame _ _ _ Hvis). cbv zeta.
  match goal with
  | |- context [M.resolve_rep ?k ?mid] =>
    destruct (mobile_resolve_outcome k mid)
  end; split; reflexivity.
Qed.

Lemma last_n_nil {A : Type} (n : nat) : last_n n (@nil A) = [].
Proof. unfold last_n. simpl. destruct n; reflexivity. Qed.

Lemma last_n_length {A : Type} (n : nat) (l : list A) :
  length (last_n n l) = Nat.min n (length l).
Proof. unfold last_n. rewrite length_skipn. lia. Qed.

(** X4. The two angle windows of a mobile squat analyzer hold exactly the
    raw knee and back angles of the last five visible frames processed since
    the analyzer was created or last reset (all of them while there are
    fewer than five); hidden frames leave no trace in them. *)
Theorem windows_hold_last_five_visible :
  forall (calculate_angle : Point -> Point -> Point -> Q) (calls : list Call),
    let s := after_calls calculate_angle calls in
    M.knee_history s = last_n 5 (raw_knee_angles calculate_angle calls)
    /\ M.back_history s = last_n 5 (raw_back_angles calculate_angle calls)
    /\ length (M.knee_history s) = length (M.back_history s)
    /\ (length (M.knee_history s) <= 5)%nat.
Proof.
  intros calculate_angle calls.
  assert (H : M.knee_history (after_calls calculate_angle calls)
              = last_n 5 (raw_knee_angles calculate_angle calls)
              /\ M.back_history (after_calls calculate_angle calls)
                 = last_n 5 (raw_back_angles calculate_angle calls)
              /\ length (raw_knee_angles calculate_angle calls)
                 = length (raw_back_angles calculate_angle calls)).
  { induction calls as [|c calls IH] using rev_ind.
    - repeat split.
    - destruct IH as (IHk & IHb & IHl).
      rewrite after_calls_snoc.
      unfold raw_knee_angles, raw_back_angles in *.
      rewrite !fold_left_app. cbn [fold_left].
      destruct c as [[landmarks|]|]; cbn [call].
      + destruct (squat_visible landmarks) eqn:Hvis.
        * destruct (mobile_frame_windows calculate_angle
                      (after_calls calculate_angle calls) landmarks Hvis)
            as [Ek Eb].
          rewrite Ek, Eb, IHk, IHb, !deque_append_last_n, !length_app, IHl.
          repeat split.
        * rewrite (mobile_hidden_frame _ _ _ Hvis).
          repeat split; assumption.
      + repeat split; assumption.
      + repeat split. }
  intro s. destruct H as (Hk & Hb & Hl). fold s in Hk, Hb.
  split; [exact Hk | split; [exact Hb | split]].
  - rewrite Hk, Hb, !last_n_length, Hl. reflexivity.
  - rewrite Hk, last_n_length. lia.
Qed.

Lemma mobile_frame_min
    (calculate_angle : Point -> Point -> Point -> Q)
    (s : M.State) (landmarks : Landmarks) :
  squat_visible landmarks = true ->
  let s' := M.process_frame calculate_angle s (Some landmarks) in
  (M.correct_counter s' = (M.correct_counter s + 1)%nat
   /\ M.min_knee_angle s' = 180)
  \/ (M.correct_counter s' = M.correct_counter s
      /\ M.min_knee_angle s'
         = Qmin (M.min_knee_angle s)
                (smoothed_knee calculate_angle (M.knee_history s) landmarks)).
Proof.
  intros Hvis s'. subst s'.
  rewrite (mobile_visible_frame _ _ _ Hvis). cbv zeta.
  match goal with
  | |- context [M.resolve_rep ?k ?mid] =>
    destruct (mobile_resolve_outcome k mid)
  end; cbn; auto.
Qed.

(** X5. The running minimum of a mobile squat analyzer never exceeds 180,
    whatever angles the frames carry; a visible frame that does not count a
    correct rep can only lower it, to at most the frame's smoothed knee
    angle. *)
Theorem min_knee_angle_bounded :
  forall (calculate_angle : Point -> Point -> Point -> Q)
         (calls : list Call) (landmarks : Landmarks),
    let s := after_calls calculate_angle calls in
    let s' := M.process_frame calculate_angle s (Some landmarks) in
    M.min_knee_angle s <= 180
    /\ (squat_visible landmarks = true ->
        M.correct_counter s' = M.correct_counter s ->
        M.min_knee_angle s' <= M.min_knee_angle s
        /\ M.min_knee_angle s'
           <= smoothed_knee calculate_angle (M.knee_history s) landmarks).
Proof.
  intros calculate_angle calls landmarks s s'. split.
  - subst s. clear s' landmarks.
    induction calls as [|c calls IH] using rev_ind; [discriminate |].
    rewrite after_calls_snoc.
    destruct c as [[landmarks|]|]; cbn [call]; try exact IH;
      [| discriminate].
    destruct (squat_visible landmarks) eqn:Hvis.
    + destruct (mobile_frame_min calculate_angle
                  (after_calls calculate_angle calls) landmarks Hvis)
        as [[_ E] | [_ E]]; rewrite E.
      * discriminate.
      * eapply Qle_trans; [apply Q.le_min_l | exact IH].
    + rewrite (mobile_hidden_frame _ _ _ Hvis). exact IH.
  - intros Hvis Hsame.
    destruct (mobile_frame_min calculate_angle s landmarks Hvis)
      as [[E _] | [_ E]]; fold s' in E.
    + exfalso. lia.
    + rewrite E. split; [apply Q.le_min_l | apply Q.le_min_r].
Qed.

Lemma min_knee_angle_bounded_witness :
  M.min_knee_angle
    (M.process_frame compass_angle
       (after_calls compass_angle [CallFrame standing]) half_squat)
  <= smoothed_knee compass_angle
       (M.knee_history (after_calls compass_angle [CallFrame standing]))
       (side_view (1 # 4, 3 # 4)).
Proof.
  destruct (min_knee_angle_bounded compass_angle [CallFrame standing]
              (side_view (1 # 4, 3 # 4))) as [_ H].
  apply H; vm_compute; reflexivity.
Defined.

(** ** Mobile squat analyzer: a shallow rep *)

(** Back up to S1 from [S1, S2]: the rep is counted as incorrect. *)
Lemma mobile_back_up_frame
    (calculate_angle : Point -> Point -> Point -> Q)
    (s : M.State) (landmarks : Landmarks) :
  squat_visible landmarks = true ->
  M.stage s = Some S2 ->
  M.sequence s = [S1; S2] ->
  M.stage (M.process_frame calculate_angle s (Some landmarks)) = Some S1 ->
  let s' := M.process_frame calculate_angle s (Some landmarks) in
  M.incorrect_counter s' = (M.incorrect_counter s + 1)%nat
  /\ M.correct_counter s' = M.correct_counter s
  /\ M.sequence s' = []
  /\ M.depth_hold s' = 0%nat
  /\ exists text, M.feedback s' = Some text /\ In text shallow_rep_texts.
Proof.
  intros Hvis Hst Hseq Hst' s'. subst s'.
  rewrite (mobile_frame_stage _ _ _ Hvis) in Hst'.
  rewrite (mobile_visible_frame _ _ _ Hvis). cbv zeta.
  rewrite !smoothed_knee_unfold.
  rewrite Hst', Hst, Hseq.
  unfold M.resolve_rep.
  cbn [record_stage opt_Stage_eqb Stage_eqb negb app M.sequence M.depth_hold
       M.stage M.correct_counter M.incorrect_counter length Nat.leb last_n
       Nat.sub skipn seq_eqb andb last_opt rev seq_mem existsb orb
       M.set_incorrect_counter M.set_depth_hold M.set_sequence fst snd
       M.set_feedback M.feedback M.min_knee_angle M.knee_history
       M.back_history].
  repeat split.
  unfold form_feedback, shallow_rep_texts.
  cbn [opt_Stage_eqb Stage_eqb andb].
  repeat match goal with
         | |- context [if ?c then _ else _] => destruct c
         end;
    eexists; (split; [reflexivity | simpl; tauto]).
Qed.

(** X6. A shallow rep is counted as incorrect.  From a fresh mobile squat
    analyzer, over visible frames whose stages are S1 (at least one), then
    S2 (at least one), then one frame back in S1 without ever reaching S3,
    the last frame increments [incorrect_counter] to 1, leaves
    [correct_counter] at 0 and empties the sequence; the feedback is
    Incomplete Squat - Go deeper unless a form text for the back angle or
    the knees replaces it. *)
Theorem shallow_rep_counts_incorrect :
  forall (calculate_angle : Point -> Point -> Point -> Q)
         (standing_frames partial_frames : list (option Landmarks))
         (back_up : Landmarks),
    let replay := standing_frames ++ partial_frames in
    forallb frame_visible replay = true ->
    squat_visible back_up = true ->
    stage_trace calculate_angle M.init (replay ++ [Some back_up])
    = map (fun _ => Some S1) standing_frames
      ++ map (fun _ => Some S2) partial_frames ++ [Some S1] ->
    standing_frames <> [] ->
    partial_frames <> [] ->
    let before := M.run calculate_angle M.init replay in
    let s_end := M.run calculate_angle M.init (replay ++ [Some back_up]) in
    M.incorrect_counter before = 0%nat
    /\ M.incorrect_counter s_end = 1%nat
    /\ M.correct_counter s_end = 0%nat
    /\ M.sequence s_end = []
    /\ M.depth_hold s_end = 0%nat
    /\ exists text, M.feedback s_end = Some text /\ In text shallow_rep_texts.
Proof.
  intros calculate_angle standing_frames partial_frames back_up replay
         Hvis Hback Htr H1 H2 before s_end.
  subst before s_end replay.
  rewrite forallb_app in Hvis.
  apply andb_true_iff in Hvis. destruct Hvis as [V1 V2].
  rewrite <- app_assoc in Htr. rewrite !stage_trace_app in Htr.
  rewrite !mobile_run_app.
  apply app_eq_by_length in Htr;
    [| rewrite stage_trace_length, length_map; reflexivity].
  destruct Htr as [T1 Htr].
  apply app_eq_by_length in Htr;
    [| rewrite stage_trace_length, length_map; reflexivity].
  destruct Htr as [T2 T3].
  destruct (mobile_phase calculate_angle S1 standing_frames M.init H1 V1 T1)
    as (A1 & A2 & A3 & A3' & A4 & _);
    [discriminate | left; reflexivity |].
  set (s1 := M.run calculate_angle M.init standing_frames) in *.
  destruct (mobile_phase calculate_angle S2 partial_frames s1 H2 V2 T2)
    as (B1 & B2 & B3 & B3' & B4 & _);
    [rewrite A1; discriminate
    | rewrite A2; right; left; reflexivity |].
  set (s2 := M.run calculate_angle s1 partial_frames) in *.
  rewrite stage_trace_cons in T3. apply cons_eq_inv in T3.
  destruct T3 as [T3 _].
  assert (Hseq : M.sequence s2 = [S1; S2]) by (rewrite B2, A2; reflexivity).
  destruct (mobile_back_up_frame calculate_angle s2 back_up Hback B1 Hseq T3)
    as (R1 & R2 & R3 & R4 & R5).
  change (M.run calculate_angle s2 [Some back_up])
    with (M.process_frame calculate_angle s2 (Some back_up)).
  rewrite R1, R2, R3, R4, B3, B3', A3, A3'.
  repeat split. exact R5.
Qed.

Lemma shallow_rep_counts_incorrect_witness :
  M.incorrect_counter (M.run compass_angle M.init shallow_rep) = 1%nat
  /\ M.correct_counter (M.run compass_angle M.init shallow_rep) = 0%nat.
Proof.
  destruct (shallow_rep_counts_incorrect compass_angle [standing] [half_squat]
              (side_view (1 # 4, 1 # 2)))
    as (_ & H1 & H2 & _).
  - vm_compute. reflexivity.
  - vm_compute. reflexivity.
  - vm_compute. reflexivity.
  - discriminate.
  - discriminate.
  - split; [exact H1 | exact H2].
Defined.

(** ** Mobile squat analyzer: a hold that is too short *)

(** One frame in S2 on the way up from a hold of fewer than three frames:
    nothing is resolved. *)
Lemma mobile_rising_short_frame
    (calculate_angle : Point -> Point -> Point -> Q)
    (s : M.State) (landmarks : Landmarks) :
  squat_visible landmarks = true ->
  rising_short s ->
  (M.depth_hold s < 3)%nat ->
  M.stage (M.process_frame calculate_angle s (Some landmarks)) = Some S2 ->
  let s' := M.process_frame calculate_angle s (Some landmarks) in
  M.sequence s' = [S1; S2; S3; S2]
  /\ M.correct_counter s' = M.correct_counter s
  /\ M.incorrect_counter s' = M.incorrect_counter s
  /\ M.depth_hold s' = M.depth_hold s.
Proof.
  intros Hvis Hs Hdh Hst' s'. subst s'.
  rewrite (mobile_frame_stage _ _ _ Hvis) in Hst'.
  rewrite (mobile_visible_frame _ _ _ Hvis). cbv zeta.
  rewrite !smoothed_knee_unfold. rewrite Hst'.
  assert (Hseq : record_stage (M.stage s) (Some S2) (M.sequence s)
                 = [S1; S2; S3; S2]).
  { destruct Hs as [[-> ->] | [-> ->]]; reflexivity. }
  rewrite Hseq. unfold M.resolve_rep.
  cbn [opt_Stage_eqb Stage_eqb M.sequence M.depth_hold].
  rewrite (proj2 (Nat.leb_gt 3 (M.depth_hold s)) Hdh).
  cbn [length Nat.leb last_n Nat.sub skipn seq_eqb Stage_eqb andb last_opt
       rev app opt_Stage_eqb fst snd M.set_feedback M.sequence
       M.correct_counter M.incorrect_counter M.depth_hold].
  repeat split.
Qed.

Lemma mobile_rising_short_phase
    (calculate_angle : Point -> Point -> Point -> Q)
    (frames : list (option Landmarks)) (s : M.State) :
  frames <> [] ->
  forallb frame_visible frames = true ->
  stage_trace calculate_angle s frames = map (fun _ => Some S2) frames ->
  rising_short s ->
  (M.depth_hold s < 3)%nat ->
  let s' := M.run calculate_angle s frames in
  M.stage s' = Some S2
  /\ M.sequence s' = [S1; S2; S3; S2]
  /\ M.correct_counter s' = M.correct_counter s
  /\ M.incorrect_counter s' = M.incorrect_counter s
  /\ M.depth_hold s' = M.depth_hold s.
Proof.
  revert s. induction frames as [|f frames IH]; intros s Hne Hvis Htr Hs Hdh;
    [congruence |].
  simpl in Hvis. apply andb_true_iff in Hvis. destruct Hvis as [Hf Hvis].
  destruct f as [landmarks|]; [| discriminate].
  simpl in Hf. rewrite stage_trace_cons in Htr. cbn [map] in Htr.
  apply cons_eq_inv in Htr. destruct Htr as [Hst' Htr].
  destruct (mobile_rising_short_frame calculate_angle s landmarks Hf Hs Hdh
              Hst') as (E1 & E2 & E3 & E4).
  change (M.run calculate_angle s (Some landmarks :: frames))
    with (M.run calculate_angle
            (M.process_frame calculate_angle s (Some landmarks)) frames).
  destruct frames as [|f2 frames].
  - cbv zeta. cbn [M.run fold_left]. rewrite E1, E2, E3, E4.
    repeat split. exact Hst'.
  - destruct (IH (M.process_frame calculate_angle s (Some landmarks)))
      as (I1 & I2 & I3 & I4 & I5);
      [discriminate | exact Hvis | exact Htr
      | right; split; assumption | rewrite E4; exact Hdh |].
    cbv zeta. rewrite I1, I2, I3, I4, I5, E2, E3, E4. repeat split.
Qed.

(** Back in S1 after a hold of fewer than three frames. *)
Lemma mobile_short_hold_frame
    (calculate_angle : Point -> Point -> Point -> Q)
    (s : M.State) (landmarks : Landmarks) :
  squat_visible landmarks = true ->
  M.stage s = Some S2 ->
  M.sequence s = [S1; S2; S3; S2] ->
  (M.depth_hold s < 3)%nat ->
  M.stage (M.process_frame calculate_angle s (Some landmarks)) = Some S1 ->
  let s' := M.process_frame calculate_angle s (Some landmarks) in
  M.incorrect_counter s' = (M.incorrect_counter s + 1)%nat
  /\ M.correct_counter s' = M.correct_counter s
  /\ M.sequence s' = []
  /\ M.depth_hold s' = 0%nat
  /\ exists text, M.feedback s' = Some text /\ In text short_hold_texts.
Proof.
  intros Hvis Hst Hseq Hdh Hst' s'. subst s'.
  rewrite (mobile_frame_stage _ _ _ Hvis) in Hst'.
  rewrite (mobile_visible_frame _ _ _ Hvis). cbv zeta.
  rewrite !smoothed_knee_unfold.
  rewrite Hst', Hst, Hseq.
  unfold M.resolve_rep.
  cbn [record_stage opt_Stage_eqb Stage_eqb negb app M.sequence M.depth_hold
       M.stage M.correct_counter M.incorrect_counter].
  rewrite (proj2 (Nat.ltb_lt (M.depth_hold s) 3) Hdh).
  rewrite (proj2 (Nat.leb_gt 3 (M.depth_hold s)) Hdh).
  cbn [length Nat.leb last_n Nat.sub skipn seq_eqb Stage_eqb andb negb
       last_opt rev app opt_Stage_eqb seq_mem existsb orb
       M.set_incorrect_counter M.set_depth_hold M.set_sequence fst snd
       M.set_feedback M.feedback M.min_knee_angle M.knee_history
       M.back_history M.sequence M.depth_hold M.stage M.correct_counter
       M.incorrect_counter].
  repeat split.
  unfold form_feedback, short_hold_texts.
  cbn [opt_Stage_eqb Stage_eqb andb].
  repeat match goal with
         | |- context [if ?c then _ else _] => destruct c
         end;
    eexists; (split; [reflexivity | simpl; tauto]).
Qed.

(** X7. A rep whose hold at the bottom is too short is counted as
    incorrect.  From a fresh mobile squat analyzer, over visible frames
    whose stages are S1 (at least one), S2 (at least one), S3 (one or two
    frames), S2 again (at least one) and then one frame back in S1, the last
    frame increments [incorrect_counter] to 1, [correct_counter] stays 0,
    the sequence and the depth hold are cleared, and the feedback is Hold at
    bottom longer unless a form text for the back angle or the knees
    replaces it. *)
Theorem short_hold_counts_incorrect :
  forall (calculate_angle : Point -> Point -> Point -> Q)
         (standing_frames partial_frames deep_frames rising_frames
            : list (option Landmarks))
         (back_up : Landmarks),
    let replay :=
      standing_frames ++ partial_frames ++ deep_frames ++ rising_frames in
    forallb frame_visible replay = true ->
    squat_visible back_up = true ->
    stage_trace calculate_angle M.init (replay ++ [Some back_up])
    = map (fun _ => Some S1) standing_frames
      ++ map (fun _ => Some S2) partial_frames
      ++ map (fun _ => Some S3) deep_frames
      ++ map (fun _ => Some S2) rising_frames ++ [Some S1] ->
    standing_frames <> [] ->
    partial_frames <> [] ->
    deep_frames <> [] ->
    (length deep_frames < 3)%nat ->
    rising_frames <> [] ->
    let before := M.run calculate_angle M.init replay in
    let s_end := M.run calculate_angle M.init (replay ++ [Some back_up]) in
    M.incorrect_counter before = 0%nat
    /\ M.correct_counter before = 0%nat
    /\ M.incorrect_counter s_end = 1%nat
    /\ M.correct_counter s_end = 0%nat
    /\ M.sequence s_end = []
    /\ M.depth_hold s_end = 0%nat
    /\ exists text, M.feedback s_end = Some text /\ In text short_hold_texts.
Proof.
  intros calculate_angle standing_frames partial_frames deep_frames
         rising_frames back_up replay Hvis Hback Htr H1 H2 H3 Hshort H4
         before s_end.
  subst before s_end replay.
  rewrite !forallb_app in Hvis.
  apply andb_true_iff in Hvis. destruct Hvis as [V1 Hvis].
  apply andb_true_iff in Hvis. destruct Hvis as [V2 Hvis].
  apply andb_true_iff in Hvis. destruct Hvis as [V3 V4].
  rewrite <- !app_assoc in Htr. rewrite !stage_trace_app in Htr.
  rewrite <- !app_assoc. rewrite !mobile_run_app.
  apply app_eq_by_length in Htr;
    [| rewrite stage_trace_length, length_map; reflexivity].
  destruct Htr as [T1 Htr].
  apply app_eq_by_length in Htr;
    [| rewrite stage_trace_length, length_map; reflexivity].
  destruct Htr as [T2 Htr].
  apply app_eq_by_length in Htr;
    [| rewrite stage_trace_length, length_map; reflexivity].
  destruct Htr as [T3 Htr].
  apply app_eq_by_length in Htr;
    [| rewrite stage_trace_length, length_map; reflexivity].
  destruct Htr as [T4 T5].
  destruct (mobile_phase calculate_angle S1 standing_frames M.init H1 V1 T1)
    as (A1 & A2 & A3 & A3' & A4 & _);
    [discriminate | left; reflexivity |].
  set (s1 := M.run calculate_angle M.init standing_frames) in *.
  destruct (mobile_phase calculate_angle S2 partial_frames s1 H2 V2 T2)
    as (B1 & B2 & B3 & B3' & B4 & _);
    [rewrite A1; discriminate
    | rewrite A2; right; left; reflexivity |].
  set (s2 := M.run calculate_angle s1 partial_frames) in *.
  destruct (mobile_phase calculate_angle S3 deep_frames s2 H3 V3 T3)
    as (C1 & C2 & C3 & C3' & C4 & _);
    [rewrite B1; discriminate
    | rewrite B2, A2; right; right; split; reflexivity |].
  set (s3 := M.run calculate_angle s2 deep_frames) in *.
  cbn [Stage_eqb] in C4, B4, A4.
  assert (Hdh : (M.depth_hold s3 < 3)%nat).
  { rewrite C4, B4, A4. cbn [M.init M.depth_hold]. lia. }
  destruct (mobile_rising_short_phase calculate_angle rising_frames s3
              H4 V4 T4)
    as (D1 & D2 & D3 & D3' & D4);
    [left; split; [exact C1 | rewrite C2, B2, A2; reflexivity]
    | exact Hdh |].
  set (s4 := M.run calculate_angle s3 rising_frames) in *.
  rewrite stage_trace_cons in T5. apply cons_eq_inv in T5.
  destruct T5 as [T5 _].
  destruct (mobile_short_hold_frame calculate_angle s4 back_up Hback D1 D2)
    as (R1 & R2 & R3 & R4 & R5);
    [rewrite D4; exact Hdh | exact T5 |].
  change (M.run calculate_angle s4 [Some back_up])
    with (M.process_frame calculate_angle s4 (Some back_up)).
  rewrite R1, R2, R3, R4, D3, D3', C3, C3', B3, B3', A3, A3'.
  repeat split. exact R5.
Qed.

Lemma short_hold_counts_incorrect_witness :
  let replay :=
    [standing; deep_squat; deep_squat; deep_squat; deep_squat; deep_squat;
     standing; standing; standing] in
  M.incorrect_counter (M.run compass_angle M.init (replay ++ [standing]))
  = 1%nat
  /\ M.feedback (M.run compass_angle M.init (replay ++ [standing]))
     = Some MSG_HOLD.
Proof.
  intro replay.
  destruct (short_hold_counts_incorrect compass_angle [standing]
              [deep_squat; deep_squat; deep_squat; deep_squat]
              [deep_squat] [standing; standing; standing]
              (side_view (1 # 4, 1 # 2)))
    as (_ & _ & H1 & _).
  - vm_compute. reflexivity.
  - vm_compute. reflexivity.
  - vm_compute. reflexivity.
  - discriminate.
  - discriminate.
  - discriminate.
  - simpl. lia.
  - discriminate.
  - split; [exact H1 | vm_compute; reflexivity].
Defined.

(** ** Camera squat analyzer: counters and speech *)

(** Every successful capture ends in one [_speak] call on the feedback it
    has just stored; what comes before leaves the speech fields alone. *)
Lemma camera_frame_speaks
    (calculate_angle : Point -> Point -> Point -> Q)
    (s : C.State) (frame : option Landmarks) :
  exists s0,
    C.read_frame calculate_angle s (Some frame) = C.speak (C.feedback s0) s0
    /\ C.last_feedback s0 = C.last_feedback s
    /\ C.speech_queue s0 = C.speech_queue s
    /\ (C.correct_counter s <= C.correct_counter s0)%nat
    /\ (C.incorrect_counter s <= C.incorrect_counter s0)%nat
    /\ (C.correct_counter s0 + C.incorrect_counter s0
        <= C.correct_counter s + C.incorrect_counter s + 1)%nat.
Proof.
  destruct frame as [landmarks|].
  2:{ exists (C.set_feedback (Some MSG_NOT_VISIBLE) s).
      repeat split; cbn; lia. }
  destruct (squat_visible landmarks) eqn:Hvis.
  2:{ exists (C.set_feedback (Some MSG_NOT_VISIBLE) s).
      rewrite (camera_hidden_frame _ _ _ Hvis). repeat split; cbn; lia. }
  rewrite (camera_visible_frame _ _ _ Hvis). cbv zeta.
  match goal with
  | |- context [C.speak ?t (C.set_feedback ?t (fst (C.resolve_rep ?mid)))] =>
    exists (C.set_feedback t (fst (C.resolve_rep mid)));
    destruct (camera_resolve_outcome mid)
  end; repeat split; cbn; lia.
Qed.

Lemma no_repeated_text_snoc (l : list string) (x : string) :
  no_repeated_text l = true ->
  last_opt l <> Some x ->
  no_repeated_text (l ++ [x]) = true.
Proof.
  induction l as [|a l IH]; intros Hl Hlast; [reflexivity |].
  destruct l as [|b l].
  - simpl. rewrite andb_true_r. apply negb_true_iff.
    apply String.eqb_neq. intros ->. apply Hlast. reflexivity.
  - change (no_repeated_text (a :: (b :: l) ++ [x]))
      with (negb (String.eqb a b) && no_repeated_text ((b :: l) ++ [x])).
    change (no_repeated_text (a :: b :: l))
      with (negb (String.eqb a b) && no_repeated_text (b :: l)) in Hl.
    apply andb_true_iff in Hl. destruct Hl as [H1 H2].
    apply andb_true_iff. split; [exact H1 |].
    apply IH; [exact H2 |].
    rewrite last_opt_cons in Hlast. exact Hlast.
Qed.

(** What [_speak] does to the queue, and what it keeps true of it. *)
Lemma speak_queue (text : option string) (s : C.State) :
  C.last_feedback s = last_opt (C.speech_queue s) ->
  no_repeated_text (C.speech_queue s) = true ->
  ~ In EmptyString (C.speech_queue s) ->
  let s' := C.speak text s in
  C.last_feedback s' = last_opt (C.speech_queue s')
  /\ no_repeated_text (C.speech_queue s') = true
  /\ ~ In EmptyString (C.speech_queue s')
  /\ (C.speech_queue s' = C.speech_queue s
      \/ exists t, text = Some t /\ C.speech_queue s' = C.speech_queue s ++ [t])
  /\ (forall t, text = Some t -> t <> EmptyString ->
                last_opt (C.speech_queue s') = Some t).
Proof.
  intros Hlast Hrep Hne s'. subst s'.
  destruct text as [t|].
  2:{ cbn. repeat split; try assumption; [left; reflexivity | discriminate]. }
  destruct (String.eqb t EmptyString) eqn:Et.
  { apply String.eqb_eq in Et. subst t.
    rewrite speak_ignores by (right; left; reflexivity).
    repeat split; try assumption; [left; reflexivity |].
    intros t Ht Hn. injection Ht as <-. contradiction. }
  apply String.eqb_neq in Et.
  destruct (opt_string_eqb (Some t) (C.last_feedback s)) eqn:E.
  - apply opt_string_eqb_eq in E.
    rewrite speak_ignores by (right; right; exact E).
    repeat split; try assumption; [left; reflexivity |].
    intros t0 Ht0 _. injection Ht0 as <-. rewrite <- Hlast. symmetry. exact E.
  - assert (Hneq : C.last_feedback s <> Some t).
    { intro H. rewrite H in E.
      rewrite (proj2 (opt_string_eqb_eq (Some t) (Some t)) eq_refl) in E.
      discriminate. }
    rewrite (speak_accepts t s Et Hneq). cbn.
    repeat split.
    + symmetry. apply last_opt_snoc.
    + apply no_repeated_text_snoc; [exact Hrep |].
      rewrite <- Hlast. exact Hneq.
    + intro Hin. apply in_app_or in Hin. destruct Hin as [Hin | [Hin | []]].
      * exact (Hne Hin).
      * apply Et. exact Hin.
    + right. exists t. split; reflexivity.
    + intros t0 Ht0 _. injection Ht0 as <-. apply last_opt_snoc.
Qed.

Lemma camera_run_snoc
    (calculate_angle : Point -> Point -> Point -> Q)
    (captures : list (option (option Landmarks)))
    (capture : option (option Landmarks)) :
  camera_run calculate_angle (captures ++ [capture])
  = C.read_frame calculate_angle (camera_run calculate_angle captures) capture.
Proof. unfold camera_run. rewrite fold_left_app. reflexivity. Qed.

Lemma camera_run_queue
    (calculate_angle : Point -> Point -> Point -> Q)
    (captures : list (option (option Landmarks))) :
  let s := camera_run calculate_angle captures in
  C.last_feedback s = last_opt (C.speech_queue s)
  /\ no_repeated_text (C.speech_queue s) = true
  /\ ~ In EmptyString (C.speech_queue s).
Proof.
  induction captures as [|capture captures IH] using rev_ind.
  - cbn. repeat split. intros [].
  - rewrite camera_run_snoc. cbv zeta in *.
    destruct IH as (I1 & I2 & I3).
    destruct capture as [frame|]; [| repeat split; assumption].
    destruct (camera_frame_speaks calculate_angle
                (camera_run calculate_angle captures) frame)
      as (s0 & E & E1 & E2 & _).
    rewrite E.
    destruct (speak_queue (C.feedback s0) s0) as (H1 & H2 & H3 & _).
    + rewrite E1, E2. exact I1.
    + rewrite E2. exact I2.
    + rewrite E2. exact I3.
    + repeat split; assumption.
Qed.

(** X8. Over any run of the camera squat analyzer the speech queue never
    holds an empty text nor the same text twice in a row, and
    [last_feedback] is the last text put on it.  One [read_frame] call puts
    at most one text on the queue, and after a successful capture a
    non-empty feedback is always the last text on the queue. *)
Theorem camera_speech_queue :
  forall (calculate_angle : Point -> Point -> Point -> Q)
         (captures : list (option (option Landmarks)))
         (capture : option (option Landmarks)),
    let s := camera_run calculate_angle captures in
    let s' := C.read_frame calculate_angle s capture in
    C.last_feedback s = last_opt (C.speech_queue s)
    /\ no_repeated_text (C.speech_queue s) = true
    /\ ~ In EmptyString (C.speech_queue s)
    /\ (exists added,
          C.speech_queue s' = C.speech_queue s ++ added
          /\ (length added <= 1)%nat)
    /\ (forall frame t,
          capture = Some frame -> C.feedback s' = Some t ->
          t <> EmptyString ->
          last_opt (C.speech_queue s') = Some t).
Proof.
  intros calculate_angle captures capture s s'.
  destruct (camera_run_queue calculate_angle captures) as (I1 & I2 & I3).
  fold s in I1, I2, I3.
  split; [exact I1 | split; [exact I2 | split; [exact I3 |]]].
  subst s'. destruct capture as [frame|].
  2:{ split; [exists []; rewrite app_nil_r; split; [reflexivity | simpl; lia] |].
      intros frame t H. discriminate H. }
  destruct (camera_frame_speaks calculate_angle s frame)
    as (s0 & E & E1 & E2 & _).
  rewrite E.
  destruct (speak_queue (C.feedback s0) s0) as (_ & _ & _ & H4 & H5).
  { rewrite E1, E2. exact I1. }
  { rewrite E2. exact I2. }
  { rewrite E2. exact I3. }
  split.
  - destruct H4 as [H4 | [t [_ H4]]]; rewrite H4, E2.
    + exists []. rewrite app_nil_r. split; [reflexivity | simpl; lia].
    + exists [t]. split; [reflexivity | simpl; lia].
  - intros frame0 t _ Hfb Ht. apply H5; [| exact Ht].
    destruct (speak_frame (C.feedback s0) s0) as (_ & _ & _ & _ & F & _).
    rewrite F in Hfb. exact Hfb.
Qed.

Lemma camera_speech_queue_witness :
  last_opt
    (C.speech_queue
       (C.read_frame compass_angle
          (camera_run compass_angle [Some standing; Some half_squat])
          (Some standing)))
  = Some MSG_INCOMPLETE_CAMERA.
Proof.
  destruct (camera_speech_queue compass_angle [Some standing; Some half_squat]
              (Some standing)) as (_ & _ & _ & _ & H).
  apply (H standing); [reflexivity | vm_compute; reflexivity | discriminate].
Defined.

Lemma camera_step_counters
    (calculate_angle : Point -> Point -> Point -> Q)
    (s : C.State) (capture : option (option Landmarks)) :
  (C.correct_counter s
   <= C.correct_counter (C.read_frame calculate_angle s capture))%nat
  /\ (C.incorrect_counter s
      <= C.incorrect_counter (C.read_frame calculate_angle s capture))%nat
  /\ (C.correct_counter (C.read_frame calculate_angle s capture)
      + C.incorrect_counter (C.read_frame calculate_angle s capture)
      <= C.correct_counter s + C.incorrect_counter s + 1)%nat.
Proof.
  destruct capture as [frame|]; [| cbn; lia].
  destruct (camera_frame_speaks calculate_angle s frame)
    as (s0 & E & _ & _ & H1 & H2 & H3).
  rewrite E.
  destruct (speak_frame (C.feedback s0) s0) as (F1 & F2 & _).
  rewrite F1, F2. lia.
Qed.

(** X9. In the camera squat analyzer too, one [read_frame] call never
    lowers a counter and raises their sum by at most one: at most one rep is
    resolved per frame, and a failed capture resolves none.  Over any
    further captures the counters never decrease. *)
Theorem camera_counters_monotone :
  forall (calculate_angle : Point -> Point -> Point -> Q)
         (s : C.State) (capture : option (option Landmarks))
         (captures : list (option (option Landmarks))),
    let s' := C.read_frame calculate_angle s capture in
    let s_end := fold_left (C.read_frame calculate_angle) captures s in
    (C.correct_counter s <= C.correct_counter s')%nat
    /\ (C.incorrect_counter s <= C.incorrect_counter s')%nat
    /\ (C.correct_counter s' + C.incorrect_counter s'
        <= C.correct_counter s + C.incorrect_counter s + 1)%nat
    /\ (C.correct_counter s <= C.correct_counter s_end)%nat
    /\ (C.incorrect_counter s <= C.incorrect_counter s_end)%nat.
Proof.
  intros calculate_angle s capture captures s' s_end.
  destruct (camera_step_counters calculate_angle s capture) as (H1 & H2 & H3).
  split; [exact H1 | split; [exact H2 | split; [exact H3 |]]].
  subst s_end. clear. revert s.
  induction captures as [|c captures IH]; intro s; [cbn; lia |].
  cbn [fold_left].
  destruct (camera_step_counters calculate_angle s c) as (G1 & G2 & _).
  destruct (IH (C.read_frame calculate_angle s c)) as [I1 I2]. lia.
Qed.

(** ** Jump measurement helpers *)

Lemma inches_per_pixel_nonneg (cfg : Config) :
  0 <= CALIBRATION_INCHES cfg -> 0 <= inches_per_pixel cfg.
Proof.
  intro Hin. unfold inches_per_pixel.
  destruct (Qltb 0 (CALIBRATION_PIXELS cfg)) eqn:E; [| discriminate].
  apply Qltb_lt in E. unfold Qdiv.
  apply Qmult_le_0_compat; [exact Hin |].
  apply Qinv_le_0_compat. apply Qlt_le_weak. exact E.
Qed.

(** X10. Whatever the calibration, the pose and the recorded peak,
    [_finalize_jump] stores a result whose fields agree with each other: it
    is valid exactly when its reason is ok, its reason is too-small exactly
    when its inches are below [MIN_JUMP_INCHES], so a valid result never
    measures less than the minimum; the inches are
    [max(0, peak) * inches_per_pixel()], never negative when
    [CALIBRATION_INCHES] is not negative (with a non-positive
    [CALIBRATION_PIXELS] the factor is 0.12). *)
Theorem jump_result_consistent :
  forall (cfg : Config) (angle : Point -> Point -> Point -> Q)
         (s : J.State) (landmarks : Landmarks) (w h : Z),
    exists r,
      J.last_jump_result (J.finalize_jump cfg angle s landmarks w h) = Some r
      /\ inches r = Qmax 0 (J.peak_delta_pixels s) * inches_per_pixel cfg
      /\ (valid r = true <-> reason r = REASON_OK)
      /\ (reason r = REASON_TOO_SMALL <-> inches r < MIN_JUMP_INCHES cfg)
      /\ (valid r = true -> MIN_JUMP_INCHES cfg <= inches r)
      /\ (0 <= CALIBRATION_INCHES cfg -> 0 <= inches r)
      /\ (CALIBRATION_PIXELS cfg <= 0 -> inches_per_pixel cfg = 12 # 100).
Proof.
  intros cfg angle s landmarks w h. unfold J.finalize_jump.
  set (i := Qmax 0 (J.peak_delta_pixels s) * inches_per_pixel cfg).
  assert (Hnn : 0 <= CALIBRATION_INCHES cfg -> 0 <= i).
  { intro Hin. unfold i. apply Qmult_le_0_compat;
      [apply Q.le_max_l | apply inches_per_pixel_nonneg; exact Hin]. }
  assert (Hpx : CALIBRATION_PIXELS cfg <= 0 -> inches_per_pixel cfg = 12 # 100).
  { intro H. unfold inches_per_pixel.
    rewrite (proj2 (Qltb_ge _ _) H). reflexivity. }
  destruct (Qltb i (MIN_JUMP_INCHES cfg)) eqn:E.
  - eexists. split; [reflexivity |]. cbn [inches valid reason].
    apply Qltb_lt in E.
    repeat split; intros; try discriminate; try assumption;
      try reflexivity; auto.
  - apply Qltb_ge in E.
    destruct (detect_squat_cheat angle landmarks w h);
      (eexists; split; [reflexivity |]); cbn [inches valid reason];
      repeat split; intros; try discriminate; try assumption;
      try reflexivity; auto;
      exfalso; eapply Qlt_not_le; eassumption.
Qed.

Lemma jump_result_consistent_witness :
  exists r,
    J.last_jump_result
      (J.finalize_jump default_config perpendicular_angle peak_50
         (bent_knees (9 # 10)) 640 360) = Some r
    /\ 0 <= inches r.
Proof.
  destruct (jump_result_consistent default_config perpendicular_angle peak_50
              (bent_knees (9 # 10)) 640 360)
    as (r & H1 & _ & _ & _ & _ & H6 & _).
  exists r. split; [exact H1 |]. apply H6. discriminate.
Defined.

Lemma square_bound (d e t : Q) :
  0 < t -> d * d + e * e < t * t -> Qabs d < t.
Proof.
  intros Ht H. apply Qabs_case; intro Hd.
  - destruct (Qlt_le_dec d t) as [Hlt | Hge]; [exact Hlt |].
    exfalso. nra.
  - destruct (Qlt_le_dec (- d) t) as [Hlt | Hge]; [exact Hlt |].
    exfalso. nra.
Qed.

(** X11. The hand-to-nose gesture is only ever detected when both the hand
    and the nose landmark have visibility at least 0.4, and then the hand is
    less than the threshold away from the nose along both axes of the
    frame; a non-positive threshold detects nothing, and the test does not
    depend on which of the two landmarks is called the hand. *)
Theorem hand_to_nose_needs_both_landmarks :
  forall (landmarks : Landmarks) (w h : Z) (hand nose : PoseLandmark)
         (thresh : Q),
    (is_hand_to_nose landmarks w h hand nose thresh = true ->
     4 # 10 <= lm_visibility (landmarks hand)
     /\ 4 # 10 <= lm_visibility (landmarks nose)
     /\ 0 < thresh
     /\ Qabs (lm_x (landmarks hand) * inject_Z w
              - lm_x (landmarks nose) * inject_Z w) < thresh
     /\ Qabs (lm_y (landmarks hand) * inject_Z h
              - lm_y (landmarks nose) * inject_Z h) < thresh)
    /\ is_hand_to_nose landmarks w h hand nose thresh
       = is_hand_to_nose landmarks w h nose hand thresh.
Proof.
  intros landmarks w h hand nose thresh. split.
  - unfold is_hand_to_nose, landmark_xy.
    destruct (Qltb (lm_visibility (landmarks hand)) (4 # 10)) eqn:Eh;
      [discriminate |].
    destruct (Qltb (lm_visibility (landmarks nose)) (4 # 10)) eqn:En;
      [discriminate |].
    unfold distance_lt. cbn [fst snd]. intro H.
    apply andb_true_iff in H. destruct H as [Ht Hd].
    apply Qltb_lt in Ht. apply Qltb_lt in Hd.
    apply Qltb_ge in Eh. apply Qltb_ge in En.
    split; [exact Eh | split; [exact En | split; [exact Ht | split]]].
    + eapply square_bound; [exact Ht | exact Hd].
    + eapply square_bound; [exact Ht |].
      rewrite Qplus_comm. exact Hd.
  - unfold is_hand_to_nose, landmark_xy.
    destruct (Qltb (lm_visibility (landmarks hand)) (4 # 10));
      destruct (Qltb (lm_visibility (landmarks nose)) (4 # 10));
      try reflexivity.
    unfold distance_lt. cbn [fst snd]. f_equal.
    match goal with
    | |- Qltb ?a ?t = Qltb ?b ?t =>
      assert (Hab : a == b) by ring;
      destruct (Qltb a t) eqn:Ea; destruct (Qltb b t) eqn:Eb;
      try reflexivity
    end.
    + apply Qltb_lt in Ea. apply Qltb_ge in Eb. rewrite Hab in Ea.
      exfalso. exact (Qlt_not_le _ _ Ea Eb).
    + apply Qltb_ge in Ea. apply Qltb_lt in Eb. rewrite Hab in Ea.
      exfalso. exact (Qlt_not_le _ _ Eb Ea).
Qed.

Lemma hand_to_nose_needs_both_landmarks_witness :
  4 # 10 <= lm_visibility (upright (1 # 2) (1 # 2) RIGHT_INDEX)
  /\ 4 # 10 <= lm_visibility (upright (1 # 2) (1 # 2) NOSE).
Proof.
  destruct (hand_to_nose_needs_both_landmarks (upright (1 # 2) (1 # 2))
              640 360 RIGHT_INDEX NOSE 60) as [H _].
  destruct H as (H1 & H2 & _); [vm_compute; reflexivity |].
  split; [exact H1 | exact H2].
Defined.

(** ** Camera jump analyzer: what a run keeps true *)

Lemma history_push_length (cap : Z) (l : list Q) (v : Q) :
  (1 <= cap)%Z ->
  (Z.of_nat (length l) <= cap)%Z ->
  (Z.of_nat (length (history_push cap l v)) <= cap)%Z
  /\ history_push cap l v <> [].
Proof.
  intros Hcap Hl. unfold history_push.
  destruct (cap <? Z.of_nat (length (l ++ [v])))%Z eqn:E.
  - apply Z.ltb_lt in E. rewrite length_app in E. cbn [length] in E.
    destruct l as [|a l].
    + cbn in E. lia.
    + cbn [app tl]. rewrite length_app. cbn [length] in *. split; [lia |].
      destruct l; discriminate.
  - apply Z.ltb_ge in E. split; [exact E |]. destruct l; discriminate.
Qed.

(** On the ground, jump detection only updates the measurements. *)
Lemma detect_jump_on_ground
    (cfg : Config) (angle : Point -> Point -> Point -> Q)
    (s : J.State) (landmarks : Landmarks) (w h : Z)
    (now dt_local : Q) (p_nose : Point) (baseline : Q) :
  J.state s = idle \/ J.state s = armed ->
  let hist := history_push (Z.max 5 (SMOOTHING_WINDOW cfg)) (J.nose_history s)
                           (snd p_nose) in
  let steady := Qltb (Qabs (mean hist - baseline)) 4 in
  let dy := baseline - mean hist in
  exists vel,
    J.detect_jump cfg angle s landmarks w h now dt_local p_nose baseline
    = J.set_peak_delta_pixels (Qmax (J.peak_delta_pixels s) dy)
        (J.set_prev_dy (Some dy)
           (J.set_vel_debug vel
              (J.set_dy_debug dy
                 (J.set_steady_frames
                    (if steady then (J.steady_frames s + 1)%Z else 0%Z)
                    (J.set_nose_history hist s))))).
Proof.
  intros Hst hist steady dy. unfold J.detect_jump. cbv zeta.
  fold hist.
  change (mean (J.nose_history (J.set_nose_history hist s))) with (mean hist).
  fold steady. fold dy.
  destruct steady eqn:Esteady;
    match goal with
    | |- context [if Phase_eqb (J.state ?S) armed && ?r && Qltb ?thr ?d && ?v
                  then _ else _] =>
      assert (Hcond : Phase_eqb (J.state S) armed && r && Qltb thr d && v
                      = false);
        [| assert (Hair : Phase_eqb (J.state S) airborne = false)
             by (change (J.state S) with (J.state s);
                 destruct Hst as [E | E]; rewrite E; reflexivity);
           rewrite Hcond, Hair; eexists; reflexivity]
    end.
  - unfold steady in Esteady. apply Qltb_lt in Esteady.
    assert (Hdy : Qltb (Qmax 8 ((15 # 1000) * inject_Z h)) dy = false).
    { apply Qltb_ge. unfold dy.
      apply Qle_trans with (Qabs (baseline - mean hist)); [apply Qle_Qabs |].
      apply Qle_trans with 8; [| apply Q.le_max_l].
      rewrite Qabs_Qminus. apply Qlt_le_weak.
      eapply Qlt_trans; [exact Esteady | reflexivity]. }
    apply andb_false_iff. left. apply andb_false_iff. right. exact Hdy.
  - apply andb_false_iff. left. apply andb_false_iff. left.
    apply andb_false_iff. right. reflexivity.
Qed.

Lemma grounded_init (cfg : Config) (start_time : Q) :
  grounded cfg (J.init cfg start_time).
Proof.
  constructor; cbn; auto; try discriminate; try lia;
    try (intro H; discriminate H).
Qed.

Lemma grounded_reset (cfg : Config) (s : J.State) :
  grounded cfg s ->
  grounded cfg (J.set_last_jump_result None (J.reset_state s)).
Proof.
  intros [H1 H2 H3 H4 H5 H6 H7 H8 H9].
  constructor; cbn; auto; try discriminate; try lia;
    try (intro H; discriminate H).
Qed.

Lemma grounded_observe
    (cfg : Config) (angle : Point -> Point -> Point -> Q)
    (s : J.State) (landmarks : Landmarks) (w h : Z) (now dt_local : Q) :
  grounded cfg s ->
  grounded cfg (J.observe cfg angle s landmarks w h now dt_local).
Proof.
  intro Hs. unfold J.observe.
  set (right_hand := is_hand_to_nose landmarks w h RIGHT_INDEX NOSE 60).
  set (left_hand := is_hand_to_nose landmarks w h LEFT_INDEX NOSE 60).
  (* after the arm gesture: either untouched, or armed on a visible nose *)
  set (s1 := if Phase_eqb (J.state s) idle && right_hand then _ else s).
  assert (H1 : grounded cfg s1
               \/ exists p, landmark_xy landmarks NOSE w h = Some p
                            /\ s1 = J.set_steady_frames 0%Z
                                      (J.set_peak_delta_pixels 0
                                         (J.set_baseline_nose_y (Some (snd p))
                                            (J.set_state armed s)))
                            /\ J.state s = idle).
  { unfold s1. destruct (Phase_eqb (J.state s) idle) eqn:Eidle;
      [| left; exact Hs].
    destruct right_hand eqn:Er; [| left; exact Hs]. cbn [andb].
    unfold right_hand, is_hand_to_nose in Er.
    destruct (landmark_xy landmarks RIGHT_INDEX w h) as [ph|];
      [| discriminate].
    destruct (landmark_xy landmarks NOSE w h) as [p|]; [| discriminate].
    right. exists p. repeat split.
    destruct (J.state s); try discriminate. reflexivity. }
  (* after the reset gesture *)
  set (s2 := if (Phase_eqb (J.state s1) armed || Phase_eqb (J.state s1) landed)
                && left_hand then _ else s1).
  destruct ((Phase_eqb (J.state s1) armed || Phase_eqb (J.state s1) landed)
            && left_hand) eqn:Ereset.
  { (* reset: everything cleared, detection skipped *)
    assert (Hs2 : grounded cfg s2).
    { unfold s2. try rewrite Ereset.
      destruct H1 as [H1 | (p & _ & -> & Hidle)].
      - apply grounded_reset. exact H1.
      - destruct Hs as [G1 G2 G3 G4 G5 G6 G7 G8 G9].
        constructor; cbn; auto; try discriminate; try lia;
          try (intro H; discriminate H). }
    assert (Hb : J.baseline_nose_y s2 = None)
      by (unfold s2; try rewrite Ereset; reflexivity).
    rewrite Hb. destruct (landmark_xy landmarks NOSE w h); exact Hs2. }
  assert (Es2 : s2 = s1) by (unfold s2; try rewrite Ereset; reflexivity).
  rewrite Es2. clear s2 Es2.
  destruct H1 as [H1 | (p & Hp & E1 & Hidle)].
  - (* no arm gesture this frame *)
    destruct (landmark_xy landmarks NOSE w h) as [p|]; [| exact H1].
    destruct (J.baseline_nose_y s1) as [b|] eqn:Eb; [| exact H1].
    destruct H1 as [G1 G2 G3 G4 G5 G6 G7 G8 G9].
    assert (Harmed : J.state s1 = armed).
    { destruct G1 as [G1 | G1]; [| exact G1].
      destruct (G5 G1) as [Hn _]. congruence. }
    destruct (detect_jump_on_ground cfg angle s1 landmarks w h now dt_local
                p b G1) as [vel ->].
    destruct (history_push_length (Z.max 5 (SMOOTHING_WINDOW cfg))
                (J.nose_history s1) (snd p)) as [L1 L2]; [lia | exact G9 |].
    constructor; cbn; auto; try (rewrite Harmed; discriminate).
    + intros _. repeat split; [rewrite Eb | exact L2 |]; discriminate.
    + eapply Qle_trans; [exact G7 | apply Q.le_max_l].
    + destruct (Qltb _ 4); lia.
  - (* armed on this frame: detection runs on the new baseline *)
    rewrite Hp. rewrite E1 at 1. cbn [J.baseline_nose_y J.set_steady_frames
      J.set_peak_delta_pixels J.set_baseline_nose_y].
    assert (G1 : J.state s1 = idle \/ J.state s1 = armed)
      by (right; rewrite E1; reflexivity).
    destruct (detect_jump_on_ground cfg angle s1 landmarks w h now dt_local
                p (snd p) G1) as [vel ->].
    destruct Hs as [K1 K2 K3 K4 K5 K6 K7 K8 K9].
    destruct (K5 Hidle) as (_ & Hh & _).
    destruct (history_push_length (Z.max 5 (SMOOTHING_WINDOW cfg))
                (J.nose_history s1) (snd p)) as [L1 L2];
      [lia | rewrite E1; cbn; rewrite Hh; cbn; lia |].
    rewrite E1 in *.
    constructor; cbn; auto; try discriminate.
    + intros _. repeat split; [discriminate | exact L2 | discriminate].
    + apply Q.le_max_l.
    + destruct (Qltb _ 4); lia.
Qed.

Lemma grounded_read_frame
    (cfg : Config) (angle : Point -> Point -> Point -> Q)
    (s : J.State) (capture : option J.Capture) :
  grounded cfg s -> grounded cfg (J.read_frame cfg angle s capture).
Proof.
  intro Hs. destruct capture as [c|]; [| exact Hs].
  unfold J.read_frame.
  set (dt := if negb (Qeq_bool (J.prev_time s) 0) then _ else _).
  assert (H : grounded cfg
                match J.cap_pose c with
                | Some landmarks =>
                  J.observe cfg angle s landmarks (J.cap_w c) (J.cap_h c)
                            (J.cap_now c) dt
                | None => s
                end).
  { destruct (J.cap_pose c); [apply grounded_observe |]; exact Hs. }
  destruct H as [G1 G2 G3 G4 G5 G6 G7 G8 G9].
  destruct (Qltb 0 dt); constructor; assumption.
Qed.

Lemma grounded_run
    (cfg : Config) (angle : Point -> Point -> Point -> Q)
    (start_time : Q) (captures : list (option J.Capture)) :
  grounded cfg (J.run cfg angle (J.init cfg start_time) captures).
Proof.
  unfold J.run.
  assert (H : forall s, grounded cfg s ->
            grounded cfg (fold_left (J.read_frame cfg angle) captures s)).
  { induction captures as [|c captures IH]; intros s Hs; [exact Hs |].
    cbn [fold_left]. apply IH. apply grounded_read_frame. exact Hs. }
  apply H. apply grounded_init.
Qed.

(** X12. A camera jump analyzer never takes off.  The takeoff test asks for
    five steady frames and for [dy] above [max(8, 0.015 h)], but
    [steady_frames] is set to zero on every frame whose smoothed nose height
    is 4px or more from the baseline.  Over any captures, a fresh analyzer
    is idle or armed, never airborne or landed; it never stores a jump
    result, never counts an airborne frame and never records a landing
    time. *)
Theorem jump_analyzer_never_takes_off :
  forall (cfg : Config) (angle : Point -> Point -> Point -> Q)
         (start_time : Q) (captures : list (option J.Capture)),
    let s := J.run cfg angle (J.init cfg start_time) captures in
    (J.state s = idle \/ J.state s = armed)
    /\ J.state s <> airborne
    /\ J.state s <> landed
    /\ J.last_jump_result s = None
    /\ J.airborne_frames s = 0%Z
    /\ J.last_land_time s = 0.
Proof.
  intros cfg angle start_time captures s.
  destruct (grounded_run cfg angle start_time captures)
    as [G1 G2 G3 G4 _ _ _ _ _].
  fold s in G1, G2, G3, G4.
  repeat split; try assumption;
    destruct G1 as [G1 | G1]; rewrite G1; discriminate.
Qed.

(** X13. Over any captures, a camera jump analyzer is idle exactly when it
    has no baseline.  While idle its measurements are cleared (empty nose
    window, no previous [dy], peak 0, no steady frame); while armed it has
    a baseline, a non-empty nose window and a previous [dy].  The peak is
    never negative and the nose window never holds more than
    [max(5, SMOOTHING_WINDOW)] values. *)
Theorem jump_analyzer_idle_without_baseline :
  forall (cfg : Config) (angle : Point -> Point -> Point -> Q)
         (start_time : Q) (captures : list (option J.Capture)),
    let s := J.run cfg angle (J.init cfg start_time) captures in
    (J.state s = idle <-> J.baseline_nose_y s = None)
    /\ (J.state s = idle ->
        J.nose_history s = [] /\ J.prev_dy s = None
        /\ J.peak_delta_pixels s = 0 /\ J.steady_frames s = 0%Z)
    /\ (J.state s = armed ->
        J.nose_history s <> [] /\ J.prev_dy s <> None)
    /\ 0 <= J.peak_delta_pixels s
    /\ (0 <= J.steady_frames s)%Z
    /\ (Z.of_nat (length (J.nose_history s))
        <= Z.max 5 (SMOOTHING_WINDOW cfg))%Z.
Proof.
  intros cfg angle start_time captures s.
  destruct (grounded_run cfg angle start_time captures)
    as [G1 _ _ _ G5 G6 G7 G8 G9].
  fold s in G1, G5, G6, G7, G8, G9.
  split; [| split; [| split; [| split; [| split]]]]; try assumption.
  - split.
    + intro H. apply G5. exact H.
    + intro H. destruct G1 as [G1 | G1]; [exact G1 |].
      destruct (G6 G1) as [Hb _]. contradiction.
  - intro H. destruct (G5 H) as (_ & H1 & H2 & H3 & H4). auto.
  - intro H. destruct (G6 H) as (_ & H1 & H2). auto.
Qed.

Lemma jump_analyzer_idle_without_baseline_witness :
  J.nose_history
    (J.run default_config perpendicular_angle (J.init default_config 1000)
       arm_then_stand) <> [].
Proof.
  destruct (jump_analyzer_idle_without_baseline default_config
              perpendicular_angle 1000 arm_then_stand)
    as (_ & _ & H & _).
  apply H. vm_compute. reflexivity.
Defined.

(** ** Camera jump analyzer: gestures and hidden landmarks *)

Lemma read_frame_observed
    (cfg : Config) (angle : Point -> Point -> Point -> Q)
    (s : J.State) (c : J.Capture) (landmarks : Landmarks) :
  J.cap_pose c = Some landmarks ->
  exists dt f,
    J.read_frame cfg angle s (Some c)
    = J.set_prev_time (J.cap_now c)
        (J.set_fps f
           (J.observe cfg angle s landmarks (J.cap_w c) (J.cap_h c)
                      (J.cap_now c) dt)).
Proof.
  intro Hpose. unfold J.read_frame. rewrite Hpose.
  set (dt := if negb (Qeq_bool (J.prev_time s) 0) then _ else _).
  exists dt.
  destruct (Qltb 0 dt).
  - eexists. reflexivity.
  - exists (J.fps (J.observe cfg angle s landmarks (J.cap_w c) (J.cap_h c)
                             (J.cap_now c) dt)).
    destruct (J.observe cfg angle s landmarks (J.cap_w c) (J.cap_h c)
                        (J.cap_now c) dt). reflexivity.
Qed.

(** X14. The reset gesture clears the measurement in the same call.  On a
    frame with the left hand at the nose, a camera jump analyzer that is
    armed or landed, or that is idle and sees the right hand at the nose as
    well (it arms and resets at once), ends the call idle with no baseline,
    no stored result, peak 0, an empty nose window, no previous [dy] and no
    steady or airborne frame. *)
Theorem reset_gesture_clears_measurement :
  forall (cfg : Config) (angle : Point -> Point -> Point -> Q)
         (s : J.State) (c : J.Capture) (landmarks : Landmarks),
    J.cap_pose c = Some landmarks ->
    is_hand_to_nose landmarks (J.cap_w c) (J.cap_h c) LEFT_INDEX NOSE 60
    = true ->
    (J.state s = armed \/ J.state s = landed
     \/ (J.state s = idle
         /\ is_hand_to_nose landmarks (J.cap_w c) (J.cap_h c) RIGHT_INDEX
                            NOSE 60 = true)) ->
    let s' := J.read_frame cfg angle s (Some c) in
    J.state s' = idle
    /\ J.baseline_nose_y s' = None
    /\ J.last_jump_result s' = None
    /\ J.peak_delta_pixels s' = 0
    /\ J.nose_history s' = []
    /\ J.prev_dy s' = None
    /\ J.steady_frames s' = 0%Z
    /\ J.airborne_frames s' = 0%Z.
Proof.
  intros cfg angle s c landmarks Hpose Hleft Hst s'. subst s'.
  destruct (read_frame_observed cfg angle s c landmarks Hpose)
    as (dt & f & ->).
  cbn [J.set_prev_time J.set_fps J.state J.baseline_nose_y
       J.last_jump_result J.peak_delta_pixels J.nose_history J.prev_dy
       J.steady_frames J.airborne_frames].
  unfold J.observe. rewrite Hleft.
  destruct (landmark_xy landmarks NOSE (J.cap_w c) (J.cap_h c));
    destruct Hst as [Hst | [Hst | [Hst Hright]]];
    rewrite ?Hright;
    do 3 (rewrite ?Hst;
          cbn [Phase_eqb andb orb J.state J.set_state J.set_steady_frames
               J.set_peak_delta_pixels J.set_baseline_nose_y]);
    cbn; repeat split.
Qed.

Lemma reset_gesture_clears_measurement_witness :
  let armed_state :=
    J.run default_config perpendicular_angle (J.init default_config 1000)
          arm_then_stand in
  let c := J.mkCapture (10003 # 10) 360 640
             (Some (fun name =>
                      match name with
                      | NOSE | LEFT_INDEX => mkLandmark (1 # 2) (1 # 2) (9 # 10)
                      | _ => hidden
                      end)) in
  J.state (J.read_frame default_config perpendicular_angle armed_state (Some c))
  = idle
  /\ J.baseline_nose_y
       (J.read_frame default_config perpendicular_angle armed_state (Some c))
     = None.
Proof.
  intros armed_state c.
  destruct (reset_gesture_clears_measurement default_config
              perpendicular_angle armed_state c
              (fun name =>
                 match name with
                 | NOSE | LEFT_INDEX => mkLandmark (1 # 2) (1 # 2) (9 # 10)
                 | _ => hidden
                 end))
    as (H1 & H2 & _).
  - reflexivity.
  - vm_compute. reflexivity.
  - left. vm_compute. reflexivity.
  - split; [exact H1 | exact H2].
Defined.

Lemma mean_single (v : Q) : mean [v] == v.
Proof. unfold mean, py_sum, py_len. simpl. field. Qed.

(** X15. The arm gesture starts a measurement from scratch.  When a camera
    jump analyzer that is idle (after any captures) sees the right hand at
    the nose and not the left one, the call leaves it armed with the
    baseline at the nose height of that frame in pixels; the same call
    already runs the detection on that frame: the nose window holds that
    one height, one steady frame is counted, [dy] and the peak are 0. *)
Theorem arm_gesture_starts_measurement :
  forall (cfg : Config) (angle : Point -> Point -> Point -> Q)
         (start_time : Q) (captures : list (option J.Capture))
         (c : J.Capture) (landmarks : Landmarks),
    let s := J.run cfg angle (J.init cfg start_time) captures in
    let s' := J.read_frame cfg angle s (Some c) in
    let y := lm_y (landmarks NOSE) * inject_Z (J.cap_h c) in
    J.cap_pose c = Some landmarks ->
    J.state s = idle ->
    is_hand_to_nose landmarks (J.cap_w c) (J.cap_h c) RIGHT_INDEX NOSE 60
    = true ->
    is_hand_to_nose landmarks (J.cap_w c) (J.cap_h c) LEFT_INDEX NOSE 60
    = false ->
    J.state s' = armed
    /\ J.baseline_nose_y s' = Some y
    /\ J.nose_history s' = [y]
    /\ J.steady_frames s' = 1%Z
    /\ J.peak_delta_pixels s' == 0
    /\ (exists dy, J.prev_dy s' = Some dy /\ dy == 0)
    /\ J.last_jump_result s' = None.
Proof.
  intros cfg angle start_time captures c landmarks s s' y
         Hpose Hidle Hright Hleft.
  pose proof (grounded_run cfg angle start_time captures) as Hs.
  fold s in Hs. destruct Hs as [_ G2 _ _ G5 _ _ _ _].
  destruct (G5 Hidle) as (_ & Hhist & _).
  subst s'.
  destruct (read_frame_observed cfg angle s c landmarks Hpose)
    as (dt & f & ->).
  cbn [J.set_prev_time J.set_fps J.state J.baseline_nose_y
       J.last_jump_result J.peak_delta_pixels J.nose_history J.prev_dy
       J.steady_frames].
  assert (Hnose : landmark_xy landmarks NOSE (J.cap_w c) (J.cap_h c)
                  = Some (lm_x (landmarks NOSE) * inject_Z (J.cap_w c), y)).
  { unfold is_hand_to_nose in Hright.
    destruct (landmark_xy landmarks RIGHT_INDEX (J.cap_w c) (J.cap_h c));
      [| discriminate].
    unfold landmark_xy in *.
    destruct (Qltb (lm_visibility (landmarks NOSE)) (4 # 10));
      [discriminate | reflexivity]. }
  unfold J.observe. rewrite Hright, Hleft, Hidle, Hnose.
  cbn [Phase_eqb andb orb J.state J.set_state J.set_steady_frames
       J.set_peak_delta_pixels J.set_baseline_nose_y J.baseline_nose_y snd].
  rewrite ?andb_false_r.
  match goal with
  | |- context [J.detect_jump cfg angle ?s1 landmarks ?w ?h ?n ?d ?p ?b] =>
    destruct (detect_jump_on_ground cfg angle s1 landmarks w h n d p b)
      as [vel ->]; [right; reflexivity |]
  end.
  cbn [J.set_prev_time J.set_fps J.state J.baseline_nose_y
       J.last_jump_result J.peak_delta_pixels J.nose_history J.prev_dy
       J.steady_frames J.set_state J.set_steady_frames
       J.set_peak_delta_pixels J.set_baseline_nose_y J.set_nose_history
       J.set_dy_debug J.set_vel_debug J.set_prev_dy snd].
  rewrite Hhist.
  assert (Hpush : history_push (Z.max 5 (SMOOTHING_WINDOW cfg)) [] y = [y]).
  { unfold history_push. cbn [app length].
    destruct (Z.ltb_spec (Z.max 5 (SMOOTHING_WINDOW cfg)) (Z.of_nat 1));
      [lia | reflexivity]. }
  rewrite Hpush.
  assert (Hdy : y - mean [y] == 0) by (rewrite mean_single; ring).
  assert (Hsteady : Qltb (Qabs (mean [y] - y)) 4 = true).
  { apply Qltb_lt. rewrite mean_single.
    setoid_replace (y - y) with 0 by ring. reflexivity. }
  rewrite Hsteady.
  repeat split; try assumption.
  - apply Q.max_l. rewrite Hdy. discriminate.
  - eexists. split; [reflexivity | exact Hdy].
Qed.

Lemma arm_gesture_starts_measurement_witness :
  let c := J.mkCapture (10001 # 10) 360 640 (Some (upright (1 # 2) (1 # 2))) in
  J.state
    (J.read_frame default_config perpendicular_angle
       (J.run default_config perpendicular_angle (J.init default_config 1000)
              [])
       (Some c)) = armed
  /\ J.nose_history
       (J.read_frame default_config perpendicular_angle
          (J.run default_config perpendicular_angle
                 (J.init default_config 1000) [])
          (Some c)) = [(1 # 2) * inject_Z 360].
Proof.
  intro c.
  destruct (arm_gesture_starts_measurement default_config perpendicular_angle
              1000 [] c (upright (1 # 2) (1 # 2)))
    as (H1 & _ & H3 & _).
  - reflexivity.
  - reflexivity.
  - vm_compute. reflexivity.
  - vm_compute. reflexivity.
  - split; [exact H1 | exact H3].
Defined.

(** X16. A frame on which the pose estimator finds nobody, or on which the
    nose landmark has visibility below 0.4, changes nothing in a camera jump
    analyzer but the clock: [prev_time] becomes the time of the capture and
    [fps] may be updated; no gesture is detected and no measurement is
    taken, whatever the other landmarks show. *)
Theorem hidden_nose_frame_keeps_measurement :
  forall (cfg : Config) (angle : Point -> Point -> Point -> Q)
         (s : J.State) (c : J.Capture),
    (J.cap_pose c = None
     \/ exists landmarks,
          J.cap_pose c = Some landmarks
          /\ lm_visibility (landmarks NOSE) < 4 # 10) ->
    exists f,
      J.read_frame cfg angle s (Some c)
      = J.set_prev_time (J.cap_now c) (J.set_fps f s).
Proof.
  intros cfg angle s c [Hpose | (landmarks & Hpose & Hvis)].
  - unfold J.read_frame. rewrite Hpose.
    destruct (Qltb 0 _); [eexists; reflexivity |].
    exists (J.fps s). destruct s. reflexivity.
  - destruct (read_frame_observed cfg angle s c landmarks Hpose)
      as (dt & f & ->).
    assert (Hnose : landmark_xy landmarks NOSE (J.cap_w c) (J.cap_h c) = None).
    { unfold landmark_xy. rewrite (proj2 (Qltb_lt _ _) Hvis). reflexivity. }
    assert (Hobs : J.observe cfg angle s landmarks (J.cap_w c) (J.cap_h c)
                             (J.cap_now c) dt = s).
    { unfold J.observe, is_hand_to_nose. rewrite Hnose.
      destruct (landmark_xy landmarks RIGHT_INDEX (J.cap_w c) (J.cap_h c));
        destruct (landmark_xy landmarks LEFT_INDEX (J.cap_w c) (J.cap_h c));
        rewrite ?andb_false_r; reflexivity. }
    rewrite Hobs. exists f. reflexivity.
Qed.

Lemma hidden_nose_frame_keeps_measurement_witness :
  exists f,
    J.read_frame default_config perpendicular_angle peak_50
      (Some (J.mkCapture (10001 # 10) 360 640 (Some (bent_knees (9 # 10)))))
    = J.set_prev_time (10001 # 10) (J.set_fps f peak_50).
Proof.
  apply (hidden_nose_frame_keeps_measurement default_config
           perpendicular_angle peak_50
           (J.mkCapture (10001 # 10) 360 640 (Some (bent_knees (9 # 10))))).
  right. exists (bent_knees (9 # 10)). split; reflexivity.
Defined.

(** ** Mobile jump analyzer *)

(** The three ways a frame goes through [process_frame]: not visible, in
    the air ([jump_pixels > 30]), on the ground. *)
Lemma jump_mobile_frame (s : JM.State) (frame : JM.Frame) :
  let hist := deque_append 5 (JM.y_history s) (ankle_height frame) in
  let smooth := mean hist in
  let baseline := match JM.baseline_y s with Some b => b | None => smooth end in
  let jump_pixels := (baseline - smooth) * inject_Z (JM.frame_h frame) in
  (ankles_visible frame = false
   /\ JM.process_frame s frame = JM.set_feedback (Some MSG_NOT_VISIBLE) s)
  \/ (ankles_visible frame = true /\ 30 < jump_pixels
      /\ JM.process_frame s frame
         = {| JM.baseline_y := Some baseline;
              JM.max_jump_height := Qmax (JM.max_jump_height s) jump_pixels;
              JM.jump_count :=
                if JM.is_jumping s then JM.jump_count s
                else (JM.jump_count s + 1)%nat;
              JM.is_jumping := true;
              JM.current_jump_height :=
                Qmax (JM.current_jump_height s) jump_pixels;
              JM.feedback :=
                Some (JM.jump_height_text
                        (Qmax (JM.current_jump_height s) jump_pixels));
              JM.y_history := hist |})
  \/ (ankles_visible frame = true /\ jump_pixels <= 30
      /\ JM.process_frame s frame
         = {| JM.baseline_y :=
                Some (smooth * (1 # 10) + baseline * (9 # 10));
              JM.max_jump_height := JM.max_jump_height s;
              JM.jump_count := JM.jump_count s;
              JM.is_jumping := false;
              JM.current_jump_height :=
                if JM.is_jumping s then 0 else JM.current_jump_height s;
              JM.feedback := Some JM.MSG_READY;
              JM.y_history := hist |}).
Proof.
  intros hist smooth baseline jump_pixels.
  unfold JM.process_frame, ankles_visible.
  subst jump_pixels baseline smooth hist. unfold ankle_height.
  destruct (JM.pose_landmarks frame) as [landmarks|];
    [| left; split; reflexivity].
  destruct (Qltb (7 # 10) (lm_visibility (landmarks LEFT_ANKLE))
            && Qltb (7 # 10) (lm_visibility (landmarks RIGHT_ANKLE)));
    [| left; split; reflexivity].
  right.
  cbn [JM.set_y_history JM.y_history JM.baseline_y JM.set_baseline_y
       JM.is_jumping].
  match goal with
  | |- context [if Qltb 30 ?jp then _ else _] =>
    destruct (Qltb 30 jp) eqn:E
  end.
  - left. split; [reflexivity |]. split; [apply Qltb_lt; exact E |].
    destruct s as [b mx n j cur fb hist]. destruct j; reflexivity.
  - right. split; [reflexivity |]. split; [apply Qltb_ge; exact E |].
    destruct s as [b mx n j cur fb hist]. destruct j; reflexivity.
Qed.

(** X17. In the mobile jump analyzer a jump is counted exactly on the frame
    where [is_jumping] turns from false to true: one [process_frame] call
    raises [jump_count] by one on such a frame and leaves it alone on every
    other frame, frames that stay in the air included; [max_jump_height]
    never decreases. *)
Theorem jump_counted_on_rising_edge :
  forall (s : JM.State) (frame : JM.Frame),
    let s' := JM.process_frame s frame in
    (JM.jump_count s' = (JM.jump_count s + 1)%nat
     <-> JM.is_jumping s = false /\ JM.is_jumping s' = true)
    /\ (JM.jump_count s' = JM.jump_count s
        \/ JM.jump_count s' = (JM.jump_count s + 1)%nat)
    /\ JM.max_jump_height s <= JM.max_jump_height s'.
Proof.
  intros s frame s'. subst s'.
  destruct (jump_mobile_frame s frame)
    as [[_ ->] | [(_ & _ & ->) | (_ & _ & ->)]];
    cbn [JM.set_feedback JM.jump_count JM.is_jumping JM.max_jump_height].
  - split; [| split; [left; reflexivity | apply Qle_refl]].
    split; [intro H; exfalso; lia |].
    intros [H1 H2]. rewrite H1 in H2. discriminate.
  - destruct (JM.is_jumping s).
    + split; [| split; [left; reflexivity | apply Q.le_max_l]].
      split; [intro H; exfalso; lia | intros [H _]; discriminate].
    + split; [| split; [right; reflexivity | apply Q.le_max_l]].
      split; [intros _; split; reflexivity | intros _; reflexivity].
  - split; [| split; [left; reflexivity | apply Qle_refl]].
    split; [intro H; exfalso; lia | intros [_ H]; discriminate].
Qed.

Lemma calibrated_init : calibrated JM.init.
Proof.
  constructor; cbn; try (split; reflexivity); try reflexivity;
    try discriminate; try lia.
Qed.

Lemma calibrated_process_frame (s : JM.State) (frame : JM.Frame) :
  calibrated s -> calibrated (JM.process_frame s frame).
Proof.
  intros [H1 H2 H3 H4 H5 H6 H7].
  assert (Hhist : deque_append 5 (JM.y_history s) (ankle_height frame) <> []
                  /\ (length (deque_append 5 (JM.y_history s)
                                (ankle_height frame)) <= 5)%nat).
  { rewrite deque_append_length by exact H2. split; [| lia].
    intro H. apply (f_equal (@length Q)) in H.
    rewrite deque_append_length in H by exact H2. cbn [length] in H. lia. }
  destruct Hhist as [Hne Hlen].
  destruct (jump_mobile_frame s frame)
    as [[_ ->] | [(_ & Hjp & ->) | (_ & Hjp & ->)]].
  - constructor; assumption.
  - constructor; cbn [JM.baseline_y JM.y_history JM.is_jumping
      JM.current_jump_height JM.max_jump_height JM.jump_count].
    + split; [discriminate | intro H; contradiction].
    + exact Hlen.
    + discriminate.
    + intros _. eapply Qlt_le_trans; [exact Hjp | apply Q.le_max_r].
    + apply Q.max_le_compat_r. exact H5.
    + destruct (JM.is_jumping s) eqn:Ej; [| intro H; exfalso; lia].
      intro H. destruct (H6 H) as [_ H']. discriminate.
    + intros _. eapply Qlt_le_trans; [exact Hjp | apply Q.le_max_r].
  - constructor; cbn [JM.baseline_y JM.y_history JM.is_jumping
      JM.current_jump_height JM.max_jump_height JM.jump_count].
    + split; [discriminate | intro H; contradiction].
    + exact Hlen.
    + intros _. destruct (JM.is_jumping s) eqn:Ej; [reflexivity |].
      apply H3. reflexivity.
    + discriminate.
    + destruct (JM.is_jumping s) eqn:Ej; [| exact H5].
      eapply Qle_trans; [| exact H5].
      apply Qlt_le_weak. eapply Qlt_trans; [| apply H4; reflexivity].
      reflexivity.
    + intro H. split; [apply H6; exact H | reflexivity].
    + exact H7.
Qed.

Lemma calibrated_run (frames : list JM.Frame) (s : JM.State) :
  calibrated s -> calibrated (JM.run s frames).
Proof.
  revert s. induction frames as [|f frames IH]; intros s Hs; [exact Hs |].
  apply (IH (JM.process_frame s f)). apply calibrated_process_frame. exact Hs.
Qed.

(** X18. Over any frames processed by a fresh mobile jump analyzer: the
    baseline is unset exactly while the ankle window is empty, and the
    window never holds more than five heights; the current jump height is 0
    whenever [is_jumping] is false and above 30 pixels whenever it is true;
    it never exceeds [max_jump_height], which is 0 until a first jump has
    been counted and above 30 from then on. *)
Theorem mobile_jump_heights_consistent :
  forall (frames : list JM.Frame),
    let s := JM.run JM.init frames in
    (JM.baseline_y s = None <-> JM.y_history s = [])
    /\ (length (JM.y_history s) <= 5)%nat
    /\ (JM.is_jumping s = false -> JM.current_jump_height s = 0)
    /\ (JM.is_jumping s = true -> 30 < JM.current_jump_height s)
    /\ JM.current_jump_height s <= JM.max_jump_height s
    /\ (JM.jump_count s = 0%nat ->
        JM.max_jump_height s = 0 /\ JM.is_jumping s = false)
    /\ ((0 < JM.jump_count s)%nat -> 30 < JM.max_jump_height s).
Proof.
  intros frames s.
  destruct (calibrated_run frames JM.init calibrated_init)
    as [H1 H2 H3 H4 H5 H6 H7].
  fold s in H1, H2, H3, H4, H5, H6, H7.
  repeat split; try assumption; try apply H1; try apply H6; assumption.
Qed.

Lemma mobile_jump_heights_consistent_witness :
  30 < JM.max_jump_height
         (JM.run JM.init [ankles_at (3 # 4); ankles_at (1 # 2)])
  /\ 30 < JM.current_jump_height
            (JM.run JM.init [ankles_at (3 # 4); ankles_at (1 # 2)]).
Proof.
  destruct (mobile_jump_heights_consistent
              [ankles_at (3 # 4); ankles_at (1 # 2)])
    as (_ & _ & _ & H4 & _ & _ & H7).
  split; [apply H7; vm_compute; lia | apply H4; vm_compute; reflexivity].
Defined.

(** X19. A frame without a pose, or on which one of the two ankles has
    visibility not above 0.7, only sets the feedback of the mobile jump
    analyzer to the body-not-visible text: baseline, window, heights, jump
    count and [is_jumping] stay as they were. *)
Theorem hidden_ankle_frame_keeps_jump_state :
  forall (s : JM.State) (frame : JM.Frame),
    (JM.pose_landmarks frame = None
     \/ exists landmarks,
          JM.pose_landmarks frame = Some landmarks
          /\ (lm_visibility (landmarks LEFT_ANKLE) <= 7 # 10
              \/ lm_visibility (landmarks RIGHT_ANKLE) <= 7 # 10)) ->
    JM.process_frame s frame = JM.set_feedback (Some MSG_NOT_VISIBLE) s.
Proof.
  intros s frame H.
  assert (Hvis : ankles_visible frame = false).
  { unfold ankles_visible.
    destruct H as [-> | (landmarks & -> & [H | H])]; [reflexivity | |];
      apply Qltb_ge in H; rewrite H; rewrite ?andb_false_r; reflexivity. }
  destruct (jump_mobile_frame s frame)
    as [[_ E] | [(E & _) | (E & _)]]; [exact E | |]; congruence.
Qed.

Lemma hidden_ankle_frame_keeps_jump_state_witness :
  JM.process_frame (JM.run JM.init [ankles_at (3 # 4)])
                   (JM.mkFrame 480 (Some (bent_knees (3 # 10))))
  = JM.set_feedback (Some MSG_NOT_VISIBLE) (JM.run JM.init [ankles_at (3 # 4)]).
Proof.
  apply hidden_ankle_frame_keeps_jump_state.
  right. exists (bent_knees (3 # 10)). split; [reflexivity |].
  left. vm_compute. discriminate.
Defined.

(** X20. The first visible frame only calibrates.  On a mobile jump
    analyzer that is fresh or has just been reset, a frame with both ankles
    visible never counts a jump, whatever the height: the baseline is taken
    from the frame itself, so [jump_pixels] is [(smooth_y - smooth_y) * h]
    and the ready branch runs.  The frame leaves its mean ankle height alone
    in the window, reports Ready to jump, and leaves the baseline at
    [smooth_y * 0.1 + smooth_y * 0.9], the drift step applied to the
    baseline just taken, where [smooth_y] is the mean of that one-value
    window. *)
Theorem first_visible_frame_calibrates :
  forall (s : JM.State) (frame : JM.Frame),
    ankles_visible frame = true ->
    let s' := JM.process_frame (JM.reset s) frame in
    let smooth_y := mean [ankle_height frame] in
    JM.process_frame JM.init frame = s'
    /\ JM.baseline_y s' = Some (smooth_y * (1 # 10) + smooth_y * (9 # 10))
    /\ JM.y_history s' = [ankle_height frame]
    /\ JM.feedback s' = Some JM.MSG_READY
    /\ JM.jump_count s' = 0%nat
    /\ JM.is_jumping s' = false
    /\ JM.current_jump_height s' = 0
    /\ JM.max_jump_height s' = 0.
Proof.
  intros s frame Hvis s' smooth_y. subst s' smooth_y.
  change (JM.reset s) with JM.init.
  split; [reflexivity |].
  destruct (jump_mobile_frame JM.init frame)
    as [[E _] | [(_ & Hjp & _) | (_ & _ & ->)]].
  - congruence.
  - exfalso. cbn [JM.init JM.y_history JM.baseline_y] in Hjp.
    apply (Qlt_not_le _ _ Hjp).
    match goal with
    | |- (?a - ?a) * ?h <= 30 =>
      setoid_replace ((a - a) * h) with 0 by ring
    end. discriminate.
  - cbn [JM.init JM.y_history JM.baseline_y JM.feedback JM.jump_count
         JM.is_jumping JM.max_jump_height JM.current_jump_height].
    change (deque_append 5 [] (ankle_height frame))
      with [ankle_height frame].
    repeat split.
Qed.

Lemma first_visible_frame_calibrates_witness :
  JM.y_history (JM.process_frame JM.init (ankles_at (3 # 4)))
  = [ankle_height (ankles_at (3 # 4))]
  /\ JM.jump_count (JM.process_frame JM.init (ankles_at (3 # 4))) = 0%nat.
Proof.
  destruct (first_visible_frame_calibrates JM.init (ankles_at (3 # 4)))
    as (E & _ & H & _ & Hc & _).
  - vm_compute. reflexivity.
  - rewrite E. split; [exact H | exact Hc].
Defined.

(** * The camera manager over a session *)

Lemma stop_internal_protocol (s : CM.State) :
  follow_protocol (CM.effects s)
  = Some (is_some (CM.analyzer s), is_some (CM.thread s)) ->
  follow_protocol (CM.effects (CM.stop_internal s)) = Some (false, false).
Proof.
  intro H. destruct (stop_internal_fields s) as (_ & _ & _ & _ & _ & ->).
  unfold follow_protocol in *. rewrite fold_left_app, H.
  destruct (CM.thread s), (CM.analyzer s); reflexivity.
Qed.

Lemma managed_init : managed CM.init.
Proof.
  constructor; cbn; try reflexivity; intros; discriminate.
Qed.

Lemma managed_stop (s : CM.State) : managed s -> managed (CM.stop s).
Proof.
  intros [_ _ _ _ H5]. unfold CM.stop.
  pose proof (stop_internal_protocol s H5) as Hp.
  destruct (stop_internal_fields s) as (E1 & E2 & E3 & _ & E5 & _).
  constructor; rewrite ?E1, ?E2, ?E3, ?E5; cbn [is_some];
    try reflexivity; try (intros; discriminate).
  exact Hp.
Qed.

Lemma managed_start (s : CM.State) (analyzer_cls : option CM.Analyzer)
    (ty : string) :
  managed s -> managed (fst (CM.start s analyzer_cls ty)).
Proof.
  intro Hs.
  destruct (start_cases s analyzer_cls ty) as [(_ & _ & ->) | (_ & ->)];
    [exact Hs |].
  destruct Hs as [_ _ _ _ H5].
  pose proof (stop_internal_protocol s H5) as Hp.
  destruct (stop_internal_fields s) as (E1 & E2 & E3 & _ & E5 & _).
  unfold follow_protocol in Hp.
  destruct analyzer_cls as [a|]; cbv zeta.
  - destruct (CM.is_opened_result a) as [[|]|] eqn:Eo; cbn [fst];
      constructor;
      cbn [CM.set_thread CM.set_running CM.set_analyzer_type CM.set_analyzer
           CM.emit CM.set_effects CM.running CM.thread CM.analyzer_type
           CM.analyzer CM.effects is_some];
      rewrite ?E1, ?E2, ?E3, ?E5; cbn [is_some]; try reflexivity;
      try (intros; discriminate);
      try (unfold follow_protocol; rewrite ?fold_left_app, Hp;
           cbn [fold_left protocol]; rewrite ?Eo; reflexivity).
    + intros _. exists a. split; [reflexivity | exact Eo].
    + intros a' Ha. injection Ha as <-. rewrite Eo. discriminate.
    + intros a' Ha. injection Ha as <-. rewrite Eo. discriminate.
  - cbn [fst]. constructor;
      cbn [CM.emit CM.set_effects CM.running CM.thread CM.analyzer_type
           CM.analyzer CM.effects];
      rewrite ?E1, ?E2, ?E3, ?E5; cbn [is_some]; try reflexivity;
      try (intros; discriminate).
    unfold follow_protocol. rewrite fold_left_app, Hp. reflexivity.
Qed.

Lemma managed_session (calls : list ManagerCall) :
  managed (manager_after calls).
Proof.
  unfold manager_after.
  induction calls as [| c calls IH] using rev_ind.
  - exact managed_init.
  - rewrite fold_left_app. cbn [fold_left].
    destruct c as [analyzer_cls ty |]; cbn [manager_call].
    + apply managed_start. exact IH.
    + apply managed_stop. exact IH.
Qed.

(** X21. Whatever series of [start] and [stop] calls a camera manager has
    served, its attributes agree with one another: it is running exactly
    when it has an analyzer type and exactly when it has a capture thread,
    and when it is running it holds an analyzer whose source is opened.  An
    analyzer whose [is_opened()] answered False is never kept. *)
Theorem manager_state_consistent :
  forall (calls : list ManagerCall),
    let s := manager_after calls in
    (CM.is_running s = true <-> CM.get_analyzer_type s <> None)
    /\ (CM.is_running s = true <-> CM.thread s <> None)
    /\ (CM.is_running s = true ->
        exists a, CM.analyzer s = Some a
                  /\ CM.is_opened_result a = Some true)
    /\ (forall a, CM.analyzer s = Some a ->
                  CM.is_opened_result a <> Some false).
Proof.
  intros calls s. destruct (managed_session calls) as [H1 H2 H3 H4 _].
  fold s in H1, H2, H3, H4.
  unfold CM.is_running, CM.get_analyzer_type.
  split; [| split; [| split; [exact H3 | exact H4]]].
  - rewrite H2. destruct (CM.analyzer_type s); cbn; split; intro H;
      try reflexivity; try discriminate; congruence.
  - rewrite H1. destruct (CM.thread s); cbn; split; intro H;
      try reflexivity; try discriminate; congruence.
Qed.

Lemma manager_state_consistent_witness :
  exists a,
    CM.analyzer
      (manager_after [CallStart (Some closed_analyzer) "jump";
                      CallStart (Some open_analyzer) "squat"]) = Some a
    /\ CM.is_opened_result a = Some true.
Proof.
  destruct (manager_state_consistent
              [CallStart (Some closed_analyzer) "jump";
               CallStart (Some open_analyzer) "squat"]) as (_ & _ & H & _).
  apply H. vm_compute. reflexivity.
Defined.


(** X23. [stop] brings any manager back to the attributes of a new one,
    also when [release()] raises; a second [stop] changes nothing and calls
    neither [join] nor [release] again. *)
Theorem stop_returns_to_initial_state :
  forall (s : CM.State),
    let s' := CM.stop s in
    CM.is_running s' = false
    /\ CM.get_analyzer_type s' = None
    /\ CM.get_frame s' = None
    /\ CM.analyzer s' = None
    /\ CM.thread s' = None
    /\ CM.stop s' = s'
    /\ CM.effects (CM.stop s') = CM.effects s'.
Proof.
  intros s s'. subst s'. unfold CM.stop, CM.is_running, CM.get_analyzer_type,
    CM.get_frame.
  destruct (stop_internal_fields s) as (E1 & E2 & E3 & E4 & E5 & _).
  assert (Hagain : CM.stop_internal (CM.stop_internal s)
                   = CM.stop_internal s).
  { destruct s as [an aty fr run th eff].
    destruct th as [t|], an as [old|]; reflexivity. }
  repeat split; try assumption. rewrite Hagain. reflexivity.
Qed.

(** X24. What [start] returns is whether the manager is running afterwards.
    It returns True exactly when the requested type was already running or
    the class gave an analyzer whose source is opened, and then the manager
    has the requested type; when it returns False the manager has no
    analyzer type, no thread and no frame. *)
Theorem start_result_is_running :
  forall (s : CM.State) (analyzer_cls : option CM.Analyzer) (ty : string),
    let r := CM.start s analyzer_cls ty in
    snd r = CM.is_running (fst r)
    /\ (snd r = true <->
        (CM.analyzer_type s = Some ty /\ CM.running s = true)
        \/ (exists a, analyzer_cls = Some a
                      /\ CM.is_opened_result a = Some true))
    /\ (snd r = true -> CM.get_analyzer_type (fst r) = Some ty)
    /\ (snd r = false ->
        CM.get_analyzer_type (fst r) = None
        /\ CM.thread (fst r) = None
        /\ CM.get_frame (fst r) = None).
Proof.
  intros s analyzer_cls ty r. subst r.
  unfold CM.is_running, CM.get_analyzer_type, CM.get_frame.
  destruct (start_cases s analyzer_cls ty)
    as [(H1 & H2 & ->) | (Hn & ->)]; cbn [fst snd].
  - rewrite H2.
    repeat split; intros; try discriminate; try assumption; try reflexivity.
    left. split; [assumption | reflexivity].
  - destruct (stop_internal_fields s) as (E1 & _ & E3 & E4 & E5 & _).
    destruct analyzer_cls as [a|]; cbv zeta.
    + destruct (CM.is_opened_result a) as [[|]|] eqn:Eo; cbn [fst snd];
        cbn [CM.set_thread CM.set_running CM.set_analyzer_type
             CM.set_analyzer CM.emit CM.set_effects CM.running CM.thread
             CM.analyzer_type CM.analyzer CM.frame];
        rewrite ?E1, ?E3, ?E4, ?E5;
        repeat split; intros; try discriminate; try reflexivity.
      * right. exists a. split; [reflexivity | exact Eo].
      * match goal with
        | H : _ \/ _ |- _ => destruct H as [H | (a' & Ha & Ha')]
        end; [contradiction |].
        injection Ha as <-. congruence.
      * match goal with
        | H : _ \/ _ |- _ => destruct H as [H | (a' & Ha & Ha')]
        end; [contradiction |].
        injection Ha as <-. congruence.
    + cbn [fst snd CM.emit CM.set_effects CM.running CM.thread
           CM.analyzer_type CM.frame].
      rewrite ?E1, ?E3, ?E4, ?E5.
      repeat split; intros; try discriminate; try reflexivity.
      match goal with
      | H : _ \/ _ |- _ => destruct H as [H | (a' & Ha & _)]
      end; [contradiction | discriminate].
Qed.

Lemma start_result_is_running_witness :
  CM.get_analyzer_type (fst (CM.start CM.init (Some open_analyzer) "jump"))
  = Some "jump"%string
  /\ CM.thread (fst (CM.start CM.init (Some closed_analyzer) "jump")) = None.
Proof.
  destruct (start_result_is_running CM.init (Some open_analyzer) "jump")
    as (_ & _ & H1 & _).
  destruct (start_result_is_running CM.init (Some closed_analyzer) "jump")
    as (_ & _ & _ & H2).
  split; [apply H1; reflexivity | apply H2; reflexivity].
Defined.

(** * The mobile frame processor over a session *)

Lemma served_snoc
    (calculate_angle : Point -> Point -> Point -> Q)
    (requests : list Request) (r : Request) :
  served calculate_angle (requests ++ [r])
  = serve calculate_angle (served calculate_angle requests) r.
Proof. unfold served. rewrite fold_left_app. reflexivity. Qed.

Lemma jump_after_calls_snoc (calls : list JumpCall) (c : JumpCall) :
  jump_after_calls (calls ++ [c]) = jump_call (jump_after_calls calls) c.
Proof. unfold jump_after_calls. rewrite fold_left_app. reflexivity. Qed.

Lemma squat_calls_snoc (requests : list Request) (r : Request) :
  squat_calls (requests ++ [r])
  = squat_calls requests
    ++ match r with
       | SquatFrame frame => [CallFrame frame]
       | SquatReset => [CallReset]
       | _ => []
       end.
Proof.
  unfold squat_calls. rewrite flat_map_app. cbn [flat_map].
  rewrite app_nil_r. reflexivity.
Qed.

Lemma jump_calls_snoc (requests : list Request) (r : Request) :
  jump_calls (requests ++ [r])
  = jump_calls requests
    ++ match r with
       | JumpFrame frame => [JumpCallFrame frame]
       | JumpReset => [JumpCallReset]
       | _ => []
       end.
Proof.
  unfold jump_calls. rewrite flat_map_app. cbn [flat_map].
  rewrite app_nil_r. reflexivity.
Qed.

(** One request, seen from the analyzer each getter hands out. *)
Lemma serve_squat_view
    (calculate_angle : Point -> Point -> Point -> Q)
    (p : MFP.State) (r : Request) :
  snd (MFP.get_squat_analyzer (serve calculate_angle p r))
  = fold_left (call calculate_angle)
      match r with
      | SquatFrame frame => [CallFrame frame]
      | SquatReset => [CallReset]
      | _ => []
      end (snd (MFP.get_squat_analyzer p))
  /\ is_some (MFP._squat_analyzer (serve calculate_angle p r))
     = is_some (MFP._squat_analyzer p)
       || match r with SquatFrame _ | SquatReset => true | _ => false end.
Proof.
  destruct p as [[sq|] [jm|]], r; cbn; split; reflexivity.
Qed.

Lemma serve_jump_view
    (calculate_angle : Point -> Point -> Point -> Q)
    (p : MFP.State) (r : Request) :
  snd (MFP.get_jump_analyzer (serve calculate_angle p r))
  = fold_left jump_call
      match r with
      | JumpFrame frame => [JumpCallFrame frame]
      | JumpReset => [JumpCallReset]
      | _ => []
      end (snd (MFP.get_jump_analyzer p))
  /\ is_some (MFP._jump_analyzer (serve calculate_angle p r))
     = is_some (MFP._jump_analyzer p)
       || match r with JumpFrame _ | JumpReset => true | _ => false end.
Proof.
  destruct p as [[sq|] [jm|]], r; cbn; split; reflexivity.
Qed.

Lemma served_views
    (calculate_angle : Point -> Point -> Point -> Q)
    (requests : list Request) :
  let p := served calculate_angle requests in
  snd (MFP.get_squat_analyzer p)
  = after_calls calculate_angle (squat_calls requests)
  /\ is_some (MFP._squat_analyzer p)
     = negb (Nat.eqb (length (squat_calls requests)) 0)
  /\ snd (MFP.get_jump_analyzer p) = jump_after_calls (jump_calls requests)
  /\ is_some (MFP._jump_analyzer p)
     = negb (Nat.eqb (length (jump_calls requests)) 0).
Proof.
  induction requests as [| r requests IH] using rev_ind.
  - cbv zeta. repeat split; reflexivity.
  - cbv zeta in *. destruct IH as (I1 & I2 & I3 & I4).
    rewrite served_snoc, squat_calls_snoc, jump_calls_snoc.
    destruct (serve_squat_view calculate_angle
                (served calculate_angle requests) r) as [-> ->].
    destruct (serve_jump_view calculate_angle
                (served calculate_angle requests) r) as [-> ->].
    rewrite I1, I2, I3, I4.
    unfold after_calls, jump_after_calls.
    rewrite !fold_left_app, !length_app.
    repeat split; try reflexivity;
      destruct r; cbn [length]; rewrite ?Nat.add_0_r, ?orb_false_r;
      try reflexivity;
      match goal with
      | |- context [(?n + 1)%nat] =>
        replace (n + 1)%nat with (S n) by lia
      end; cbn [Nat.eqb negb]; apply orb_true_r.
Qed.

(** X25. The frame processor keeps one squat analyzer and one jump analyzer
    for the whole session, created when first asked for.  After any series
    of requests the analyzer handed out by each getter is a fresh analyzer
    that has received exactly the frames and resets sent for its own mode,
    in order: requests for the other mode leave it untouched.  An analyzer
    exists in the processor exactly when a request for its mode was made. *)
Theorem processor_keeps_one_session_per_mode :
  forall (calculate_angle : Point -> Point -> Point -> Q)
         (requests : list Request),
    let p := served calculate_angle requests in
    snd (MFP.get_squat_analyzer p)
    = after_calls calculate_angle (squat_calls requests)
    /\ snd (MFP.get_jump_analyzer p) = jump_after_calls (jump_calls requests)
    /\ (MFP._squat_analyzer p = None <-> squat_calls requests = [])
    /\ (MFP._jump_analyzer p = None <-> jump_calls requests = []).
Proof.
  intros calculate_angle requests p.
  destruct (served_views calculate_angle requests) as (H1 & H2 & H3 & H4).
  fold p in H1, H2, H3, H4.
  split; [exact H1 | split; [exact H3 | split]].
  - destruct (MFP._squat_analyzer p), (squat_calls requests);
      cbn in H2; split; intro H; try reflexivity; discriminate.
  - destruct (MFP._jump_analyzer p), (jump_calls requests);
      cbn in H4; split; intro H; try reflexivity; discriminate.
Qed.

(** X26. Getting an analyzer twice gives the same analyzer and leaves the
    processor as the first call left it; and a reset through the processor
    makes the analyzer forget every earlier request: after it, the analyzer
    is the one of a session that only saw the later requests. *)
Theorem processor_reset_forgets_earlier_requests :
  forall (calculate_angle : Point -> Point -> Point -> Q)
         (p : MFP.State) (earlier later : list Request),
    MFP.get_squat_analyzer (fst (MFP.get_squat_analyzer p))
    = MFP.get_squat_analyzer p
    /\ MFP.get_jump_analyzer (fst (MFP.get_jump_analyzer p))
       = MFP.get_jump_analyzer p
    /\ snd (MFP.get_squat_analyzer
              (served calculate_angle (earlier ++ SquatReset :: later)))
       = after_calls calculate_angle (squat_calls later)
    /\ snd (MFP.get_jump_analyzer
              (served calculate_angle (earlier ++ JumpReset :: later)))
       = jump_after_calls (jump_calls later).
Proof.
  intros calculate_angle p earlier later.
  split; [destruct p as [[sq|] jm]; reflexivity |].
  split; [destruct p as [sq [jm|]]; reflexivity |].
  destruct (served_views calculate_angle (earlier ++ SquatReset :: later))
    as (-> & _ & _ & _).
  destruct (served_views calculate_angle (earlier ++ JumpReset :: later))
    as (_ & _ & -> & _).
  unfold squat_calls, jump_calls, after_calls, jump_after_calls.
  rewrite !flat_map_app. cbn [flat_map app].
  rewrite !fold_left_app. cbn [fold_left call jump_call].
  split; reflexivity.
Qed.
